(** * AWS EC2 billable-resource discovery: a shallow embedding

    The development follows the three Python modules of the repository:

    - [ec2_resource_discovery.py]  (class [EC2ResourceDiscovery])  -> [Module Discovery]
    - [table_formatter.py]         (class [ResourceTableFormatter]) -> [Module Formatter]
    - [aws_ec2_resource_discovery.py] (the command line [main])     -> [Module Cli]

    Python values are modelled by the type [value]; a Python [dict] is an
    association list with unique keys kept in insertion order ([pydict]); the
    provider (boto3) is a record of operations whose answers may depend on the
    calls issued so far; [print], provider calls and file writes are threaded
    through a state-and-exception monad [M]. *)

From Stdlib Require Import String Ascii List ZArith Lia Bool.
From Stdlib Require Import Decimal DecimalString.
Import ListNotations.
Set Warnings "-register-all".
Open Scope string_scope.
Open Scope list_scope.

(* ================================================================== *)
(** ** Python values, strings and dictionaries *)

Module Py.

(** Python objects that occur in resource records.  Floats do not occur in
      the records the collectors build and are not modelled. *)
Inductive value : Type :=
  | VNone
  | VBool (b : bool)
  | VInt (z : Z)
  | VStr (s : string)
  | VList (l : list value)
  | VDict (d : list (string * value)).

(** A [dict] with string keys: insertion-ordered, keys unique. *)
Definition pydict (V : Type) : Type := list (string * V).

Definition keys {V} (d : pydict V) : list string := map fst d.
Definition items {V} (d : pydict V) : list (string * V) := d.

(** [d.get(k)] *)
Fixpoint dict_get {V} (k : string) (d : pydict V) : option V :=
    match d with
    | [] => None
    | (k', v) :: d' => if String.eqb k k' then Some v else dict_get k d'
    end.

(** [d.get(k, default)] *)
Definition dict_get_default {V} (k : string) (default : V) (d : pydict V) : V :=
    match dict_get k d with Some v => v | None => default end.

(** [d[k] = v]: an existing key keeps its position, a new key goes last. *)
Fixpoint dict_set {V} (k : string) (v : V) (d : pydict V) : pydict V :=
    match d with
    | [] => [(k, v)]
    | (k', v') :: d' =>
        if String.eqb k k' then (k', v) :: d' else (k', v') :: dict_set k v d'
    end.

(** [{f(x): g(x) for x in l}] *)
Definition dict_comprehension {X V} (kv : X -> string * V) (l : list X) : pydict V :=
    fold_left (fun d x => dict_set (fst (kv x)) (snd (kv x)) d) l [].

(** [sep.join(l)] *)
Fixpoint join (sep : string) (l : list string) : string :=
    match l with
    | [] => ""
    | [s] => s
    | s :: l' => s ++ sep ++ join sep l'
    end.

(** [s[:n]] *)
Definition str_prefix (n : nat) (s : string) : string := String.substring 0 n s.

(** [s.startswith(p)] *)
Definition startswith (p s : string) : bool := String.prefix p s.

(** [str(n)] for integers. *)
Definition str_of_Z (z : Z) : string := NilZero.string_of_int (Z.to_int z).
Definition str_of_nat (n : nat) : string := str_of_Z (Z.of_nat n).

(** Truth value of an object, as tested by [if x] and [not x]. *)
Definition truthy (v : value) : bool :=
    match v with
    | VNone => false
    | VBool b => b
    | VInt z => negb (Z.eqb z 0)
    | VStr s => negb (String.eqb s "")
    | VList l => match l with [] => false | _ => true end
    | VDict d => match d with [] => false | _ => true end
    end.

Definition is_container (v : value) : bool :=
    match v with VList _ | VDict _ => true | _ => false end.

Section Str.
(** [repr] of a list or of a dict is left to the interpreter. *)
Variable py_repr : value -> string.

(** [str(v)] *)
Definition str (v : value) : string :=
      match v with
      | VNone => "None"
      | VBool true => "True"
      | VBool false => "False"
      | VInt z => str_of_Z z
      | VStr s => s
      | VList _ | VDict _ => py_repr v
      end.
End Str.

(** Exceptions that the program raises, catches or lets through. *)
Inductive exn : Type :=
  | ClientError (code msg : string)   (* botocore.exceptions.ClientError *)
  | NoCredentialsError (msg : string) (* botocore.exceptions.NoCredentialsError *)
  | ValueError (msg : string)
  | TypeError (msg : string)
  | OtherException (msg : string)     (* any other subclass of Exception *)
  | KeyboardInterrupt
  | SystemExit (status : nat).        (* sys.exit(status) *)

(** [isinstance(e, Exception)]: [SystemExit] and [KeyboardInterrupt] derive
      from [BaseException] only. *)
Definition is_Exception (e : exn) : bool :=
    match e with
    | KeyboardInterrupt | SystemExit _ => false
    | _ => true
    end.

(** [str(e)] *)
Definition exn_str (e : exn) : string :=
    match e with
    | ClientError _ msg | NoCredentialsError msg | ValueError msg
    | TypeError msg | OtherException msg => msg
    | KeyboardInterrupt => ""
    | SystemExit n => str_of_nat n
    end.

End Py.
Import Py.

(* ================================================================== *)
(** ** The outside world: provider calls, standard output, written files *)

(** Requests sent to the EC2 control plane. *)
Inductive call : Type :=
| LoadInstance (instance_id : string)              (* ec2_resource.Instance(id).load() *)
| DescribeVolumes (instance_id : string)           (* Filters attachment.instance-id *)
| DescribeNetworkInterfaces (instance_id : string) (* Filters attachment.instance-id *)
| DescribeSnapshots (volume_ids : list value)      (* OwnerIds self, Filters volume-id *)
| DescribeImages (image_id : value)                (* ImageIds=[image_id] *)
| DescribeSecurityGroups (group_ids : list string) (* GroupIds=sg_ids *)
| DescribeAddresses (instance_id : string).        (* Filters instance-id *)

(** One provider call together with the exception it raised, if any. *)
Record event : Type := { ev_call : call; ev_raised : option exn }.

Definition is_ClientError (e : exn) : bool :=
match e with ClientError _ _ => true | _ => false end.

Definition raised_ClientError (ev : event) : bool :=
match ev_raised ev with Some e => is_ClientError e | None => false end.

(** Provider-native structures, reduced to the keys the collectors read.
    Keys read with [x['K']] are plain fields, keys read with [x.get('K', ...)]
    are optional. *)
Record RawAttachment : Type := {
  att_InstanceId : string; att_Device : value; att_DeleteOnTermination : value }.

Record RawVolume : Type := {
  vol_VolumeId : string; vol_Size : value; vol_VolumeType : value;
  vol_State : value; vol_Encrypted : value;
  vol_Iops : option value; vol_Throughput : option value;
  vol_Attachments : option (list RawAttachment);
  vol_Tags : option (list (string * string)) }.

Record RawNetworkInterface : Type := {
  eni_NetworkInterfaceId : string; eni_InterfaceType : option value;
  eni_Status : value; eni_SubnetId : value; eni_VpcId : value;
  eni_PrivateIpAddress : option value;
  eni_Association_PublicIp : option value;  (* eni.get('Association', {}).get('PublicIp') *)
  eni_Groups : option (list string);        (* the GroupId of each entry of Groups *)
  eni_SourceDestCheck : option value;
  eni_TagSet : option (list (string * string)) }.

Record RawSnapshot : Type := {
  snap_SnapshotId : string; snap_VolumeId : value; snap_VolumeSize : value;
  snap_State : value; snap_Progress : option value;
  snap_StartTime_isoformat : string;        (* snapshot['StartTime'].isoformat() *)
  snap_Description : option value; snap_Encrypted : value;
  snap_Tags : option (list (string * string)) }.

Record RawImage : Type := {
  img_ImageId : string; img_Name : option value; img_Description : option value;
  img_State : value; img_Architecture : option value; img_Platform : option value;
  img_VirtualizationType : option value; img_RootDeviceType : option value;
  img_CreationDate : option value; img_Public : option value;
  img_Tags : option (list (string * string)) }.

Record RawSecurityGroup : Type := {
  sg_GroupId : string; sg_GroupName : value; sg_Description : value;
  sg_VpcId : option value;
  sg_IpPermissions : option (list value);
  sg_IpPermissionsEgress : option (list value);
  sg_Tags : option (list (string * string)) }.

Record RawAddress : Type := {
  eip_AllocationId : option string; eip_PublicIp : value;
  eip_PrivateIpAddress : option value; eip_Domain : option value;
  eip_NetworkInterfaceId : option value; eip_AssociationId : option value;
  eip_Tags : option (list (string * string)) }.

(** The attributes of a loaded [ec2.Instance] resource object. *)
Record RawInstance : Type := {
  inst_id : string; inst_instance_type : value; inst_state_Name : value;
  inst_launch_time_isoformat : option string;   (* None when launch_time is falsy *)
  inst_placement_AvailabilityZone : value;
  inst_vpc_id : value; inst_subnet_id : value;
  inst_private_ip_address : value; inst_public_ip_address : value;
  inst_image_id : value; inst_key_name : value;
  inst_tags : option (list (string * string));  (* None when instance.tags is None *)
  inst_security_groups : list string }.         (* the GroupId of each entry *)

(** The provider client adapter.  Every operation sees the calls issued so
    far, so that two identical requests need not be answered alike. *)
Record Provider : Type := {
  session_init : option string -> option string -> option exn;
  instance_load : list event -> string -> exn + RawInstance;
  describe_volumes : list event -> string -> exn + list RawVolume;
  describe_network_interfaces : list event -> string -> exn + list RawNetworkInterface;
  describe_snapshots : list event -> list value -> exn + list RawSnapshot;
  describe_images : list event -> value -> exn + list RawImage;
  describe_security_groups : list event -> list string -> exn + list RawSecurityGroup;
  describe_addresses : list event -> string -> exn + list RawAddress }.

(** A normalized resource record and the aggregate returned by discovery. *)
Definition resource : Type := pydict value.

Record DiscoveryResult : Type := {
  instance_details : pydict value;
  resources : list resource;
  summary : pydict Z }.

(** Content handed to the file system by the two exports. *)
Inductive file_body : Type :=
| CsvFrame (columns : list string) (rows : list (pydict value))
| JsonDocument (doc : DiscoveryResult).

Record world : Type := {
  stdout : list string;              (* one entry per [print] *)
  trace : list event;                (* provider calls, oldest first *)
  files : list (string * file_body)  (* files written, oldest first *) }.

Definition world0 : world := {| stdout := []; trace := []; files := [] |}.

(** Computations: state passing with exceptions. *)
Definition M (A : Type) : Type := world -> (exn + A) * world.

Definition ret {A} (a : A) : M A := fun w => (inr a, w).

Definition raise {A} (e : exn) : M A := fun w => (inl e, w).

Definition bind {A B} (c : M A) (k : A -> M B) : M B :=
fun w => match c w with
         | (inr a, w') => k a w'
         | (inl e, w') => (inl e, w')
         end.

Declare Scope py_scope.
Delimit Scope py_scope with py.
Notation "x <- c ;; k" := (bind c (fun x => k))
  (at level 61, c at next level, right associativity) : py_scope.
Notation "c ;;; k" := (bind c (fun _ => k))
  (at level 61, right associativity) : py_scope.
Open Scope py_scope.

(** [try: body  except ...: handler]: [handler e = None] when no clause
    matches [e], which is then raised again. *)
Definition try_except {A} (body : M A) (handler : exn -> option (M A)) : M A :=
fun w => match body w with
         | (inr a, w') => (inr a, w')
         | (inl e, w') => match handler e with
                          | Some h => h w'
                          | None => (inl e, w')
                          end
         end.

Definition print (line : string) : M unit :=
fun w => (inr tt, {| stdout := stdout w ++ [line]; trace := trace w; files := files w |}).

(** Issue a provider call: the answer is computed from the calls made so
    far, and the call is recorded together with its outcome. *)
Definition request {A} (c : call) (answer : list event -> exn + A) : M A :=
fun w => let r := answer (trace w) in
         (r, {| stdout := stdout w;
                trace := trace w ++ [{| ev_call := c;
                                        ev_raised := match r with inl e => Some e | inr _ => None end |}];
                files := files w |}).

(* ================================================================== *)
(** ** ec2_resource_discovery.py *)

Module Discovery.

(** [x.get('K', default)] on a provider structure. *)
Definition get_or {A} (o : option A) (default : A) : A :=
match o with Some a => a | None => default end.

(** [d['k']] for a key that the dict literal [d] was built with. *)
Definition item (k : string) (d : pydict value) : value := dict_get_default k VNone d.

(** [{tag['Key']: tag['Value'] for tag in tags}] *)
Definition tags_dict (tags : list (string * string)) : value :=
VDict (dict_comprehension (fun tag => (fst tag, VStr (snd tag))) tags).

(** [len(l)] as a Python integer. *)
Definition len {A} (l : list A) : Z := Z.of_nat (length l).

Section WithProvider.
Variable aws : Provider.

(** [EC2ResourceDiscovery.__init__] *)
Definition init (region_name profile_name : option string) : M unit :=
match session_init aws profile_name region_name with
| None => ret tt
| Some (NoCredentialsError _) =>
    print "Error: AWS credentials not found. Please configure your credentials." ;;;
    raise (SystemExit 1)
| Some e =>
    if is_Exception e
    then print ("Error initializing AWS session: " ++ exn_str e) ;;; raise (SystemExit 1)
    else raise e
end.

Definition get_instance_details (instance_id : string) : M (pydict value) :=
try_except
  (instance <- request (LoadInstance instance_id) (fun h => instance_load aws h instance_id) ;;
   ret [ ("instance_id", VStr (inst_id instance));
         ("instance_type", inst_instance_type instance);
         ("state", inst_state_Name instance);
         ("launch_time", match inst_launch_time_isoformat instance with
                         | Some t => VStr t | None => VNone end);
         ("availability_zone", inst_placement_AvailabilityZone instance);
         ("vpc_id", inst_vpc_id instance);
         ("subnet_id", inst_subnet_id instance);
         ("private_ip", inst_private_ip_address instance);
         ("public_ip", inst_public_ip_address instance);
         ("image_id", inst_image_id instance);
         ("key_name", inst_key_name instance);
         ("tags", tags_dict (get_or (inst_tags instance) [])) ])
  (fun e => match e with
            | ClientError code _ =>
                Some (if String.eqb code "InvalidInstanceID.NotFound"
                      then raise (ValueError ("Instance " ++ instance_id ++ " not found"))
                      else raise e)
            | _ => None
            end).

(** The body of the loop of [get_associated_volumes]: the record, then the
    first attachment that names the instance. *)
Definition volume_info (instance_id : string) (volume : RawVolume) : resource :=
let volume_info :=
  [ ("resource_type", VStr "EBS Volume");
    ("resource_id", VStr (vol_VolumeId volume));
    ("size_gb", vol_Size volume);
    ("volume_type", vol_VolumeType volume);
    ("state", vol_State volume);
    ("encrypted", vol_Encrypted volume);
    ("iops", get_or (vol_Iops volume) (VStr "N/A"));
    ("throughput", get_or (vol_Throughput volume) (VStr "N/A"));
    ("device", VNone);
    ("delete_on_termination", VBool false);
    ("tags", tags_dict (get_or (vol_Tags volume) [])) ] in
match find (fun attachment => String.eqb (att_InstanceId attachment) instance_id)
           (get_or (vol_Attachments volume) []) with
| Some attachment =>
    dict_set "delete_on_termination" (att_DeleteOnTermination attachment)
      (dict_set "device" (att_Device attachment) volume_info)
| None => volume_info
end.

(** The handler shared by the collectors: [except ClientError as e: print(...)],
    after which the collector returns its list, still empty since the
    provider call precedes the loop that fills it. *)
Definition except_ClientError (what : string) (e : exn) : option (M (list resource)) :=
match e with
| ClientError _ _ => Some (print ("Error retrieving " ++ what ++ ": " ++ exn_str e) ;;; ret [])
| _ => None
end.

Definition get_associated_volumes (instance_id : string) : M (list resource) :=
try_except
  (response <- request (DescribeVolumes instance_id)
                       (fun h => describe_volumes aws h instance_id) ;;
   ret (map (volume_info instance_id) response))
  (except_ClientError "volumes").

Definition eni_info (eni : RawNetworkInterface) : resource :=
[ ("resource_type", VStr "Network Interface");
  ("resource_id", VStr (eni_NetworkInterfaceId eni));
  ("interface_type", get_or (eni_InterfaceType eni) (VStr "interface"));
  ("status", eni_Status eni);
  ("subnet_id", eni_SubnetId eni);
  ("vpc_id", eni_VpcId eni);
  ("private_ip", get_or (eni_PrivateIpAddress eni) VNone);
  ("public_ip", get_or (eni_Association_PublicIp eni) VNone);
  ("security_groups", VList (map VStr (get_or (eni_Groups eni) [])));
  ("source_dest_check", get_or (eni_SourceDestCheck eni) VNone);
  ("tags", tags_dict (get_or (eni_TagSet eni) [])) ].

Definition get_associated_network_interfaces (instance_id : string) : M (list resource) :=
try_except
  (response <- request (DescribeNetworkInterfaces instance_id)
                       (fun h => describe_network_interfaces aws h instance_id) ;;
   ret (map eni_info response))
  (except_ClientError "network interfaces").

Definition snapshot_info (snapshot : RawSnapshot) : resource :=
[ ("resource_type", VStr "EBS Snapshot");
  ("resource_id", VStr (snap_SnapshotId snapshot));
  ("volume_id", snap_VolumeId snapshot);
  ("volume_size_gb", snap_VolumeSize snapshot);
  ("state", snap_State snapshot);
  ("progress", get_or (snap_Progress snapshot) (VStr "N/A"));
  ("start_time", VStr (snap_StartTime_isoformat snapshot));
  ("description", get_or (snap_Description snapshot) (VStr ""));
  ("encrypted", snap_Encrypted snapshot);
  ("tags", tags_dict (get_or (snap_Tags snapshot) [])) ].

Definition get_associated_snapshots (instance_id : string) : M (list resource) :=
volumes <- get_associated_volumes instance_id ;;
let volume_ids := map (item "resource_id") volumes in
match volume_ids with
| [] => ret []
| _ :: _ =>
    try_except
      (response <- request (DescribeSnapshots volume_ids)
                           (fun h => describe_snapshots aws h volume_ids) ;;
       ret (map snapshot_info response))
      (except_ClientError "snapshots")
end.

Definition ami_info (ami : RawImage) : resource :=
[ ("resource_type", VStr "AMI");
  ("resource_id", VStr (img_ImageId ami));
  ("name", get_or (img_Name ami) (VStr ""));
  ("description", get_or (img_Description ami) (VStr ""));
  ("state", img_State ami);
  ("architecture", get_or (img_Architecture ami) VNone);
  ("platform", get_or (img_Platform ami) (VStr "Linux"));
  ("virtualization_type", get_or (img_VirtualizationType ami) VNone);
  ("root_device_type", get_or (img_RootDeviceType ami) VNone);
  ("creation_date", get_or (img_CreationDate ami) (VStr ""));
  ("public", get_or (img_Public ami) (VBool false));
  ("tags", tags_dict (get_or (img_Tags ami) [])) ].

Definition get_associated_ami (instance_id : string) : M (list resource) :=
try_except
  (instance <- request (LoadInstance instance_id) (fun h => instance_load aws h instance_id) ;;
   if truthy (inst_image_id instance)
   then response <- request (DescribeImages (inst_image_id instance))
                            (fun h => describe_images aws h (inst_image_id instance)) ;;
        ret (map ami_info response)
   else ret [])
  (except_ClientError "AMI").

Definition sg_info (sg : RawSecurityGroup) : resource :=
[ ("resource_type", VStr "Security Group");
  ("resource_id", VStr (sg_GroupId sg));
  ("name", sg_GroupName sg);
  ("description", sg_Description sg);
  ("vpc_id", get_or (sg_VpcId sg) VNone);
  ("inbound_rules", VInt (len (get_or (sg_IpPermissions sg) [])));
  ("outbound_rules", VInt (len (get_or (sg_IpPermissionsEgress sg) [])));
  ("tags", tags_dict (get_or (sg_Tags sg) [])) ].

Definition get_associated_security_groups (instance_id : string) : M (list resource) :=
try_except
  (instance <- request (LoadInstance instance_id) (fun h => instance_load aws h instance_id) ;;
   let sg_ids := inst_security_groups instance in
   match sg_ids with
   | [] => ret []
   | _ :: _ =>
       response <- request (DescribeSecurityGroups sg_ids)
                           (fun h => describe_security_groups aws h sg_ids) ;;
       ret (map sg_info response)
   end)
  (except_ClientError "security groups").

Definition eip_info (eip : RawAddress) : resource :=
[ ("resource_type", VStr "Elastic IP");
  ("resource_id", VStr (get_or (eip_AllocationId eip) "N/A"));
  ("public_ip", eip_PublicIp eip);
  ("private_ip", get_or (eip_PrivateIpAddress eip) VNone);
  ("domain", get_or (eip_Domain eip) (VStr "vpc"));
  ("network_interface_id", get_or (eip_NetworkInterfaceId eip) VNone);
  ("association_id", get_or (eip_AssociationId eip) VNone);
  ("tags", tags_dict (get_or (eip_Tags eip) [])) ].

Definition get_associated_elastic_ips (instance_id : string) : M (list resource) :=
try_except
  (response <- request (DescribeAddresses instance_id)
                       (fun h => describe_addresses aws h instance_id) ;;
   ret (map eip_info response))
  (except_ClientError "Elastic IPs").

(** The record that [discover_all_resources] builds for the instance itself. *)
Definition instance_resource (instance_id : string) (instance_details : pydict value) : resource :=
[ ("resource_type", VStr "EC2 Instance");
  ("resource_id", VStr instance_id);
  ("instance_type", item "instance_type" instance_details);
  ("state", item "state" instance_details);
  ("availability_zone", item "availability_zone" instance_details);
  ("vpc_id", item "vpc_id" instance_details);
  ("private_ip", item "private_ip" instance_details);
  ("public_ip", item "public_ip" instance_details);
  ("tags", item "tags" instance_details) ].

(** Returns [Some result], or [None] for Python's [None]. *)
Definition discover_all_resources (instance_id : string) : M (option DiscoveryResult) :=
print ("Discovering resources for EC2 instance: " ++ instance_id) ;;;
try_except
  (instance_details <- get_instance_details instance_id ;;
   let all_resources := [instance_resource instance_id instance_details] in
   volumes <- get_associated_volumes instance_id ;;
   network_interfaces <- get_associated_network_interfaces instance_id ;;
   snapshots <- get_associated_snapshots instance_id ;;
   amis <- get_associated_ami instance_id ;;
   security_groups <- get_associated_security_groups instance_id ;;
   elastic_ips <- get_associated_elastic_ips instance_id ;;
   let all_resources := all_resources ++ volumes in
   let all_resources := all_resources ++ network_interfaces in
   let all_resources := all_resources ++ snapshots in
   let all_resources := all_resources ++ amis in
   let all_resources := all_resources ++ security_groups in
   let all_resources := all_resources ++ elastic_ips in
   ret (Some {| instance_details := instance_details;
                resources := all_resources;
                summary := [ ("total_resources", len all_resources);
                             ("volumes", len volumes);
                             ("network_interfaces", len network_interfaces);
                             ("snapshots", len snapshots);
                             ("amis", len amis);
                             ("security_groups", len security_groups);
                             ("elastic_ips", len elastic_ips) ] |}))
  (fun e => match e with
            | ValueError _ => Some (print ("Error: " ++ exn_str e) ;;; ret None)
            | _ => if is_Exception e
                   then Some (print ("Unexpected error: " ++ exn_str e) ;;; ret None)
                   else None
            end).

(** The six collectors in the order in which discovery runs them. *)
Definition collectors : list (string -> M (list resource)) :=
[ get_associated_volumes; get_associated_network_interfaces; get_associated_snapshots;
  get_associated_ami; get_associated_security_groups; get_associated_elastic_ips ].

End WithProvider.

(** The [resource_type] written by each collector, by summary key. *)
Definition type_name (kind : string) : string :=
if String.eqb kind "volumes" then "EBS Volume"
else if String.eqb kind "network_interfaces" then "Network Interface"
else if String.eqb kind "snapshots" then "EBS Snapshot"
else if String.eqb kind "amis" then "AMI"
else if String.eqb kind "security_groups" then "Security Group"
else if String.eqb kind "elastic_ips" then "Elastic IP"
else "".

Definition kinds : list string :=
[ "volumes"; "network_interfaces"; "snapshots"; "amis"; "security_groups"; "elastic_ips" ].

(** [r['resource_type'] == t] *)
Definition has_type (t : string) (r : resource) : bool :=
match dict_get "resource_type" r with
| Some (VStr s) => String.eqb s t
| _ => false
end.

(** Number of records of a given [resource_type]. *)
Definition count_type (t : string) (rs : list resource) : Z :=
len (filter (has_type t) rs).

End Discovery.

(* ================================================================== *)
(** ** table_formatter.py *)

Module Formatter.

(** Pure computations that may raise. *)
Definition R (A : Type) : Type := (exn + A)%type.

Definition rbind {A B} (c : R A) (k : A -> R B) : R B :=
match c with inr a => k a | inl e => inl e end.

Notation "x <~ c ;; k" := (rbind c (fun x => k))
  (at level 61, c at next level, right associativity) : py_scope.

(** [for x in l: out.append(f(x))] where [f] may raise. *)
Fixpoint rmap {A B} (f : A -> R B) (l : list A) : R (list B) :=
match l with
| [] => inr []
| a :: l' => b <~ f a ;; bs <~ rmap f l' ;; inr (b :: bs)
end.

Definition lift {A} (c : R A) : M A := fun w => (c, w).

Definition newline : string := String (ascii_of_nat 10) EmptyString.

Definition NA : value := VStr "N/A".

(** [len(v)] *)
Definition py_len (v : value) : R nat :=
match v with
| VStr s => inr (String.length s)
| VList l => inr (length l)
| VDict d => inr (length d)
| _ => inl (TypeError "object has no len()")
end.

(** [v[:n]] *)
Definition py_slice (n : nat) (v : value) : R value :=
match v with
| VStr s => inr (VStr (str_prefix n s))
| VList l => inr (VList (firstn n l))
| _ => inl (TypeError "object is not subscriptable by a slice")
end.

(** [v + s] for a string [s] *)
Definition py_add_str (v : value) (s : string) : R value :=
match v with
| VStr s0 => inr (VStr (s0 ++ s))
| _ => inl (TypeError "unsupported operand type(s) for +")
end.

Definition chars (s : string) : list string :=
map (fun c => String c EmptyString) (list_ascii_of_string s).

Definition as_str (v : value) : R string :=
match v with
| VStr s => inr s
| _ => inl (TypeError "sequence item: expected str instance")
end.

(** [sep.join(v)]: [v] is iterated, and every element must be a string. *)
Definition py_join (sep : string) (v : value) : R string :=
match v with
| VList l => ss <~ rmap as_str l ;; inr (join sep ss)
| VStr s => inr (join sep (chars s))
| VDict d => inr (join sep (keys d))
| _ => inl (TypeError "can only join an iterable")
end.

(** Equality of hashable objects used as [dict] keys ([True == 1]). *)
Definition key_eqb (a b : value) : bool :=
match a, b with
| VNone, VNone => true
| VStr s, VStr t => String.eqb s t
| VInt x, VInt y => Z.eqb x y
| VBool x, VBool y => Bool.eqb x y
| VBool x, VInt y | VInt y, VBool x => Z.eqb (if x then 1 else 0) y
| _, _ => false
end.

Definition is_str (s : string) (v : value) : bool :=
match v with VStr t => String.eqb t s | _ => false end.

(** [str.title()] on ASCII text: a letter that follows a letter is lowered,
    any other letter is raised. *)
Definition is_upper (c : ascii) : bool :=
let n := nat_of_ascii c in (65 <=? n)%nat && (n <=? 90)%nat.
Definition is_lower (c : ascii) : bool :=
let n := nat_of_ascii c in (97 <=? n)%nat && (n <=? 122)%nat.
Definition to_upper (c : ascii) : ascii :=
if is_lower c then ascii_of_nat (nat_of_ascii c - 32) else c.
Definition to_lower (c : ascii) : ascii :=
if is_upper c then ascii_of_nat (nat_of_ascii c + 32) else c.

Fixpoint title_from (after_letter : bool) (s : string) : string :=
match s with
| EmptyString => EmptyString
| String c s' =>
    String (if after_letter then to_lower c else to_upper c)
           (title_from (is_upper c || is_lower c) s')
end.
Definition title (s : string) : string := title_from false s.

(** [s.replace('_', ' ')] *)
Fixpoint replace_underscores (s : string) : string :=
match s with
| EmptyString => EmptyString
| String c s' =>
    String (if Ascii.eqb c "_"%char then " "%char else c) (replace_underscores s')
end.

(** [pandas.DataFrame(rows)] for a list of dicts: the columns are the keys
    of the rows in order of first appearance. *)
Definition add_column (columns : list string) (k : string) : list string :=
if existsb (String.eqb k) columns then columns else columns ++ [k].

Definition frame_columns (rows : list (pydict value)) : list string :=
fold_left (fun columns row => fold_left add_column (keys row) columns) rows [].

Section WithLibraries.
(** [tabulate(pd.DataFrame(table_data), headers='keys', tablefmt=fmt, showindex=False)] *)
Variable tabulate : list (pydict value) -> string -> string.
(** [repr] of lists and dicts. *)
Variable py_repr : value -> string.
(** What opening a path for writing raises, if anything. *)
Variable open_error : string -> option exn.

Definition write_file (filename : string) (body : file_body) : M unit :=
fun w => match open_error filename with
         | Some e => (inl e, w)
         | None => (inr tt, {| stdout := stdout w; trace := trace w;
                               files := files w ++ [(filename, body)] |})
         end.

Definition skip_fields : list string := ["resource_type"; "resource_id"; "tags"].

(** One pass of the loop of [_format_resource_details]. *)
Definition detail (kv : string * value) : list string :=
let (key, value) := kv in
if negb (existsb (String.eqb key) skip_fields)
   && negb (match value with VNone => true | _ => false end)
   && negb (is_str "N/A" value)
then if is_container value
     then if truthy value
          then [(key ++ ": " ++ str_prefix 50 (str py_repr value) ++ "...")%string]
          else []
     else [(key ++ ": " ++ str py_repr value)%string]
else [].

Definition _format_resource_details (resource : resource) : string :=
let details := flat_map detail (items resource) in
join "; " (firstn 3 details).

Definition _format_tags (tags : value) : R string :=
if negb (truthy tags) then inr "None"
else match tags with
     | VDict d =>
         let tag_strings :=
           map (fun kv => (fst kv ++ ":" ++ str py_repr (snd kv))%string) (firstn 2 (items d)) in
         let result := join ", " tag_strings in
         if (2 <? length d)%nat
         then inr (result ++ " (+" ++ str_of_nat (length d - 2) ++ " more)")%string
         else inr result
     | _ => inl (OtherException "object has no attribute 'items'")
     end.

Definition format_resources_table (resources : list resource) (table_format : string) : string :=
match resources with
| [] => "No resources found."
| _ :: _ =>
    let table_data :=
      map (fun resource =>
             [ ("Resource Type", dict_get_default "resource_type" (VStr "Unknown") resource);
               ("Resource ID", dict_get_default "resource_id" NA resource);
               ("Details", VStr (_format_resource_details resource)) ])
          resources in
    tabulate table_data table_format
end.

Definition field (k : string) (r : resource) : value := dict_get_default k NA r.

Definition tags_cell (r : resource) : R value :=
s <~ _format_tags (dict_get_default "tags" (VDict []) r) ;; inr (VStr s).

(** [r.get(k, 'N/A')[:width] + '...' if len(r.get(k, '')) > width else r.get(k, 'N/A')] *)
Definition truncated (k : string) (width : nat) (r : resource) : R value :=
n <~ py_len (dict_get_default k (VStr "") r) ;;
if (width <? n)%nat
then p <~ py_slice width (field k r) ;; py_add_str p "..."
else inr (field k r).

(** [r.get(k, 'N/A')[:width] if r.get(k) else 'N/A'] *)
Definition clipped (k : string) (width : nat) (r : resource) : R value :=
if truthy (dict_get_default k VNone r) then py_slice width (field k r) else inr NA.

Definition table_of (row : resource -> R (pydict value)) (l : list resource)
                    (table_format : string) : R string :=
table_data <~ rmap row l ;; inr (tabulate table_data table_format).

Definition _format_ec2_instances_table : list resource -> string -> R string :=
table_of (fun instance =>
  tags <~ tags_cell instance ;;
  inr [ ("Instance ID", field "resource_id" instance);
        ("Instance Type", field "instance_type" instance);
        ("State", field "state" instance);
        ("AZ", field "availability_zone" instance);
        ("VPC ID", field "vpc_id" instance);
        ("Private IP", field "private_ip" instance);
        ("Public IP", field "public_ip" instance);
        ("Tags", tags) ]).

Definition _format_volumes_table : list resource -> string -> R string :=
table_of (fun volume =>
  tags <~ tags_cell volume ;;
  inr [ ("Volume ID", field "resource_id" volume);
        ("Size (GB)", field "size_gb" volume);
        ("Type", field "volume_type" volume);
        ("State", field "state" volume);
        ("Device", field "device" volume);
        ("Encrypted", field "encrypted" volume);
        ("IOPS", field "iops" volume);
        ("Delete on Term", field "delete_on_termination" volume);
        ("Tags", tags) ]).

Definition _format_network_interfaces_table : list resource -> string -> R string :=
table_of (fun interface =>
  groups <~ py_join ", " (dict_get_default "security_groups" (VList []) interface) ;;
  tags <~ tags_cell interface ;;
  inr [ ("Interface ID", field "resource_id" interface);
        ("Type", field "interface_type" interface);
        ("Status", field "status" interface);
        ("Subnet ID", field "subnet_id" interface);
        ("Private IP", field "private_ip" interface);
        ("Public IP", field "public_ip" interface);
        ("Security Groups", VStr groups);
        ("Tags", tags) ]).

Definition _format_snapshots_table : list resource -> string -> R string :=
table_of (fun snapshot =>
  start_time <~ clipped "start_time" 19 snapshot ;;
  description <~ truncated "description" 30 snapshot ;;
  tags <~ tags_cell snapshot ;;
  inr [ ("Snapshot ID", field "resource_id" snapshot);
        ("Volume ID", field "volume_id" snapshot);
        ("Size (GB)", field "volume_size_gb" snapshot);
        ("State", field "state" snapshot);
        ("Progress", field "progress" snapshot);
        ("Start Time", start_time);
        ("Encrypted", field "encrypted" snapshot);
        ("Description", description);
        ("Tags", tags) ]).

Definition _format_amis_table : list resource -> string -> R string :=
table_of (fun ami =>
  name <~ truncated "name" 30 ami ;;
  creation_date <~ clipped "creation_date" 10 ami ;;
  tags <~ tags_cell ami ;;
  inr [ ("AMI ID", field "resource_id" ami);
        ("Name", name);
        ("State", field "state" ami);
        ("Architecture", field "architecture" ami);
        ("Platform", field "platform" ami);
        ("Virtualization", field "virtualization_type" ami);
        ("Root Device", field "root_device_type" ami);
        ("Public", field "public" ami);
        ("Creation Date", creation_date);
        ("Tags", tags) ]).

Definition _format_security_groups_table : list resource -> string -> R string :=
table_of (fun sg =>
  description <~ truncated "description" 40 sg ;;
  tags <~ tags_cell sg ;;
  inr [ ("Security Group ID", field "resource_id" sg);
        ("Name", field "name" sg);
        ("Description", description);
        ("VPC ID", field "vpc_id" sg);
        ("Inbound Rules", field "inbound_rules" sg);
        ("Outbound Rules", field "outbound_rules" sg);
        ("Tags", tags) ]).

Definition _format_elastic_ips_table : list resource -> string -> R string :=
table_of (fun eip =>
  tags <~ tags_cell eip ;;
  inr [ ("Allocation ID", field "resource_id" eip);
        ("Public IP", field "public_ip" eip);
        ("Private IP", field "private_ip" eip);
        ("Domain", field "domain" eip);
        ("Network Interface", field "network_interface_id" eip);
        ("Association ID", field "association_id" eip);
        ("Tags", tags) ]).

Definition _format_generic_table : list resource -> string -> R string :=
table_of (fun resource =>
  inr [ ("Resource ID", field "resource_id" resource);
        ("Details", VStr (_format_resource_details resource)) ]).

(** [resource_groups]: a dict from [resource_type] to the list of records. *)
Definition groups : Type := list (value * list resource).

(** [if t not in resource_groups: resource_groups[t] = []] followed by
    [resource_groups[t].append(resource)] *)
Fixpoint group_append (resource_type : value) (resource : resource)
                      (resource_groups : groups) : groups :=
match resource_groups with
| [] => [(resource_type, [resource])]
| (t, l) :: rest =>
    if key_eqb resource_type t then (t, l ++ [resource]) :: rest
    else (t, l) :: group_append resource_type resource rest
end.

Fixpoint group_by_type (resources : list resource) (resource_groups : groups) : R groups :=
match resources with
| [] => inr resource_groups
| resource :: rest =>
    let resource_type := dict_get_default "resource_type" (VStr "Unknown") resource in
    if is_container resource_type then inl (TypeError "unhashable type")
    else group_by_type rest (group_append resource_type resource resource_groups)
end.

Definition format_group (table_format : string) (group : value * list resource) : R (list string) :=
let (resource_type, resource_list) := group in
let header := (newline ++ "## " ++ str py_repr resource_type ++ "s" ++ newline)%string in
table <~ (if is_str "EC2 Instance" resource_type
          then _format_ec2_instances_table resource_list table_format
          else if is_str "EBS Volume" resource_type
          then _format_volumes_table resource_list table_format
          else if is_str "Network Interface" resource_type
          then _format_network_interfaces_table resource_list table_format
          else if is_str "EBS Snapshot" resource_type
          then _format_snapshots_table resource_list table_format
          else if is_str "AMI" resource_type
          then _format_amis_table resource_list table_format
          else if is_str "Security Group" resource_type
          then _format_security_groups_table resource_list table_format
          else if is_str "Elastic IP" resource_type
          then _format_elastic_ips_table resource_list table_format
          else _format_generic_table resource_list table_format) ;;
inr [header; table].

Definition format_detailed_resources_table (resources : list resource) (table_format : string)
  : R string :=
match resources with
| [] => inr "No resources found."
| _ :: _ =>
    resource_groups <~ group_by_type resources [] ;;
    formatted_tables <~ rmap (format_group table_format) resource_groups ;;
    inr (join newline (concat formatted_tables))
end.

Definition format_summary_table (summary : pydict Z) (table_format : string) : string :=
let table_data :=
  flat_map (fun kv : string * Z =>
              let (resource_type, count) := kv in
              if String.eqb resource_type "total_resources" then []
              else [ [ ("Resource Type", VStr (title (replace_underscores resource_type)));
                       ("Count", VInt count) ] ])
           (items summary) in
let table_data :=
  table_data ++ [ [ ("Resource Type", VStr "TOTAL");
                    ("Count", VInt (dict_get_default "total_resources" 0%Z summary)) ] ] in
tabulate table_data table_format.

(** One pass of the inner loop of [export_to_csv]. *)
Definition flatten_item (flattened : pydict value) (kv : string * value) : pydict value :=
let (key, value) := kv in
match value with
| VDict d =>
    fold_left (fun fl sub => dict_set (key ++ "_" ++ fst sub)%string (snd sub) fl) (items d) flattened
| VList l => dict_set key (VStr (join ", " (map (str py_repr) l))) flattened
| _ => dict_set key value flattened
end.

Definition flatten (resource : resource) : pydict value :=
fold_left flatten_item (items resource) [].

Definition export_to_csv (resources : list resource) (filename : string) : M string :=
let flattened_resources := map flatten resources in
write_file filename (CsvFrame (frame_columns flattened_resources) flattened_resources) ;;;
ret ("Resources exported to " ++ filename)%string.

Definition export_to_json (discovery_result : DiscoveryResult) (filename : string) : M string :=
write_file filename (JsonDocument discovery_result) ;;;
ret ("Discovery result exported to " ++ filename)%string.

End WithLibraries.

End Formatter.

(* ================================================================== *)
(** ** aws_ec2_resource_discovery.py *)

Module Cli.

(** The namespace returned by [parser.parse_args()]. *)
Record Args : Type := {
  arg_instance_id : string;
  arg_region : option string;
  arg_profile : option string;
  arg_format : string;
  arg_detailed : bool;
  arg_export_csv : option string;
  arg_export_json : option string;
  arg_summary_only : bool }.

(** [s * n] *)
Fixpoint repeat_str (s : string) (n : nat) : string :=
match n with
| O => ""
| S n' => s ++ repeat_str s n'
end.

(** [o or d] for an optional string. *)
Definition or_default (o : option string) (d : string) : string :=
match o with
| Some s => if String.eqb s "" then d else s
| None => d
end.

(** [if o:] for an optional string; the body receives the string. *)
Definition when_given (o : option string) (body : string -> M unit) : M unit :=
match o with
| Some s => if String.eqb s "" then ret tt else body s
| None => ret tt
end.

(** The check made on [args.instance_id] before anything else. *)
Definition invalid_instance_id (instance_id : string) : bool :=
negb (startswith "i-" instance_id) || negb (Nat.eqb (String.length instance_id) 19).

Section WithEnvironment.
Variable aws : Provider.
Variable tabulate : list (pydict value) -> string -> string.
Variable py_repr : value -> string.
Variable open_error : string -> option exn.
(** [datetime.now().strftime('%Y-%m-%d %H:%M:%S')] *)
Variable now : string.

Definition main (args : Args) : M unit :=
let instance_id := arg_instance_id args in
if invalid_instance_id instance_id
then
  print ("Error: Invalid instance ID format: " ++ instance_id) ;;;
  print "Instance ID should be in format: i-1234567890abcdef0" ;;;
  raise (SystemExit 1)
else
  print "AWS EC2 Resource Discovery Tool" ;;;
  print (repeat_str "=" 50) ;;;
  print ("Instance ID: " ++ instance_id) ;;;
  print ("Region: " ++ or_default (arg_region args) "default") ;;;
  print ("Profile: " ++ or_default (arg_profile args) "default") ;;;
  print ("Timestamp: " ++ now) ;;;
  print (repeat_str "=" 50) ;;;
  try_except
    (Discovery.init aws (arg_region args) (arg_profile args) ;;;
     result <- Discovery.discover_all_resources aws instance_id ;;
     match result with
     | None => print "Resource discovery failed." ;;; raise (SystemExit 1)
     | Some result =>
         let details := instance_details result in
         print "\nInstance Details:" ;;;
         print ("  Instance Type: " ++ str py_repr (Discovery.item "instance_type" details)) ;;;
         print ("  State: " ++ str py_repr (Discovery.item "state" details)) ;;;
         print ("  Availability Zone: "
                ++ str py_repr (Discovery.item "availability_zone" details)) ;;;
         print ("  VPC ID: " ++ str py_repr (Discovery.item "vpc_id" details)) ;;;
         print ("  Launch Time: " ++ str py_repr (Discovery.item "launch_time" details)) ;;;
         print "\nResource Summary:" ;;;
         print (Formatter.format_summary_table tabulate (summary result) (arg_format args)) ;;;
         (if negb (arg_summary_only args)
          then
            print "\nDetailed Resource Information:" ;;;
            print (repeat_str "-" 50) ;;;
            if arg_detailed args
            then
              detailed_table <- Formatter.lift
                (Formatter.format_detailed_resources_table
                   tabulate py_repr (resources result) (arg_format args)) ;;
              print detailed_table
            else
              print (Formatter.format_resources_table
                       tabulate py_repr (resources result) (arg_format args))
          else ret tt) ;;;
         when_given (arg_export_csv args) (fun filename =>
           csv_message <- Formatter.export_to_csv py_repr open_error
                            (resources result) filename ;;
           print ("\n" ++ csv_message)) ;;;
         when_given (arg_export_json args) (fun filename =>
           json_message <- Formatter.export_to_json open_error result filename ;;
           print ("\n" ++ json_message)) ;;;
         print "\nResource discovery completed successfully!" ;;;
         print ("Total billable resources found: "
                ++ str_of_Z (dict_get_default "total_resources" 0%Z (summary result)))
     end)
    (fun e => match e with
              | KeyboardInterrupt =>
                  Some (print "\nOperation cancelled by user." ;;; raise (SystemExit 1))
              | _ => if is_Exception e
                     then Some (print ("\nError: " ++ exn_str e) ;;; raise (SystemExit 1))
                     else None
              end).

End WithEnvironment.

(** Exit status of the process for an outcome of [main]. *)
Definition exit_status (r : exn + unit) : nat :=
match r with
| inr _ => 0
| inl (SystemExit n) => n
| inl KeyboardInterrupt => 130
| inl _ => 1
end.

End Cli.

(* ================================================================== *)
(** ** ec2_resource_discovery.py, run as a script *)

Module Standalone.

(** [sys.argv[i] if len(sys.argv) > i else None] *)
Definition argv_or_None (argv : list string) (i : nat) : option string := nth_error argv i.

(** [for line in lines: print(line)] *)
Fixpoint print_all (lines : list string) : M unit :=
match lines with
| [] => ret tt
| line :: lines' => print line ;;; print_all lines'
end.

(** [str(x)] for an optional string. *)
Definition str_of_option (o : option string) : string :=
match o with Some s => s | None => "None" end.

Section WithProvider.
Variable aws : Provider.
(** [session.region_name], the region of the session when none is given. *)
Variable session_region_name : option string.

(** [self.region = region_name or session.region_name] *)
Definition region_of (region_name : option string) : option string :=
match region_name with
| Some s => if String.eqb s "" then session_region_name else Some s
| None => session_region_name
end.

(** The lines of the loop over [result['summary'].items()]. *)
Definition summary_lines (summary : pydict Z) : list string :=
flat_map (fun kv : string * Z =>
            let (resource_type, count) := kv in
            if String.eqb resource_type "total_resources" then []
            else [ ("  " ++ Formatter.title (Formatter.replace_underscores resource_type)
                    ++ ": " ++ str_of_Z count)%string ])
         (items summary).

Definition main (argv : list string) : M DiscoveryResult :=
if (length argv <? 2)%nat
then
  print "Usage: python ec2_resource_discovery.py <instance-id> [region] [profile]" ;;;
  print "Example: python ec2_resource_discovery.py i-1234567890abcdef0 us-east-1 default" ;;;
  raise (SystemExit 1)
else
  let instance_id := nth 1 argv "" in
  let region := argv_or_None argv 2 in
  let profile := argv_or_None argv 3 in
  Discovery.init aws region profile ;;;
  result <- Discovery.discover_all_resources aws instance_id ;;
  match result with
  | Some result =>
      print (Formatter.newline ++ "Resource discovery completed successfully!") ;;;
      print ("Region: " ++ str_of_option (region_of region)) ;;;
      print ("Total resources found: "
             ++ str_of_Z (dict_get_default "total_resources" 0%Z (summary result))) ;;;
      print (Formatter.newline ++ "Resource Summary:") ;;;
      print_all (summary_lines (summary result)) ;;;
      ret result
  | None =>
      print "Resource discovery failed." ;;;
      raise (SystemExit 1)
  end.

End WithProvider.

End Standalone.

(* ================================================================== *)
(** ** Sample providers and records *)

Module Samples.

Definition sample_id : string := "i-1234567890abcdef0".

Definition sample_instance : RawInstance :=
{| inst_id := sample_id; inst_instance_type := VStr "t3.medium";
   inst_state_Name := VStr "running";
   inst_launch_time_isoformat := Some "2024-06-15T09:30:00+00:00";
   inst_placement_AvailabilityZone := VStr "us-east-1a";
   inst_vpc_id := VStr "vpc-12345678"; inst_subnet_id := VStr "subnet-12345678";
   inst_private_ip_address := VStr "10.0.1.100";
   inst_public_ip_address := VStr "54.123.45.67";
   inst_image_id := VStr "ami-1234567890abcdef0"; inst_key_name := VStr "my-key-pair";
   inst_tags := Some [("Name", "WebServer"); ("Environment", "Production");
                      ("Owner", "DevTeam")];
   inst_security_groups := ["sg-12345678"] |}.

Definition sample_volume (volume_id device : string) : RawVolume :=
{| vol_VolumeId := volume_id; vol_Size := VInt 20; vol_VolumeType := VStr "gp3";
   vol_State := VStr "in-use"; vol_Encrypted := VBool true;
   vol_Iops := Some (VInt 3000); vol_Throughput := None;
   vol_Attachments := Some [ {| att_InstanceId := sample_id; att_Device := VStr device;
                                att_DeleteOnTermination := VBool true |} ];
   vol_Tags := Some [("Name", "RootVolume")] |}.

Definition sample_eni : RawNetworkInterface :=
{| eni_NetworkInterfaceId := "eni-1234567890abcdef0"; eni_InterfaceType := None;
   eni_Status := VStr "in-use"; eni_SubnetId := VStr "subnet-12345678";
   eni_VpcId := VStr "vpc-12345678"; eni_PrivateIpAddress := Some (VStr "10.0.1.100");
   eni_Association_PublicIp := None;
   eni_Groups := Some ["sg-12345678"; "sg-87654321"];
   eni_SourceDestCheck := Some (VBool true); eni_TagSet := None |}.

Definition sample_snapshot : RawSnapshot :=
{| snap_SnapshotId := "snap-1234567890abcdef0"; snap_VolumeId := VStr "vol-1";
   snap_VolumeSize := VInt 20; snap_State := VStr "completed";
   snap_Progress := Some (VStr "100%");
   snap_StartTime_isoformat := "2024-06-20T10:30:00+00:00";
   snap_Description := None; snap_Encrypted := VBool true; snap_Tags := None |}.

Definition sample_image : RawImage :=
{| img_ImageId := "ami-1234567890abcdef0"; img_Name := Some (VStr "ubuntu-jammy");
   img_Description := None; img_State := VStr "available";
   img_Architecture := Some (VStr "x86_64"); img_Platform := None;
   img_VirtualizationType := Some (VStr "hvm"); img_RootDeviceType := Some (VStr "ebs");
   img_CreationDate := Some (VStr "2024-03-01T12:00:00.000Z");
   img_Public := Some (VBool true); img_Tags := None |}.

Definition sample_group : RawSecurityGroup :=
{| sg_GroupId := "sg-12345678"; sg_GroupName := VStr "web-server-sg";
   sg_Description := VStr "Security group for web servers";
   sg_VpcId := Some (VStr "vpc-12345678");
   sg_IpPermissions := Some [VDict []; VDict []; VDict []];
   sg_IpPermissionsEgress := Some [VDict []];
   sg_Tags := Some [("Name", "WebServer-SG")] |}.

Definition sample_address : RawAddress :=
{| eip_AllocationId := Some "eipalloc-1234567890abcdef0";
   eip_PublicIp := VStr "54.123.45.67"; eip_PrivateIpAddress := Some (VStr "10.0.1.100");
   eip_Domain := None; eip_NetworkInterfaceId := Some (VStr "eni-1234567890abcdef0");
   eip_AssociationId := Some (VStr "eipassoc-1234567890abcdef0"); eip_Tags := None |}.

(** A provider that answers every request of a kind in the same way. *)
Definition steady_provider (load : exn + RawInstance)
    (volumes : exn + list RawVolume) (interfaces : exn + list RawNetworkInterface)
    (snapshots : exn + list RawSnapshot) (images : exn + list RawImage)
    (groups : exn + list RawSecurityGroup) (addresses : exn + list RawAddress) : Provider :=
{| session_init := fun _ _ => None;
   instance_load := fun _ _ => load;
   describe_volumes := fun _ _ => volumes;
   describe_network_interfaces := fun _ _ => interfaces;
   describe_snapshots := fun _ _ => snapshots;
   describe_images := fun _ _ => images;
   describe_security_groups := fun _ _ => groups;
   describe_addresses := fun _ _ => addresses |}.

(** Two volumes, one record of each other kind. *)
Definition sample_aws : Provider :=
steady_provider (inr sample_instance)
  (inr [sample_volume "vol-1" "/dev/sda1"; sample_volume "vol-2" "/dev/sdf"])
  (inr [sample_eni]) (inr [sample_snapshot]) (inr [sample_image])
  (inr [sample_group]) (inr [sample_address]).

(** An instance with nothing attached. *)
Definition bare_aws : Provider :=
steady_provider (inr sample_instance) (inr []) (inr []) (inr []) (inr []) (inr []) (inr []).

Definition throttled : exn := ClientError "RequestLimitExceeded" "Request limit exceeded.".

(** The instance loads, every describe call is throttled. *)
Definition throttled_aws : Provider :=
steady_provider (inr sample_instance) (inl throttled) (inl throttled) (inl throttled)
  (inl throttled) (inl throttled) (inl throttled).

(** The caller may not describe instances. *)
Definition denied_aws : Provider :=
steady_provider (inl (ClientError "UnauthorizedOperation" "You are not authorized."))
  (inr []) (inr []) (inr []) (inr []) (inr []) (inr []).

(** The instance does not exist. *)
Definition missing_aws : Provider :=
steady_provider (inl (ClientError "InvalidInstanceID.NotFound" "The instance ID does not exist"))
  (inr []) (inr []) (inr []) (inr []) (inr []) (inr []).

Definition empty_result : DiscoveryResult :=
{| instance_details := []; resources := []; summary := [] |}.

(** The result of discovery against [sample_aws]. *)
Definition sample_result : DiscoveryResult :=
Eval vm_compute in
  match fst (Discovery.discover_all_resources sample_aws sample_id world0) with
  | inr (Some r) => r
  | _ => empty_result
  end.

(** A network interface record as test_solution.py mocks it. *)
Definition sample_record : resource :=
[ ("resource_type", VStr "Network Interface");
  ("resource_id", VStr "eni-1234567890abcdef0");
  ("status", VStr "in-use");
  ("security_groups", VList [VStr "sg-12345678"; VStr "sg-87654321"]);
  ("source_dest_check", VBool true);
  ("tags", VDict [("Name", VStr "Primary-ENI"); ("Owner", VStr "DevTeam")]) ].

(** A record in which a tag and a field flatten to the same column. *)
Definition colliding_record : resource :=
[ ("resource_id", VStr "vol-1");
  ("tags", VDict [("Name", VStr "RootVolume")]);
  ("tags_Name", VStr "scratch") ].

(** Libraries that render nothing, to run [main]. *)
Definition blank_tabulate (table_data : list (pydict value)) (table_format : string) : string := "".
Definition blank_repr (v : value) : string := "".
Definition writable (filename : string) : option exn := None.

(** Arguments with an identifier of the right prefix and length that is
    not hexadecimal. *)
Definition odd_args : Cli.Args :=
{| Cli.arg_instance_id := "i-zzzzzzzzzzzzzzzzz"; Cli.arg_region := None;
   Cli.arg_profile := None; Cli.arg_format := "grid"; Cli.arg_detailed := false;
   Cli.arg_export_csv := None; Cli.arg_export_json := None;
   Cli.arg_summary_only := false |}.

Definition short_args : Cli.Args :=
{| Cli.arg_instance_id := "i-123"; Cli.arg_region := None;
   Cli.arg_profile := None; Cli.arg_format := "grid"; Cli.arg_detailed := false;
   Cli.arg_export_csv := None; Cli.arg_export_json := None;
   Cli.arg_summary_only := false |}.

(** The tag mapping of the mock instance of test_solution.py. *)
Definition sample_tags : pydict string :=
[("Name", "WebServer"); ("Environment", "Production"); ("Owner", "DevTeam")].

(** The endpoint cannot be reached when volumes are queried. *)
Definition unreachable : exn := OtherException "Could not connect to the endpoint URL".

Definition unreachable_aws : Provider :=
steady_provider (inr sample_instance) (inl unreachable) (inr []) (inr []) (inr [])
  (inr []) (inr []).

(** The user interrupts the instance load. *)
Definition interrupted_aws : Provider :=
steady_provider (inl KeyboardInterrupt) (inr []) (inr []) (inr []) (inr []) (inr []) (inr []).

(** No credentials are configured. *)
Definition no_credentials_aws : Provider :=
{| session_init := fun _ _ => Some (NoCredentialsError "Unable to locate credentials");
   instance_load := instance_load bare_aws;
   describe_volumes := describe_volumes bare_aws;
   describe_network_interfaces := describe_network_interfaces bare_aws;
   describe_snapshots := describe_snapshots bare_aws;
   describe_images := describe_images bare_aws;
   describe_security_groups := describe_security_groups bare_aws;
   describe_addresses := describe_addresses bare_aws |}.

(** An instance without image identifier and without security groups. *)
Definition plain_instance : RawInstance :=
{| inst_id := sample_id; inst_instance_type := VStr "t3.micro";
   inst_state_Name := VStr "stopped"; inst_launch_time_isoformat := None;
   inst_placement_AvailabilityZone := VStr "us-east-1a";
   inst_vpc_id := VNone; inst_subnet_id := VNone;
   inst_private_ip_address := VNone; inst_public_ip_address := VNone;
   inst_image_id := VNone; inst_key_name := VNone;
   inst_tags := None; inst_security_groups := [] |}.

Definition plain_aws : Provider :=
steady_provider (inr plain_instance) (inr []) (inr []) (inr []) (inr []) (inr []) (inr []).

(** Arguments asking for both exports. *)
Definition export_args : Cli.Args :=
{| Cli.arg_instance_id := sample_id; Cli.arg_region := Some "us-east-1";
   Cli.arg_profile := None; Cli.arg_format := "grid"; Cli.arg_detailed := true;
   Cli.arg_export_csv := Some "resources.csv";
   Cli.arg_export_json := Some "discovery_result.json";
   Cli.arg_summary_only := false |}.

(** A security group record whose description has 55 characters. *)
Definition wordy_group : resource :=
[ ("resource_type", VStr "Security Group");
  ("resource_id", VStr "sg-87654321");
  ("description", VStr "Security group allowing SSH access from office IP range");
  ("vpc_id", VNone);
  ("tags", VDict []) ].

(** A record whose type is a list. *)
Definition untyped_record : resource :=
[ ("resource_type", VList [VStr "EBS Volume"]); ("resource_id", VStr "vol-1") ].

(** A tag list in which the provider repeats a key. *)
Definition repeated_tags : list (string * string) :=
[("Name", "old"); ("Owner", "DevTeam"); ("Name", "new")].

End Samples.

(* ================================================================== *)
(** ** Properties stated by the specification *)

(** Resources appear in the order of a provider response: the list is
    empty, or it is the image under [f], in order, of an answer of [ask]. *)
Definition in_response_order {A Q : Type} (f : A -> resource)
    (ask : list event -> Q -> exn + list A) (out : list resource) : Prop :=
out = [] \/ exists h q response, ask h q = inr response /\ out = map f response.

Definition all_of_type (t : string) (rs : list resource) : Prop :=
Forall (fun r => Discovery.has_type t r = true) rs.

(** A provider whose operations, the instance load included, raise nothing
    but [ClientError]. *)
Definition no_raise_but_ClientError {A} (r : exn + A) : bool :=
match r with inl e => is_ClientError e | inr _ => true end.

Record client_errors_only (aws : Provider) : Prop := {
  ceo_load : forall h q, no_raise_but_ClientError (instance_load aws h q) = true;
  ceo_volumes : forall h q, no_raise_but_ClientError (describe_volumes aws h q) = true;
  ceo_interfaces :
    forall h q, no_raise_but_ClientError (describe_network_interfaces aws h q) = true;
  ceo_snapshots : forall h q, no_raise_but_ClientError (describe_snapshots aws h q) = true;
  ceo_images : forall h q, no_raise_but_ClientError (describe_images aws h q) = true;
  ceo_groups : forall h q, no_raise_but_ClientError (describe_security_groups aws h q) = true;
  ceo_addresses : forall h q, no_raise_but_ClientError (describe_addresses aws h q) = true }.

(** What a collector run does to the world, and what it returns when one
    of its provider calls raised a [ClientError]. *)
Definition soft (c : M (list resource)) : Prop :=
forall w, exists evs msgs,
  trace (snd (c w)) = trace w ++ evs /\
  stdout (snd (c w)) = stdout w ++ msgs /\
  files (snd (c w)) = files w /\
  match fst (c w) with
  | inr out => existsb raised_ClientError evs = true -> out = [] /\ exists m, msgs = [m]
  | inl e => existsb raised_ClientError evs = false
  end.

(** A collector that always returns a list. *)
Definition returns (c : M (list resource)) : Prop :=
forall w, exists out w', c w = (inr out, w').

(** The tags rendering, following the words of the specification. *)
Definition render_tags_spec (tags : pydict string) : string :=
match tags with
| [] => "None"
| [(k1, v1)] => k1 ++ ":" ++ v1
| [(k1, v1); (k2, v2)] => k1 ++ ":" ++ v1 ++ ", " ++ k2 ++ ":" ++ v2
| (k1, v1) :: (k2, v2) :: _ =>
    k1 ++ ":" ++ v1 ++ ", " ++ k2 ++ ":" ++ v2
    ++ " (+" ++ str_of_nat (length tags - 2) ++ " more)"
end.

(** A [Dict[str, str]] as a Python object. *)
Definition tags_value (tags : pydict string) : value :=
VDict (map (fun kv => (fst kv, VStr (snd kv))) tags).

(** The instance-ID pattern of the specification: [i-] and 17 hexadecimal
    characters. *)
Definition is_hex (c : ascii) : bool :=
let n := nat_of_ascii c in
((48 <=? n) && (n <=? 57) || (97 <=? n) && (n <=? 102) || (65 <=? n) && (n <=? 70))%nat.

Definition matches_pattern (s : string) : bool :=
match s with
| String "i" (String "-" rest) =>
    Nat.eqb (String.length rest) 17 && forallb is_hex (list_ascii_of_string rest)
| _ => false
end.

(** Column names that [flatten] assigns for a record, one per assignment. *)
Definition flat_names (r : resource) : list string :=
flat_map (fun kv : string * value =>
            match snd kv with
            | VDict d => map (fun sub => (fst kv ++ "_" ++ fst sub)%string) d
            | _ => [fst kv]
            end) r.

Definition is_scalar (v : value) : bool := negb (is_container v).

(** The assignments [flattened[name] = value] that [flatten] makes for a
    record, in order. *)
Definition flat_items (py_repr : value -> string) (r : resource) : pydict value :=
flat_map (fun kv : string * value =>
            match snd kv with
            | VDict d => map (fun sub => ((fst kv ++ "_" ++ fst sub)%string, snd sub)) d
            | VList l => [(fst kv, VStr (join ", " (map (str py_repr) l)))]
            | v => [(fst kv, v)]
            end) r.

(** [flattened[k] = v] for each pair of a list, in order. *)
Definition assign_all (kvs : pydict value) (flattened : pydict value) : pydict value :=
fold_left (fun fl kv => dict_set (fst kv) (snd kv) fl) kvs flattened.

(* ================================================================== *)
(** ** Shapes of runs *)

(** What happened between two worlds: the provider calls made and the
    lines printed, no file being written. *)
Definition extends (w w' : world) (evs : list event) (msgs : list string) : Prop :=
trace w' = trace w ++ evs /\ stdout w' = stdout w ++ msgs /\ files w' = files w.

(** A call that raised nothing; a call that raised nothing or a [ClientError]. *)
Definition quiet (ev : event) : bool :=
match ev_raised ev with None => true | Some _ => false end.

Definition benign (ev : event) : bool :=
match ev_raised ev with None => true | Some e => is_ClientError e end.

(** The contract of a collector run: only its last provider call may have
    raised; a [ClientError] is answered by the empty list and one printed
    line, any other exception leaves the collector as it is and nothing is
    printed; without an exception nothing is printed. *)
Fixpoint shaped (evs : list event) (msgs : list string) (res : exn + list resource) : Prop :=
match evs with
| [] => msgs = [] /\ exists out, res = inr out
| ev :: evs' =>
    match evs' with
    | [] =>
        match ev_raised ev with
        | None => msgs = [] /\ exists out, res = inr out
        | Some e =>
            if is_ClientError e
            then res = inr [] /\ exists m, msgs = [m]
            else res = inl e /\ msgs = []
        end
    | _ :: _ => ev_raised ev = None /\ shaped evs' msgs res
    end
end.

(** One call, or that call followed by a second one of a given kind. *)
Definition one_or_two (first : call) (is_second : call -> bool) (calls : list call) : Prop :=
calls = [first] \/ exists second, is_second second = true /\ calls = [first; second].

Definition is_DescribeSnapshots (c : call) : bool :=
match c with DescribeSnapshots _ => true | _ => false end.
Definition is_DescribeImages (c : call) : bool :=
match c with DescribeImages _ => true | _ => false end.
Definition is_DescribeSecurityGroups (c : call) : bool :=
match c with DescribeSecurityGroups _ => true | _ => false end.

(** A collector run, with the calls it is allowed to make. *)
Definition contract (allowed : list call -> Prop) (c : M (list resource)) : Prop :=
forall w, exists evs msgs,
  extends w (snd (c w)) evs msgs /\ shaped evs msgs (fst (c w)) /\ allowed (map ev_call evs).

(** The keys of the dict that [get_instance_details] returns. *)
Definition instance_details_keys : list string :=
[ "instance_id"; "instance_type"; "state"; "launch_time"; "availability_zone"; "vpc_id";
  "subnet_id"; "private_ip"; "public_ip"; "image_id"; "key_name"; "tags" ].

(** What [get_instance_details] raises when the load raised [e]. *)
Definition details_exception (instance_id : string) (e : exn) : exn :=
match e with
| ClientError "InvalidInstanceID.NotFound" _ =>
    ValueError ("Instance " ++ instance_id ++ " not found")
| _ => e
end.

(** The provider calls of a discovery that returns a result. *)
Definition discovery_calls (id : string) (calls : list call) : Prop :=
exists snapshot_calls image_calls group_calls,
  one_or_two (DescribeVolumes id) is_DescribeSnapshots snapshot_calls /\
  one_or_two (LoadInstance id) is_DescribeImages image_calls /\
  one_or_two (LoadInstance id) is_DescribeSecurityGroups group_calls /\
  calls = [LoadInstance id; DescribeVolumes id; DescribeNetworkInterfaces id]
          ++ snapshot_calls ++ image_calls ++ group_calls ++ [DescribeAddresses id].

(** The line that [discover_all_resources] prints first. *)
Definition banner (id : string) : string := "Discovering resources for EC2 instance: " ++ id.

(** The keys of the summary of a discovery result, in order. *)
Definition summary_keys : list string :=
"total_resources" :: Discovery.kinds.

(** The line printed when discovery gives up on exception [e]. *)
Definition failure_line (e : exn) : string :=
match e with
| ValueError _ => "Error: " ++ exn_str e
| _ => "Unexpected error: " ++ exn_str e
end.

(** The keys of a volume record, in order. *)
Definition volume_keys : list string :=
[ "resource_type"; "resource_id"; "size_gb"; "volume_type"; "state"; "encrypted"; "iops";
  "throughput"; "device"; "delete_on_termination"; "tags" ].

(** An event of a call that raised nothing. *)
Definition ok (c : call) : event := {| ev_call := c; ev_raised := None |}.

(** The world after some more provider calls. *)
Definition after_calls (w : world) (evs : list event) : world :=
{| stdout := stdout w; trace := trace w ++ evs; files := files w |}.

(** [resource.get('resource_type', 'Unknown')] *)
Definition type_of (r : resource) : value :=
dict_get_default "resource_type" (VStr "Unknown") r.

(** The resources of a list whose type equals [t] as a dict key. *)
Definition of_key (t : value) (rs : list resource) : list resource :=
filter (fun r => Formatter.key_eqb (type_of r) t) rs.

(** No two keys of a list are equal as dict keys. *)
Fixpoint distinct (ks : list value) : Prop :=
match ks with
| [] => True
| k :: ks' => Forall (fun k' => Formatter.key_eqb k' k = false) ks' /\ distinct ks'
end.

(** The state of the grouping loop after the resources [seen]: the groups
    have distinct keys, each group holds, in order, the resources seen so
    far of its key, and every resource seen has its group. *)
Definition grouped (seen : list resource) (gs : Formatter.groups) : Prop :=
distinct (map fst gs) /\
(forall t l, In (t, l) gs -> l <> [] /\ l = of_key t seen) /\
(forall r, In r seen -> exists t l, In (t, l) gs /\ Formatter.key_eqb (type_of r) t = true).

(** The six type names that the collectors write, as dict keys. *)
Definition collector_types : list value :=
map (fun kind => VStr (Discovery.type_name kind)) Discovery.kinds.

(** The fields that [_format_resource_details] lets through. *)
Definition shown (kv : string * value) : bool :=
negb (existsb (String.eqb (fst kv)) Formatter.skip_fields)
&& match snd kv with
   | VNone => false
   | VStr s => negb (String.eqb s "N/A")
   | VList [] | VDict [] => false
   | _ => true
   end.

(** The world after a file has been written. *)
Definition with_file (w : world) (filename : string) (body : file_body) : world :=
{| stdout := stdout w; trace := trace w; files := files w ++ [(filename, body)] |}.

(** One row of the summary table. *)
Definition summary_row (label : string) (count : Z) : pydict value :=
[ ("Resource Type", VStr label); ("Count", VInt count) ].

(** The world after one more printed line. *)
Definition printed (w : world) (line : string) : world :=
{| stdout := stdout w ++ [line]; trace := trace w; files := files w |}.

(** The world after the lines that [main] prints before it starts. *)
Definition after_header (now : string) (args : Cli.Args) (w : world) : world :=
fold_left printed
  [ "AWS EC2 Resource Discovery Tool";
    Cli.repeat_str "=" 50;
    ("Instance ID: " ++ Cli.arg_instance_id args)%string;
    ("Region: " ++ Cli.or_default (Cli.arg_region args) "default")%string;
    ("Profile: " ++ Cli.or_default (Cli.arg_profile args) "default")%string;
    ("Timestamp: " ++ now)%string;
    Cli.repeat_str "=" 50 ]
  w.

(** The line that [__init__] prints when the session cannot be created. *)
Definition session_failure_line (e : exn) : string :=
match e with
| NoCredentialsError _ => "Error: AWS credentials not found. Please configure your credentials."
| _ => "Error initializing AWS session: " ++ exn_str e
end.

(** [if o:] for an optional string. *)
Definition given (o : option string) : list string :=
match o with
| Some s => if String.eqb s "" then [] else [s]
| None => []
end.

(** Records that the detailed tables can show: the type is hashable, the
    tags are a dict (or falsy), [description] and [name] are strings when
    present, [start_time] and [creation_date] are strings or falsy when
    present, and [security_groups], when present, is a list of strings. *)
Definition is_text (v : value) : bool :=
match v with VStr _ => true | _ => false end.

Definition is_dict (v : value) : bool :=
match v with VDict _ => true | _ => false end.

Definition field_ok (test : value -> bool) (k : string) (r : resource) : bool :=
match dict_get k r with None => true | Some v => test v end.

Definition displayable (r : resource) : bool :=
negb (is_container (type_of r))
&& field_ok (fun v => negb (truthy v) || is_dict v) "tags" r
&& field_ok is_text "description" r
&& field_ok is_text "name" r
&& field_ok (fun v => negb (truthy v) || is_text v) "start_time" r
&& field_ok (fun v => negb (truthy v) || is_text v) "creation_date" r
&& field_ok (fun v => match v with VList l => forallb is_text l | _ => false end)
            "security_groups" r.

(** An optional provider attribute that is a string when it is there. *)
Definition text_if_present (o : option value) : bool :=
match o with None => true | Some v => is_text v end.

(** A provider whose descriptions, names and dates are strings. *)
Record text_attributes (aws : Provider) : Prop := {
  ta_snapshots :
    forall h q l, describe_snapshots aws h q = inr l ->
                  Forall (fun s => text_if_present (snap_Description s) = true) l;
  ta_images :
    forall h q l, describe_images aws h q = inr l ->
                  Forall (fun i => text_if_present (img_Name i) = true /\
                                   text_if_present (img_Description i) = true /\
                                   text_if_present (img_CreationDate i) = true) l;
  ta_groups :
    forall h q l, describe_security_groups aws h q = inr l ->
                  Forall (fun g => is_text (sg_Description g) = true /\
                                   is_text (sg_GroupName g) = true) l }.

(* ================================================================== *)
(** ** Running computations *)

Section MonadLaws.
Context {A B : Type}.

Lemma bind_inr (c : M A) (k : A -> M B) w b w' :
  bind c k w = (inr b, w') ->
  exists a w1, c w = (inr a, w1) /\ k a w1 = (inr b, w').
Proof.
  unfold bind. destruct (c w) as [[e | a] w1]; intros H.
  - discriminate.
  - now exists a, w1.
Qed.

Lemma try_except_inr (body : M A) handler w a w' :
  try_except body handler w = (inr a, w') ->
  body w = (inr a, w') \/
  exists e w1 h, body w = (inl e, w1) /\ handler e = Some h /\ h w1 = (inr a, w').
Proof.
  unfold try_except. destruct (body w) as [[e | a0] w1]; intros H.
  - destruct (handler e) as [h |] eqn:Hh; [| discriminate].
    right. now exists e, w1, h.
  - now left.
Qed.

End MonadLaws.

(** Case analysis on whatever a run is stuck on, innermost scrutinee first:
    provider answers, exceptions met by a handler, tests on the data. *)
Ltac answers :=
  repeat match goal with
  | |- context [match ?x with _ => _ end] =>
      lazymatch x with
      | context [match _ with _ => _ end] => fail
      | _ => destruct x eqn:?; cbn
      end
  end.

Ltac unfold_run :=
  unfold Discovery.get_associated_snapshots;
  unfold Discovery.get_associated_volumes, Discovery.get_associated_network_interfaces,
         Discovery.get_associated_ami, Discovery.get_associated_security_groups,
         Discovery.get_associated_elastic_ips,
         try_except, bind, request, Discovery.except_ClientError, print, ret, raise.

Ltac close_soft :=
  repeat rewrite <- app_assoc; cbn [app];
  eexists; eexists;
  split; [reflexivity |];
  split; [first [reflexivity | symmetry; apply app_nil_r] |];
  split; [reflexivity |];
  cbn; first [reflexivity | intros; discriminate | solve [intros; split; eauto]].

Section Collectors.
Variable aws : Provider.
Variable id : string.

Lemma volumes_soft : soft (Discovery.get_associated_volumes aws id).
Proof. intros w. unfold_run. cbn. answers; close_soft. Qed.

Lemma interfaces_soft : soft (Discovery.get_associated_network_interfaces aws id).
Proof. intros w. unfold_run. cbn. answers; close_soft. Qed.

Lemma snapshots_soft : soft (Discovery.get_associated_snapshots aws id).
Proof. intros w. unfold_run. cbn. answers; close_soft. Qed.

Lemma ami_soft : soft (Discovery.get_associated_ami aws id).
Proof. intros w. unfold_run. cbn. answers; close_soft. Qed.

Lemma security_groups_soft : soft (Discovery.get_associated_security_groups aws id).
Proof. intros w. unfold_run. cbn. answers; close_soft. Qed.

Lemma elastic_ips_soft : soft (Discovery.get_associated_elastic_ips aws id).
Proof. intros w. unfold_run. cbn. answers; close_soft. Qed.

(** The [resource_type] of the records each collector builds. *)
Lemma volume_info_type v : Discovery.has_type "EBS Volume" (Discovery.volume_info id v) = true.
Proof.
  unfold Discovery.volume_info.
  destruct (find _ _); reflexivity.
Qed.

Lemma volume_info_id v :
  Discovery.item "resource_id" (Discovery.volume_info id v) = VStr (vol_VolumeId v).
Proof.
  unfold Discovery.volume_info.
  destruct (find _ _); reflexivity.
Qed.

Lemma all_of_type_map {X} t (f : X -> resource) l :
  (forall x, Discovery.has_type t (f x) = true) -> all_of_type t (map f l).
Proof.
  intros Hf. unfold all_of_type. rewrite Forall_map. apply Forall_forall. auto.
Qed.

Lemma in_response_order_typed {X Q} t (f : X -> resource)
      (ask : list event -> Q -> exn + list X) out :
  (forall x, Discovery.has_type t (f x) = true) ->
  in_response_order f ask out -> all_of_type t out.
Proof.
  intros Hf [-> | (h & q & resp & _ & ->)].
  - constructor.
  - now apply all_of_type_map.
Qed.

(** What a collector returns is in the order of a provider response. *)
Ltac close_order :=
  first [ exact I
        | left; reflexivity
        | right; do 3 eexists; split; [eassumption | reflexivity] ].

Lemma volumes_order w :
  match fst (Discovery.get_associated_volumes aws id w) with
  | inr out => in_response_order (Discovery.volume_info id) (describe_volumes aws) out
  | inl _ => True
  end.
Proof. unfold_run. cbn. answers; close_order. Qed.

Lemma interfaces_order w :
  match fst (Discovery.get_associated_network_interfaces aws id w) with
  | inr out => in_response_order Discovery.eni_info (describe_network_interfaces aws) out
  | inl _ => True
  end.
Proof. unfold_run. cbn. answers; close_order. Qed.

Lemma snapshots_order w :
  match fst (Discovery.get_associated_snapshots aws id w) with
  | inr out => in_response_order Discovery.snapshot_info (describe_snapshots aws) out
  | inl _ => True
  end.
Proof. unfold_run. cbn. answers; close_order. Qed.

Lemma ami_order w :
  match fst (Discovery.get_associated_ami aws id w) with
  | inr out => in_response_order Discovery.ami_info (describe_images aws) out
  | inl _ => True
  end.
Proof. unfold_run. cbn. answers; close_order. Qed.

Lemma security_groups_order w :
  match fst (Discovery.get_associated_security_groups aws id w) with
  | inr out => in_response_order Discovery.sg_info (describe_security_groups aws) out
  | inl _ => True
  end.
Proof. unfold_run. cbn. answers; close_order. Qed.

Lemma elastic_ips_order w :
  match fst (Discovery.get_associated_elastic_ips aws id w) with
  | inr out => in_response_order Discovery.eip_info (describe_addresses aws) out
  | inl _ => True
  end.
Proof. unfold_run. cbn. answers; close_order. Qed.

End Collectors.

(* ================================================================== *)
(** ** The discovery orchestrator *)

Section Orchestrator.
Variable aws : Provider.
Variable id : string.

(** A successful discovery decomposes into the successful runs of its
    seven steps, and its result is assembled from what they returned. *)
Lemma discover_inv w r :
  fst (Discovery.discover_all_resources aws id w) = inr (Some r) ->
  exists details w0 vols w1 enis w2 snaps w3 amis w4 sgs w5 eips w6 w7,
    Discovery.get_instance_details aws id w0 = (inr details, w1) /\
    Discovery.get_associated_volumes aws id w1 = (inr vols, w2) /\
    Discovery.get_associated_network_interfaces aws id w2 = (inr enis, w3) /\
    Discovery.get_associated_snapshots aws id w3 = (inr snaps, w4) /\
    Discovery.get_associated_ami aws id w4 = (inr amis, w5) /\
    Discovery.get_associated_security_groups aws id w5 = (inr sgs, w6) /\
    Discovery.get_associated_elastic_ips aws id w6 = (inr eips, w7) /\
    instance_details r = details /\
    resources r =
      Discovery.instance_resource id details :: vols ++ enis ++ snaps ++ amis ++ sgs ++ eips /\
    summary r = [ ("total_resources", Discovery.len (resources r));
                  ("volumes", Discovery.len vols);
                  ("network_interfaces", Discovery.len enis);
                  ("snapshots", Discovery.len snaps);
                  ("amis", Discovery.len amis);
                  ("security_groups", Discovery.len sgs);
                  ("elastic_ips", Discovery.len eips) ].
Proof.
  intros H.
  destruct (Discovery.discover_all_resources aws id w) as [res w'] eqn:E.
  cbn in H. subst res.
  unfold Discovery.discover_all_resources in E.
  apply bind_inr in E as (u & w0 & _ & E).
  apply try_except_inr in E as [E | (e & wh & h & _ & Hh & E)].
  - apply bind_inr in E as (details & w1 & Hdetails & E).
    apply bind_inr in E as (vols & w2 & Hvols & E).
    apply bind_inr in E as (enis & w3 & Henis & E).
    apply bind_inr in E as (snaps & w4 & Hsnaps & E).
    apply bind_inr in E as (amis & w5 & Hamis & E).
    apply bind_inr in E as (sgs & w6 & Hsgs & E).
    apply bind_inr in E as (eips & w7 & Heips & E).
    unfold ret in E. injection E as Hr _.
    exists details, w0, vols, w1, enis, w2, snaps, w3, amis, w4, sgs, w5, eips, w6, w7.
    repeat (split; [assumption |]).
    subst r. cbn [instance_details resources summary].
    repeat rewrite <- app_assoc. cbn [app].
    repeat split; reflexivity.
  - exfalso.
    destruct e; cbn in Hh; try discriminate; injection Hh as <-;
      unfold bind, print, ret in E; cbn in E; discriminate.
Qed.

Lemma has_type_eq t t' r :
  Discovery.has_type t r = true -> Discovery.has_type t' r = true -> t = t'.
Proof.
  unfold Discovery.has_type.
  destruct (dict_get "resource_type" r) as [[] |]; try discriminate.
  intros H1 H2. apply String.eqb_eq in H1, H2. congruence.
Qed.

Lemma count_type_app t l1 l2 :
  Discovery.count_type t (l1 ++ l2) = (Discovery.count_type t l1 + Discovery.count_type t l2)%Z.
Proof.
  unfold Discovery.count_type, Discovery.len.
  rewrite filter_app, length_app. lia.
Qed.

Lemma count_type_all t l : all_of_type t l -> Discovery.count_type t l = Discovery.len l.
Proof.
  unfold Discovery.count_type, Discovery.len. intros H. f_equal.
  induction H as [| r l Hr _ IH]; cbn.
  - reflexivity.
  - rewrite Hr. cbn. now rewrite IH.
Qed.

Lemma count_type_other t t' l :
  t <> t' -> all_of_type t' l -> Discovery.count_type t l = 0%Z.
Proof.
  unfold Discovery.count_type, Discovery.len. intros Hne H.
  replace (filter (Discovery.has_type t) l) with (@nil resource); [reflexivity |].
  induction H as [| r l Hr _ IH]; cbn.
  - reflexivity.
  - destruct (Discovery.has_type t r) eqn:Ht.
    + exfalso. apply Hne. eapply has_type_eq; eassumption.
    + exact IH.
Qed.

End Orchestrator.

(** A list in response order has the type its records are built with. *)
Ltac typed_by O :=
  eapply in_response_order_typed; [| exact O];
  intro; first [apply volume_info_type | reflexivity].

Section Assembly.
Variable aws : Provider.
Variable id : string.

Lemma count_segment t t' l :
  all_of_type t' l ->
  Discovery.count_type t l = if String.eqb t t' then Discovery.len l else 0%Z.
Proof.
  intros H. destruct (String.eqb_spec t t') as [-> | Hne].
  - now apply count_type_all.
  - now apply count_type_other with t'.
Qed.

Lemma instance_resource_type details :
  all_of_type "EC2 Instance" [Discovery.instance_resource id details].
Proof. repeat constructor. Qed.

(** The segments of the resource list of a successful discovery. *)
Lemma discover_segments w r :
  fst (Discovery.discover_all_resources aws id w) = inr (Some r) ->
  exists details vols enis snaps amis sgs eips,
    resources r =
      [Discovery.instance_resource id details] ++ vols ++ enis ++ snaps ++ amis ++ sgs ++ eips /\
    summary r = [ ("total_resources", Discovery.len (resources r));
                  ("volumes", Discovery.len vols);
                  ("network_interfaces", Discovery.len enis);
                  ("snapshots", Discovery.len snaps);
                  ("amis", Discovery.len amis);
                  ("security_groups", Discovery.len sgs);
                  ("elastic_ips", Discovery.len eips) ] /\
    in_response_order (Discovery.volume_info id) (describe_volumes aws) vols /\
    in_response_order Discovery.eni_info (describe_network_interfaces aws) enis /\
    in_response_order Discovery.snapshot_info (describe_snapshots aws) snaps /\
    in_response_order Discovery.ami_info (describe_images aws) amis /\
    in_response_order Discovery.sg_info (describe_security_groups aws) sgs /\
    in_response_order Discovery.eip_info (describe_addresses aws) eips.
Proof.
  intros H. apply discover_inv in H.
  destruct H as (details & w0 & vols & w1 & enis & w2 & snaps & w3 & amis & w4 & sgs & w5
                 & eips & w6 & w7 & _ & Hv & Hn & Hs & Ha & Hg & He & _ & Hres & Hsum).
  exists details, vols, enis, snaps, amis, sgs, eips.
  split; [exact Hres |]. split; [exact Hsum |].
  pose proof (volumes_order aws id w1) as Ov. rewrite Hv in Ov.
  pose proof (interfaces_order aws id w2) as On. rewrite Hn in On.
  pose proof (snapshots_order aws id w3) as Os. rewrite Hs in Os.
  pose proof (ami_order aws id w4) as Oa. rewrite Ha in Oa.
  pose proof (security_groups_order aws id w5) as Og. rewrite Hg in Og.
  pose proof (elastic_ips_order aws id w6) as Oe. rewrite He in Oe.
  cbn in *. repeat split; assumption.
Qed.


(** C2: in the result of a discovery, the [total_resources] entry of the
    summary is the length of the resource list. *)
Theorem total_resources_is_length w r :
  fst (Discovery.discover_all_resources aws id w) = inr (Some r) ->
  dict_get "total_resources" (summary r) = Some (Discovery.len (resources r)).
Proof.
  intros H. apply discover_segments in H.
  destruct H as (details & vols & enis & snaps & amis & sgs & eips & _ & Hsum & _).
  rewrite Hsum. reflexivity.
Qed.

(** C3: in the result of a discovery, the summary count of each of the six
    kinds is the number of records of the resource list that carry the
    kind's [resource_type]; the first record, the instance's own, carries
    none of these types. *)
Theorem summary_counts_by_type w r :
  fst (Discovery.discover_all_resources aws id w) = inr (Some r) ->
  forall kind, In kind Discovery.kinds ->
    dict_get kind (summary r)
      = Some (Discovery.count_type (Discovery.type_name kind) (resources r)) /\
    exists inst others,
      resources r = inst :: others /\
      Discovery.has_type (Discovery.type_name kind) inst = false.
Proof.
  intros H kind Hkind. apply discover_segments in H.
  destruct H as (details & vols & enis & snaps & amis & sgs & eips
                 & Hres & Hsum & Ov & On & Os & Oa & Og & Oe).
  assert (Tv : all_of_type "EBS Volume" vols) by typed_by Ov.
  assert (Tn : all_of_type "Network Interface" enis) by typed_by On.
  assert (Ts : all_of_type "EBS Snapshot" snaps) by typed_by Os.
  assert (Ta : all_of_type "AMI" amis) by typed_by Oa.
  assert (Tg : all_of_type "Security Group" sgs) by typed_by Og.
  assert (Te : all_of_type "Elastic IP" eips) by typed_by Oe.
  pose proof (instance_resource_type details) as Ti.
  split.
  - rewrite Hsum, Hres. repeat rewrite count_type_app.
    rewrite (count_segment _ _ _ Ti), (count_segment _ _ _ Tv), (count_segment _ _ _ Tn),
            (count_segment _ _ _ Ts), (count_segment _ _ _ Ta), (count_segment _ _ _ Tg),
            (count_segment _ _ _ Te).
    cbn in Hkind.
    repeat (destruct Hkind as [<- | Hkind]; [cbn; f_equal; lia |]).
    contradiction.
  - exists (Discovery.instance_resource id details),
           (vols ++ enis ++ snaps ++ amis ++ sgs ++ eips).
    split; [exact Hres |].
    cbn in Hkind.
    repeat (destruct Hkind as [<- | Hkind]; [reflexivity |]).
    contradiction.
Qed.

(** C7: when the volume lookup yields an empty list, the snapshot collector
    returns an empty list and leaves the world as the volume lookup left
    it: the one provider call made is the volume query. *)
Theorem no_volumes_no_snapshot_query w :
  fst (Discovery.get_associated_volumes aws id w) = inr [] ->
  Discovery.get_associated_snapshots aws id w
    = (inr [], snd (Discovery.get_associated_volumes aws id w)) /\
  exists ev,
    trace (snd (Discovery.get_associated_snapshots aws id w)) = trace w ++ [ev] /\
    ev_call ev = DescribeVolumes id.
Proof.
  intros H.
  assert (E : Discovery.get_associated_snapshots aws id w
              = (inr [], snd (Discovery.get_associated_volumes aws id w))).
  { unfold Discovery.get_associated_snapshots, bind.
    destruct (Discovery.get_associated_volumes aws id w) as [[e | vols] w1].
    - discriminate.
    - cbn in H. injection H as ->. reflexivity. }
  split; [exact E |].
  rewrite E. cbn [snd]. clear E. revert H.
  unfold_run. cbn. answers; intros H; try discriminate; eexists; split; reflexivity.
Qed.

End Assembly.

(* ================================================================== *)
(** ** Failures *)

Lemma bind_run {A B} (c : M A) (k : A -> M B) w a w1 :
  c w = (inr a, w1) -> bind c k w = k a w1.
Proof. unfold bind. now intros ->. Qed.

Lemma try_except_ok {A} (body : M A) handler w a w' :
  body w = (inr a, w') -> try_except body handler w = (inr a, w').
Proof. unfold try_except. now intros ->. Qed.

Lemma soft_run c :
  soft c ->
  forall w evs,
    trace (snd (c w)) = trace w ++ evs ->
    existsb raised_ClientError evs = true ->
    fst (c w) = inr [] /\ exists message, stdout (snd (c w)) = stdout w ++ [message].
Proof.
  intros Hc w evs Htrace Hraised.
  destruct (Hc w) as (evs' & msgs & Htrace' & Hout & _ & Hres).
  rewrite Htrace in Htrace'. apply app_inv_head in Htrace'. subst evs'.
  destruct (fst (c w)) as [e | out].
  - congruence.
  - destruct (Hres Hraised) as [-> [m ->]]. split; [reflexivity |].
    now exists m.
Qed.

(** An answer that is neither a result nor a [ClientError] contradicts
    [client_errors_only]. *)
Ltac impossible_answer H :=
  match goal with
  | E : ?f ?a ?h ?q = inl ?e |- _ =>
      let C := fresh "C" in
      first [ pose proof (ceo_load a H h q) as C; rewrite E in C; discriminate C
            | pose proof (ceo_volumes a H h q) as C; rewrite E in C; discriminate C
            | pose proof (ceo_interfaces a H h q) as C; rewrite E in C; discriminate C
            | pose proof (ceo_snapshots a H h q) as C; rewrite E in C; discriminate C
            | pose proof (ceo_images a H h q) as C; rewrite E in C; discriminate C
            | pose proof (ceo_groups a H h q) as C; rewrite E in C; discriminate C
            | pose proof (ceo_addresses a H h q) as C; rewrite E in C; discriminate C ]
  end.

Ltac close_total H := first [ solve [eauto] | impossible_answer H ].

Section Absorption.
Variable aws : Provider.
Variable id : string.
Hypothesis Hce : client_errors_only aws.

Lemma volumes_total : returns (Discovery.get_associated_volumes aws id).
Proof. intros w. unfold_run. cbn. answers; close_total Hce. Qed.

Lemma interfaces_total : returns (Discovery.get_associated_network_interfaces aws id).
Proof. intros w. unfold_run. cbn. answers; close_total Hce. Qed.

Lemma snapshots_total : returns (Discovery.get_associated_snapshots aws id).
Proof. intros w. unfold_run. cbn. answers; close_total Hce. Qed.

Lemma ami_total : returns (Discovery.get_associated_ami aws id).
Proof. intros w. unfold_run. cbn. answers; close_total Hce. Qed.

Lemma security_groups_total : returns (Discovery.get_associated_security_groups aws id).
Proof. intros w. unfold_run. cbn. answers; close_total Hce. Qed.

Lemma elastic_ips_total : returns (Discovery.get_associated_elastic_ips aws id).
Proof. intros w. unfold_run. cbn. answers; close_total Hce. Qed.

(** Once the instance is loaded, discovery returns a result. *)
Lemma discover_total w inst :
  instance_load aws (trace w) id = inr inst ->
  exists r, fst (Discovery.discover_all_resources aws id w) = inr (Some r).
Proof.
  intros Hload.
  unfold Discovery.discover_all_resources.
  erewrite bind_run by (unfold print; reflexivity).
  set (w0 := {| stdout := _; trace := trace w; files := files w |}).
  assert (Hd : exists details w1, Discovery.get_instance_details aws id w0 = (inr details, w1)).
  { unfold Discovery.get_instance_details, try_except, bind, request, ret.
    cbn. rewrite Hload. eauto. }
  destruct Hd as (details & w1 & Hd).
  destruct (volumes_total w1) as (vols & w2 & Hv).
  destruct (interfaces_total w2) as (enis & w3 & Hn).
  destruct (snapshots_total w3) as (snaps & w4 & Hs).
  destruct (ami_total w4) as (amis & w5 & Ha).
  destruct (security_groups_total w5) as (sgs & w6 & Hg).
  destruct (elastic_ips_total w6) as (eips & w7 & He).
  eexists. erewrite try_except_ok; [reflexivity |].
  erewrite bind_run by exact Hd.
  erewrite bind_run by exact Hv.
  erewrite bind_run by exact Hn.
  erewrite bind_run by exact Hs.
  erewrite bind_run by exact Ha.
  erewrite bind_run by exact Hg.
  erewrite bind_run by exact He.
  reflexivity.
Qed.

End Absorption.



(** C4, as the code has it: an instance ID that does not start with [i-],
    or whose length is not 19, makes [main] print the format error and exit
    with status 1 without any provider call. *)
Theorem malformed_id_rejected aws tabulate py_repr open_error now args w :
  startswith "i-" (Cli.arg_instance_id args) = false
  \/ String.length (Cli.arg_instance_id args) <> 19 ->
  Cli.main aws tabulate py_repr open_error now args w
    = (inl (SystemExit 1),
       {| stdout := stdout w ++
                    [ ("Error: Invalid instance ID format: " ++ Cli.arg_instance_id args)%string;
                      "Instance ID should be in format: i-1234567890abcdef0" ];
          trace := trace w;
          files := files w |}) /\
  Cli.exit_status (fst (Cli.main aws tabulate py_repr open_error now args w)) = 1.
Proof.
  intros H.
  assert (Hinv : Cli.invalid_instance_id (Cli.arg_instance_id args) = true).
  { unfold Cli.invalid_instance_id. destruct H as [-> | H].
    - reflexivity.
    - apply Nat.eqb_neq in H. rewrite H. apply orb_true_r. }
  unfold Cli.main. rewrite Hinv.
  unfold bind, print, raise. cbn. rewrite <- app_assoc. split; reflexivity.
Qed.

(* ================================================================== *)
(** ** The formatter *)

Lemma append_assoc (a b c : string) : ((a ++ b) ++ c = a ++ b ++ c)%string.
Proof. induction a as [| ch a IH]; cbn; [reflexivity | now rewrite IH]. Qed.

(** C8: an empty tag mapping renders as [None]; otherwise the first two
    [key:value] pairs are joined by a comma and a space, and a mapping of
    more than two entries gets the suffix [(+N more)], N being the number of
    entries minus two; the mapping Name, Environment, Owner of the mock
    instance renders as stated. *)
Theorem format_tags_renders py_repr :
  (forall tags : pydict string,
     Formatter._format_tags py_repr (tags_value tags) = inr (render_tags_spec tags)) /\
  Formatter._format_tags py_repr (tags_value Samples.sample_tags)
    = inr "Name:WebServer, Environment:Production (+1 more)".
Proof.
  split; [| reflexivity].
  intros tags. unfold Formatter._format_tags, tags_value.
  destruct tags as [| [k1 v1] [| [k2 v2] [| [k3 v3] rest]]].
  - reflexivity.
  - reflexivity.
  - cbn. now rewrite append_assoc.
  - cbn [map truthy negb items firstn fst snd str join length Nat.ltb Nat.leb].
    rewrite length_map. cbn [length Nat.sub].
    rewrite !append_assoc. reflexivity.
Qed.

(** C10: for an empty resource list the flat renderer and the grouped
    renderer both return [No resources found.], whatever the table format. *)
Theorem empty_list_message tabulate py_repr table_format :
  Formatter.format_resources_table tabulate py_repr [] table_format = "No resources found." /\
  Formatter.format_detailed_resources_table tabulate py_repr [] table_format
    = inr "No resources found.".
Proof. split; reflexivity. Qed.

Section Dicts.
Context {V : Type}.

Lemma dict_get_in k (v : V) d :
  NoDup (keys d) -> In (k, v) d -> dict_get k d = Some v.
Proof.
  induction d as [| [k' v'] d IH]; cbn; intros Hnd Hin.
  - contradiction.
  - inversion Hnd as [| ? ? Hnotin Hnd']; subst.
    destruct Hin as [Heq | Hin].
    + injection Heq as -> ->. now rewrite String.eqb_refl.
    + destruct (String.eqb_spec k k') as [-> | _].
      * exfalso. apply Hnotin. change k' with (fst (k', v)). now apply in_map.
      * now apply IH.
Qed.

Lemma dict_set_fresh k (v : V) d :
  ~ In k (keys d) -> dict_set k v d = d ++ [(k, v)].
Proof.
  induction d as [| [k' v'] d IH]; cbn; intros Hnotin.
  - reflexivity.
  - destruct (String.eqb_spec k k') as [-> | _].
    + exfalso. apply Hnotin. now left.
    + rewrite IH; [reflexivity |]. intros Hin. apply Hnotin. now right.
Qed.

End Dicts.

Lemma assign_all_fresh kvs flattened :
  NoDup (keys (flattened ++ kvs)) -> assign_all kvs flattened = flattened ++ kvs.
Proof.
  unfold assign_all. revert flattened.
  induction kvs as [| [k v] kvs IH]; intros flattened Hnd; cbn.
  - now rewrite app_nil_r.
  - assert (Hfresh : ~ In k (keys flattened)).
    { unfold keys in *. rewrite map_app in Hnd. cbn in Hnd.
      apply NoDup_remove_2 in Hnd. intros Hin. apply Hnd. apply in_or_app. now left. }
    rewrite dict_set_fresh by exact Hfresh.
    rewrite IH.
    + now rewrite <- app_assoc.
    + now rewrite <- app_assoc.
Qed.

Section Csv.
Variable py_repr : value -> string.

Lemma flatten_item_assign flattened kv :
  Formatter.flatten_item py_repr flattened kv = assign_all (flat_items py_repr [kv]) flattened.
Proof.
  destruct kv as [key v]. unfold flat_items, assign_all. cbn. rewrite app_nil_r.
  destruct v; try reflexivity.
  unfold items. revert flattened.
  induction d as [| sub d IH]; intros flattened; cbn; [reflexivity | apply IH].
Qed.

Lemma flatten_assign r flattened :
  fold_left (Formatter.flatten_item py_repr) r flattened
    = assign_all (flat_items py_repr r) flattened.
Proof.
  revert flattened. induction r as [| kv r IH]; intros flattened.
  - reflexivity.
  - cbn [fold_left]. rewrite IH, flatten_item_assign.
    unfold assign_all, flat_items. cbn [flat_map]. rewrite app_nil_r.
    now rewrite fold_left_app.
Qed.

Lemma flat_items_keys r : keys (flat_items py_repr r) = flat_names r.
Proof.
  unfold keys, flat_items, flat_names.
  induction r as [| [k v] r IH]; [reflexivity |].
  cbn [flat_map]. rewrite map_app. f_equal; [| exact IH].
  destruct v; cbn; try reflexivity.
  rewrite map_map. reflexivity.
Qed.

(** Without colliding names, the flattened row is the list of assignments. *)
Lemma flatten_no_collision r :
  NoDup (flat_names r) -> Formatter.flatten py_repr r = flat_items py_repr r.
Proof.
  intros Hnd. unfold Formatter.flatten, items. rewrite flatten_assign.
  apply assign_all_fresh. rewrite app_nil_l. now rewrite flat_items_keys.
Qed.

Lemma add_column_in c columns k :
  In c (Formatter.add_column columns k) <-> In c columns \/ c = k.
Proof.
  unfold Formatter.add_column.
  destruct (existsb (String.eqb k) columns) eqn:E.
  - split; [now left |]. intros [H | ->]; [exact H |].
    apply existsb_exists in E as (x & Hx & Heq). apply String.eqb_eq in Heq. now subst.
  - rewrite in_app_iff. cbn. intuition congruence.
Qed.

Lemma add_columns_in c ks columns :
  In c (fold_left Formatter.add_column ks columns) <-> In c columns \/ In c ks.
Proof.
  revert columns. induction ks as [| k ks IH]; intros columns; cbn.
  - tauto.
  - rewrite IH, add_column_in. intuition congruence.
Qed.

Lemma frame_columns_in c rows columns :
  In c (fold_left (fun columns (row : pydict value) =>
                     fold_left Formatter.add_column (keys row) columns)
                  rows columns)
  <-> In c columns \/ exists row, In row rows /\ In c (keys row).
Proof.
  revert columns. induction rows as [| row rows IH]; intros columns; cbn.
  - split; [now left |]. intros [H | (row & [] & _)]. exact H.
  - rewrite IH, add_columns_in. split.
    + intros [[H | H] | (row' & Hin & H)].
      * now left.
      * right. exists row. split; [now left | exact H].
      * right. exists row'. split; [now right | exact H].
    + intros [H | (row' & [<- | Hin] & H)].
      * left. now left.
      * left. now right.
      * right. now exists row'.
Qed.


End Csv.

(* ================================================================== *)
(** ** The statements at sample inputs *)

Import Samples.


Lemma total_resources_is_length_witness :
  dict_get "total_resources" (summary sample_result)
    = Some (Discovery.len (resources sample_result)).
Proof.
  apply (total_resources_is_length sample_aws sample_id world0).
  vm_compute. reflexivity.
Defined.

Lemma summary_counts_by_type_witness :
  dict_get "volumes" (summary sample_result)
    = Some (Discovery.count_type "EBS Volume" (resources sample_result)).
Proof.
  apply (summary_counts_by_type sample_aws sample_id world0 sample_result).
  - vm_compute. reflexivity.
  - cbn. left. reflexivity.
Defined.

Lemma no_volumes_no_snapshot_query_witness :
  Discovery.get_associated_snapshots bare_aws sample_id world0
    = (inr [], snd (Discovery.get_associated_volumes bare_aws sample_id world0)).
Proof.
  apply (no_volumes_no_snapshot_query bare_aws sample_id world0).
  vm_compute. reflexivity.
Defined.



Lemma malformed_id_rejected_witness :
  Cli.exit_status
    (fst (Cli.main bare_aws blank_tabulate blank_repr writable "2024-06-20 10:30:00"
            short_args world0)) = 1.
Proof.
  apply (malformed_id_rejected bare_aws blank_tabulate blank_repr writable
           "2024-06-20 10:30:00" short_args world0).
  right. cbn. discriminate.
Defined.

Lemma sample_record_names : NoDup (flat_names sample_record).
Proof.
  cbn. repeat constructor; cbn; intuition discriminate.
Qed.


(** An identifier with the right prefix and length goes through the check
    whatever its other characters are: discovery runs and [main] exits
    with status 0. *)
Lemma unchecked_hex_reaches_provider :
  ~ (forall aws tabulate py_repr open_error now args w,
       matches_pattern (Cli.arg_instance_id args) = false ->
       Cli.exit_status (fst (Cli.main aws tabulate py_repr open_error now args w)) <> 0 /\
       trace (snd (Cli.main aws tabulate py_repr open_error now args w)) = trace w).
Proof.
  intros H.
  destruct (H bare_aws blank_tabulate blank_repr writable "2024-06-20 10:30:00"
              odd_args world0 eq_refl) as [Hexit Htrace].
  apply Hexit. vm_compute. reflexivity.
Qed.



(* ================================================================== *)
(** ** The contract of the collectors *)

Ltac close_contract :=
  unfold extends; repeat rewrite <- app_assoc; cbn [app];
  eexists; eexists;
  split; [split; [reflexivity | split; [first [reflexivity | symmetry; apply app_nil_r]
                                        | reflexivity]] |];
  cbn;
  repeat match goal with
         | |- _ /\ _ => split
         | |- exists _, inr _ = inr _ => eexists; reflexivity
         | |- exists _, [_] = [_] => eexists; reflexivity
         | |- _ = _ => reflexivity
         | |- one_or_two _ _ _ =>
             first [ left; reflexivity
                   | right; eexists; split; [| reflexivity]; reflexivity ]
         end.

Section Contracts.
Variable aws : Provider.
Variable id : string.

Lemma volumes_contract :
  contract (eq [DescribeVolumes id]) (Discovery.get_associated_volumes aws id).
Proof. intros w. unfold_run. cbn. answers; close_contract. Qed.

Lemma interfaces_contract :
  contract (eq [DescribeNetworkInterfaces id])
           (Discovery.get_associated_network_interfaces aws id).
Proof. intros w. unfold_run. cbn. answers; close_contract. Qed.

Lemma snapshots_contract :
  contract (one_or_two (DescribeVolumes id) is_DescribeSnapshots)
           (Discovery.get_associated_snapshots aws id).
Proof. intros w. unfold_run. cbn. answers; close_contract. Qed.

Lemma ami_contract :
  contract (one_or_two (LoadInstance id) is_DescribeImages)
           (Discovery.get_associated_ami aws id).
Proof. intros w. unfold_run. cbn. answers; close_contract. Qed.

Lemma security_groups_contract :
  contract (one_or_two (LoadInstance id) is_DescribeSecurityGroups)
           (Discovery.get_associated_security_groups aws id).
Proof. intros w. unfold_run. cbn. answers; close_contract. Qed.

Lemma elastic_ips_contract :
  contract (eq [DescribeAddresses id]) (Discovery.get_associated_elastic_ips aws id).
Proof. intros w. unfold_run. cbn. answers; close_contract. Qed.

End Contracts.

Lemma shaped_inl evs msgs e :
  shaped evs msgs (inl e) ->
  msgs = [] /\ is_ClientError e = false /\
  exists before c, evs = before ++ [ {| ev_call := c; ev_raised := Some e |} ] /\
                   forallb quiet before = true.
Proof.
  induction evs as [| ev evs IH]; cbn.
  - intros [_ [out H]]. discriminate.
  - destruct evs as [| ev' evs].
    + destruct ev as [c [e0 |]]; cbn.
      * destruct (is_ClientError e0) eqn:E.
        -- intros [H _]. discriminate.
        -- intros [H ->]. injection H as ->.
           repeat split; [exact E |]. now exists [], c.
      * intros [_ [out H]]. discriminate.
    + intros [Hq H]. destruct (IH H) as (-> & He & before & c & Hev & Hb).
      repeat split; [exact He |].
      exists (ev :: before), c. split.
      * cbn. now rewrite <- Hev.
      * cbn. unfold quiet at 1. now rewrite Hq.
Qed.

Lemma shaped_inr evs msgs out :
  shaped evs msgs (inr out) ->
  forallb benign evs = true /\
  length msgs = length (filter raised_ClientError evs) /\
  (msgs = [] \/ out = []).
Proof.
  induction evs as [| ev evs IH]; cbn.
  - intros [-> _]. repeat split. now left.
  - destruct evs as [| ev' evs].
    + unfold benign, raised_ClientError. destruct (ev_raised ev) as [e0 |]; cbn.
      * destruct (is_ClientError e0) eqn:E.
        -- intros [H [m ->]]. injection H as ->. repeat split. now right.
        -- intros [H _]. discriminate.
      * intros [-> _]. repeat split. now left.
    + intros [Hq H]. destruct (IH H) as (Hb & Hlen & Hor).
      unfold benign at 1, raised_ClientError at 1. rewrite Hq. cbn [andb].
      repeat split; assumption.
Qed.

(* ================================================================== *)
(** ** Further properties of the collectors *)

Section CollectorProperties.
Variable aws : Provider.

Lemma one_call_bound (c : call) calls : [c] = calls -> 1 <= length calls <= 2.
Proof. intros <-. cbn. lia. Qed.

Lemma one_or_two_bound first is_second calls :
  one_or_two first is_second calls -> 1 <= length calls <= 2.
Proof. intros [-> | (second & _ & ->)]; cbn; lia. Qed.

Lemma collectors_contract collector id :
  In collector (Discovery.collectors aws) ->
  contract (fun calls => 1 <= length calls <= 2) (collector id).
Proof.
  intros Hin w. cbn in Hin.
  destruct Hin as [<- | [<- | [<- | [<- | [<- | [<- | []]]]]]].
  - destruct (volumes_contract aws id w) as (evs & msgs & He & Hs & Hc).
    exists evs, msgs. repeat split; try apply He; try assumption;
      apply (one_call_bound _ _ Hc).
  - destruct (interfaces_contract aws id w) as (evs & msgs & He & Hs & Hc).
    exists evs, msgs. repeat split; try apply He; try assumption;
      apply (one_call_bound _ _ Hc).
  - destruct (snapshots_contract aws id w) as (evs & msgs & He & Hs & Hc).
    exists evs, msgs. repeat split; try apply He; try assumption;
      apply (one_or_two_bound _ _ _ Hc).
  - destruct (ami_contract aws id w) as (evs & msgs & He & Hs & Hc).
    exists evs, msgs. repeat split; try apply He; try assumption;
      apply (one_or_two_bound _ _ _ Hc).
  - destruct (security_groups_contract aws id w) as (evs & msgs & He & Hs & Hc).
    exists evs, msgs. repeat split; try apply He; try assumption;
      apply (one_or_two_bound _ _ _ Hc).
  - destruct (elastic_ips_contract aws id w) as (evs & msgs & He & Hs & Hc).
    exists evs, msgs. repeat split; try apply He; try assumption;
      apply (one_call_bound _ _ Hc).
Qed.


(** When a collector returns, every call it made raised nothing or a
    [ClientError], it printed as many lines as calls raised (none or one),
    and if it printed, the list it returns is empty. *)
Theorem collector_reports_what_it_absorbs collector id w out :
  In collector (Discovery.collectors aws) ->
  fst (collector id w) = inr out ->
  exists evs msgs,
    extends w (snd (collector id w)) evs msgs /\
    forallb benign evs = true /\
    length msgs = length (filter raised_ClientError evs) /\
    length msgs <= 1 /\
    (msgs = [] \/ out = []).
Proof.
  intros Hin Hres.
  destruct (collectors_contract collector id Hin w) as (evs & msgs & He & Hs & Hlen).
  rewrite Hres in Hs.
  pose proof Hs as Hs'. apply shaped_inr in Hs'. destruct Hs' as (Hb & Hcount & Hor).
  exists evs, msgs. repeat split; try apply He; try assumption.
  clear - Hs. revert Hs. induction evs as [| ev evs IH]; cbn.
  - intros [-> _]. cbn. lia.
  - destruct evs as [| ev' evs].
    + destruct (ev_raised ev) as [e0 |].
      * destruct (is_ClientError e0).
        -- intros [_ [m ->]]. cbn. lia.
        -- intros [H _]. discriminate.
      * intros [-> _]. cbn. lia.
    + intros [_ H]. now apply IH.
Qed.

End CollectorProperties.

(* ================================================================== *)
(** ** Further properties of the orchestrator *)

Lemma extends_refl w : extends w w [] [].
Proof. unfold extends. now rewrite !app_nil_r. Qed.

Lemma extends_trans w1 w2 w3 evs1 msgs1 evs2 msgs2 :
  extends w1 w2 evs1 msgs1 -> extends w2 w3 evs2 msgs2 ->
  extends w1 w3 (evs1 ++ evs2) (msgs1 ++ msgs2).
Proof.
  unfold extends. intros (Ht1 & Ho1 & Hf1) (Ht2 & Ho2 & Hf2).
  rewrite Ht2, Ht1, Ho2, Ho1, Hf2, Hf1, !app_assoc. auto.
Qed.

Section OrchestratorProperties.
Variable aws : Provider.
Variable id : string.

Lemma instance_details_run w :
  exists ev,
    extends w (snd (Discovery.get_instance_details aws id w)) [ev] [] /\
    ev_call ev = LoadInstance id /\
    match fst (Discovery.get_instance_details aws id w) with
    | inr details => ev_raised ev = None /\ keys details = instance_details_keys
    | inl e' => exists e, ev_raised ev = Some e /\ e' = details_exception id e
    end.
Proof.
  unfold Discovery.get_instance_details, try_except, bind, request, ret, raise, extends.
  cbn. destruct (instance_load aws (trace w) id) as [e | inst] eqn:Hload; cbn.
  - destruct e; cbn; try (eexists; repeat split; try (symmetry; apply app_nil_r);
                          eexists; split; reflexivity).
    destruct (String.eqb_spec code "InvalidInstanceID.NotFound") as [-> | Hne]; cbn.
    + eexists. repeat split; try (symmetry; apply app_nil_r).
      eexists. split; reflexivity.
    + eexists. repeat split; try (symmetry; apply app_nil_r).
      eexists. split; [reflexivity |].
      unfold details_exception.
      repeat match goal with
             | |- context [match ?x with _ => _ end] => destruct x; try reflexivity
             end.
      exfalso. apply Hne. reflexivity.
  - eexists. repeat split; try (symmetry; apply app_nil_r).
Qed.


(** A run that returns a result, step by step. *)
Lemma discover_chain w r w' :
  Discovery.discover_all_resources aws id w = (inr (Some r), w') ->
  exists details vols enis snaps amis sgs eips w0 w1 w2 w3 w4 w5 w6,
    print (banner id) w = (inr tt, w0) /\
    Discovery.get_instance_details aws id w0 = (inr details, w1) /\
    Discovery.get_associated_volumes aws id w1 = (inr vols, w2) /\
    Discovery.get_associated_network_interfaces aws id w2 = (inr enis, w3) /\
    Discovery.get_associated_snapshots aws id w3 = (inr snaps, w4) /\
    Discovery.get_associated_ami aws id w4 = (inr amis, w5) /\
    Discovery.get_associated_security_groups aws id w5 = (inr sgs, w6) /\
    Discovery.get_associated_elastic_ips aws id w6 = (inr eips, w').
Proof.
  intros E. unfold Discovery.discover_all_resources in E.
  apply bind_inr in E as ([] & w0 & Hp & E).
  apply try_except_inr in E as [E | (e & wh & h & _ & Hh & E)].
  - apply bind_inr in E as (details & w1 & Hdetails & E).
    apply bind_inr in E as (vols & w2 & Hvols & E).
    apply bind_inr in E as (enis & w3 & Henis & E).
    apply bind_inr in E as (snaps & w4 & Hsnaps & E).
    apply bind_inr in E as (amis & w5 & Hamis & E).
    apply bind_inr in E as (sgs & w6 & Hsgs & E).
    apply bind_inr in E as (eips & w7 & Heips & E).
    unfold ret in E. injection E as _ <-.
    exists details, vols, enis, snaps, amis, sgs, eips, w0, w1, w2, w3, w4, w5, w6.
    repeat split; assumption.
  - exfalso.
    destruct e; cbn in Hh; try discriminate; injection Hh as <-;
      unfold bind, print, ret in E; cbn in E; discriminate.
Qed.

End OrchestratorProperties.

Lemma contract_step allowed c w out w' :
  contract allowed c -> c w = (inr out, w') ->
  exists evs msgs,
    extends w w' evs msgs /\ allowed (map ev_call evs) /\
    forallb benign evs = true /\
    length msgs = length (filter raised_ClientError evs).
Proof.
  intros Hc E. destruct (Hc w) as (evs & msgs & He & Hs & Ha).
  rewrite E in He, Hs. cbn in He, Hs.
  apply shaped_inr in Hs. destruct Hs as (Hb & Hlen & _).
  now exists evs, msgs.
Qed.

Section DiscoveryRuns.
Variable aws : Provider.
Variable id : string.

Lemma discovery_run_facts w r w' :
  Discovery.discover_all_resources aws id w = (inr (Some r), w') ->
  exists evs msgs,
    extends w w' evs (banner id :: msgs) /\
    discovery_calls id (map ev_call evs) /\
    7 <= length evs <= 10 /\
    forallb benign evs = true /\
    length msgs = length (filter raised_ClientError evs).
Proof.
  intros E. apply discover_chain in E.
  destruct E as (details & vols & enis & snaps & amis & sgs & eips
                 & w0 & w1 & w2 & w3 & w4 & w5 & w6
                 & Hp & Hd & Hv & Hn & Hs & Ha & Hg & He).
  assert (Ep : extends w w0 [] [banner id]).
  { unfold print in Hp. injection Hp as <-. unfold extends. cbn.
    now rewrite app_nil_r. }
  destruct (instance_details_run aws id w0) as (ev & Ed & Hcall & Hres).
  rewrite Hd in Ed, Hres. cbn in Ed, Hres. destruct Hres as [Hquiet _].
  destruct (contract_step _ _ _ _ _ (volumes_contract aws id) Hv)
    as (evs_v & msgs_v & Ev & Cv & Bv & Lv).
  destruct (contract_step _ _ _ _ _ (interfaces_contract aws id) Hn)
    as (evs_n & msgs_n & En & Cn & Bn & Ln).
  destruct (contract_step _ _ _ _ _ (snapshots_contract aws id) Hs)
    as (evs_s & msgs_s & Es & Cs & Bs & Ls).
  destruct (contract_step _ _ _ _ _ (ami_contract aws id) Ha)
    as (evs_a & msgs_a & Ea & Ca & Ba & La).
  destruct (contract_step _ _ _ _ _ (security_groups_contract aws id) Hg)
    as (evs_g & msgs_g & Eg & Cg & Bg & Lg).
  destruct (contract_step _ _ _ _ _ (elastic_ips_contract aws id) He)
    as (evs_e & msgs_e & Ee & Ce & Be & Le).
  pose proof (extends_trans _ _ _ _ _ _ _ Ep
               (extends_trans _ _ _ _ _ _ _ Ed
                 (extends_trans _ _ _ _ _ _ _ Ev
                   (extends_trans _ _ _ _ _ _ _ En
                     (extends_trans _ _ _ _ _ _ _ Es
                       (extends_trans _ _ _ _ _ _ _ Ea
                         (extends_trans _ _ _ _ _ _ _ Eg Ee))))))) as Hall.
  cbn [app] in Hall.
  eexists. eexists. split; [exact Hall |].
  assert (Hbev : benign ev = true) by (unfold benign; now rewrite Hquiet).
  assert (Hrev : raised_ClientError ev = false)
    by (unfold raised_ClientError; now rewrite Hquiet).
  pose proof (one_or_two_bound _ _ _ Cs) as Bs'.
  pose proof (one_or_two_bound _ _ _ Ca) as Ba'.
  pose proof (one_or_two_bound _ _ _ Cg) as Bg'.
  rewrite length_map in Bs', Ba', Bg'.
  assert (Lev : length evs_v = 1) by (rewrite <- (length_map ev_call), <- Cv; reflexivity).
  assert (Len : length evs_n = 1) by (rewrite <- (length_map ev_call), <- Cn; reflexivity).
  assert (Lee : length evs_e = 1) by (rewrite <- (length_map ev_call), <- Ce; reflexivity).
  repeat split.
  - exists (map ev_call evs_s), (map ev_call evs_a), (map ev_call evs_g).
    repeat split; try assumption.
    rewrite !map_app. cbn [map]. rewrite Hcall, <- Cv, <- Cn, <- Ce. reflexivity.
  - rewrite !length_app. cbn [length]. lia.
  - rewrite !length_app. cbn [length]. lia.
  - rewrite !forallb_app. cbn [forallb].
    rewrite Hbev, Bv, Bn, Bs, Ba, Bg, Be. reflexivity.
  - rewrite !filter_app. cbn [filter]. rewrite Hrev.
    rewrite !length_app. cbn [length]. lia.
Qed.

(** A discovery that returns a result has made between 7 and 10 provider
    calls in a fixed sequence (the instance is loaded three times and the
    volumes are queried twice), none of which raised anything but
    [ClientError]; after its banner it has printed one line per call that
    raised, and it has written no file. *)
Theorem discovery_calls_and_reports w r w' :
  Discovery.discover_all_resources aws id w = (inr (Some r), w') ->
  exists evs msgs,
    extends w w' evs (banner id :: msgs) /\
    discovery_calls id (map ev_call evs) /\
    7 <= length evs <= 10 /\
    forallb benign evs = true /\
    length msgs = length (filter raised_ClientError evs).
Proof. apply discovery_run_facts. Qed.

(** [discover_all_resources] never raises an [Exception]: what it lets
    through is a [KeyboardInterrupt] or a [SystemExit]. *)
Theorem discovery_raises_no_Exception w e :
  fst (Discovery.discover_all_resources aws id w) = inl e -> is_Exception e = false.
Proof.
  unfold Discovery.discover_all_resources, bind at 1, print, try_except. cbn.
  match goal with
  | |- context [match ?body ?w0 with _ => _ end] => destruct (body w0) as [[e0 | res] w1]
  end.
  - destruct e0; cbn; try discriminate; intros H; injection H as <-; reflexivity.
  - discriminate.
Qed.


Lemma summary_shape w r :
  fst (Discovery.discover_all_resources aws id w) = inr (Some r) ->
  keys (summary r) = summary_keys /\
  exists volumes network_interfaces snapshots amis security_groups elastic_ips : nat,
    summary r = [ ("total_resources",
                   Z.of_nat (1 + volumes + network_interfaces + snapshots + amis
                             + security_groups + elastic_ips));
                  ("volumes", Z.of_nat volumes);
                  ("network_interfaces", Z.of_nat network_interfaces);
                  ("snapshots", Z.of_nat snapshots);
                  ("amis", Z.of_nat amis);
                  ("security_groups", Z.of_nat security_groups);
                  ("elastic_ips", Z.of_nat elastic_ips) ].
Proof.
  intros H. apply discover_segments in H.
  destruct H as (details & vols & enis & snaps & amis & sgs & eips & Hres & Hsum & _).
  rewrite Hsum. split; [reflexivity |].
  exists (length vols), (length enis), (length snaps), (length amis),
         (length sgs), (length eips).
  rewrite Hres. unfold Discovery.len. rewrite !length_app. cbn [length].
  do 2 f_equal. lia.
Qed.

(** The summary of a result has the seven keys in a fixed order, every
    count is a length, and [total_resources] is one more than the sum of
    the six counts. *)
Theorem summary_total_is_one_plus_counts w r :
  fst (Discovery.discover_all_resources aws id w) = inr (Some r) ->
  keys (summary r) = summary_keys /\
  exists volumes network_interfaces snapshots amis security_groups elastic_ips : nat,
    summary r = [ ("total_resources",
                   Z.of_nat (1 + volumes + network_interfaces + snapshots + amis
                             + security_groups + elastic_ips));
                  ("volumes", Z.of_nat volumes);
                  ("network_interfaces", Z.of_nat network_interfaces);
                  ("snapshots", Z.of_nat snapshots);
                  ("amis", Z.of_nat amis);
                  ("security_groups", Z.of_nat security_groups);
                  ("elastic_ips", Z.of_nat elastic_ips) ].
Proof. apply summary_shape. Qed.

End DiscoveryRuns.

(* ================================================================== *)
(** ** Dictionaries *)

Section DictLaws.
Context {V : Type}.

Lemma dict_get_set_same k (v : V) d : dict_get k (dict_set k v d) = Some v.
Proof.
  induction d as [| [k' v'] d IH]; cbn.
  - now rewrite String.eqb_refl.
  - destruct (String.eqb_spec k k') as [-> | Hne]; cbn.
    + now rewrite String.eqb_refl.
    + destruct (String.eqb_spec k k'); [contradiction | exact IH].
Qed.

Lemma dict_get_set_other k k' (v : V) d :
  k <> k' -> dict_get k (dict_set k' v d) = dict_get k d.
Proof.
  intros Hne. induction d as [| [k0 v0] d IH]; cbn.
  - destruct (String.eqb_spec k k'); [contradiction | reflexivity].
  - destruct (String.eqb_spec k' k0) as [-> | Hne0]; cbn.
    + destruct (String.eqb_spec k k0); [contradiction | reflexivity].
    + destruct (String.eqb_spec k k0); [reflexivity | exact IH].
Qed.

Lemma dict_set_keys k (v : V) d :
  In k (keys d) /\ keys (dict_set k v d) = keys d
  \/ ~ In k (keys d) /\ keys (dict_set k v d) = keys d ++ [k].
Proof.
  unfold keys. induction d as [| [k' v'] d IH]; cbn.
  - right. split; [tauto | reflexivity].
  - destruct (String.eqb_spec k k') as [-> | Hne]; cbn.
    + left. split; [now left | reflexivity].
    + destruct IH as [[Hin ->] | [Hnotin ->]].
      * left. split; [now right | reflexivity].
      * right. split; [| reflexivity]. intros [Heq | Hin]; [congruence | contradiction].
Qed.

Lemma dict_set_NoDup k (v : V) d : NoDup (keys d) -> NoDup (keys (dict_set k v d)).
Proof.
  intros Hnd. destruct (dict_set_keys k v d) as [[_ ->] | [Hnotin ->]].
  - exact Hnd.
  - apply NoDup_app; [exact Hnd | repeat constructor; tauto |].
    intros x Hx [<- | []]. contradiction.
Qed.

Lemma dict_set_In k (v : V) d x : In x (keys (dict_set k v d)) <-> In x (keys d) \/ x = k.
Proof.
  destruct (dict_set_keys k v d) as [[Hin ->] | [_ ->]].
  - split; [now left |]. intros [H | ->]; assumption.
  - rewrite in_app_iff. cbn. intuition congruence.
Qed.

Lemma dict_get_None k (d : pydict V) : dict_get k d = None <-> ~ In k (keys d).
Proof.
  unfold keys. induction d as [| [k' v'] d IH]; cbn.
  - tauto.
  - destruct (String.eqb_spec k k') as [-> | Hne].
    + split; [discriminate | intros H; exfalso; apply H; now left].
    + rewrite IH. intuition congruence.
Qed.

Lemma dict_get_app k (d1 d2 : pydict V) :
  dict_get k (d1 ++ d2)
    = match dict_get k d1 with Some v => Some v | None => dict_get k d2 end.
Proof.
  induction d1 as [| [k' v'] d1 IH]; cbn.
  - reflexivity.
  - destruct (String.eqb k k'); [reflexivity | exact IH].
Qed.

(** Assigning a list of pairs in order: each key ends with the value of its
    last assignment, and keys stay unique. *)
Lemma assignments_last_wins {X} (kv : X -> string * V) l acc k :
  dict_get k (fold_left (fun d x => dict_set (fst (kv x)) (snd (kv x)) d) l acc)
    = match dict_get k (List.rev (map kv l)) with
      | Some v => Some v
      | None => dict_get k acc
      end.
Proof.
  revert acc. induction l as [| x l IH]; intros acc; cbn.
  - reflexivity.
  - rewrite IH, dict_get_app. destruct (dict_get k (List.rev (map kv l))); [reflexivity |].
    destruct (kv x) as [k' v']. cbn.
    destruct (String.eqb_spec k k') as [-> | Hne].
    + apply dict_get_set_same.
    + now apply dict_get_set_other.
Qed.

Lemma assignments_NoDup {X} (kv : X -> string * V) l acc :
  NoDup (keys acc) ->
  NoDup (keys (fold_left (fun d x => dict_set (fst (kv x)) (snd (kv x)) d) l acc)).
Proof.
  revert acc. induction l as [| x l IH]; intros acc Hnd; cbn.
  - exact Hnd.
  - apply IH. now apply dict_set_NoDup.
Qed.

Lemma assignments_In {X} (kv : X -> string * V) l acc k :
  In k (keys (fold_left (fun d x => dict_set (fst (kv x)) (snd (kv x)) d) l acc))
  <-> In k (keys acc) \/ In k (map fst (map kv l)).
Proof.
  revert acc. induction l as [| x l IH]; intros acc; cbn [fold_left map].
  - split; [now left | intros [H | []]; exact H].
  - rewrite IH, dict_set_In. cbn [In]. intuition congruence.
Qed.

Lemma dict_get_last_assignment k (v : V) before after :
  ~ In k (keys after) ->
  dict_get k (List.rev (before ++ (k, v) :: after)) = Some v.
Proof.
  intros Hnotin. rewrite rev_app_distr. cbn. rewrite <- app_assoc, dict_get_app.
  replace (dict_get k (List.rev after)) with (@None V).
  - cbn. now rewrite String.eqb_refl.
  - symmetry. apply dict_get_None. unfold keys. rewrite map_rev. rewrite <- in_rev.
    exact Hnotin.
Qed.

End DictLaws.

(* ================================================================== *)
(** ** Records built by the collectors *)

(** The tags of a record: its keys are unique and are the keys the provider
    listed; when the provider lists a key more than once, the value listed
    last is kept. *)
Theorem tags_dict_last_value_wins (tags : list (string * string)) :
  exists d,
    Discovery.tags_dict tags = VDict d /\
    NoDup (keys d) /\
    (forall k, In k (keys d) <-> In k (map fst tags)) /\
    (forall before k v after,
       tags = before ++ (k, v) :: after -> ~ In k (map fst after) ->
       dict_get k d = Some (VStr v)).
Proof.
  unfold Discovery.tags_dict, dict_comprehension. eexists. split; [reflexivity |].
  split; [| split].
  - apply assignments_NoDup. constructor.
  - intros k. rewrite assignments_In. cbn. rewrite map_map. cbn. tauto.
  - intros before k v after -> Hnotin.
    rewrite assignments_last_wins.
    rewrite map_app. cbn [map fst snd].
    rewrite (dict_get_last_assignment k (VStr v)); [reflexivity |].
    unfold keys. rewrite map_map. exact Hnotin.
Qed.

Lemma find_first {A} (f : A -> bool) before a after :
  f a = true -> Forall (fun b => f b = false) before ->
  find f (before ++ a :: after) = Some a.
Proof.
  intros Ha Hb. induction Hb as [| b before Hfb _ IH]; cbn.
  - now rewrite Ha.
  - now rewrite Hfb.
Qed.

Lemma find_none {A} (f : A -> bool) l :
  Forall (fun b => f b = false) l -> find f l = None.
Proof.
  intros H. induction H as [| b l Hfb _ IH]; cbn; [reflexivity | now rewrite Hfb].
Qed.

(** A volume record has eleven keys in a fixed order; its device and its
    delete-on-termination flag are those of the first attachment that names
    the instance, and [None] and [False] when no attachment names it. *)
Theorem volume_device_from_first_attachment id volume :
  keys (Discovery.volume_info id volume) = volume_keys /\
  (forall before a after,
     Discovery.get_or (vol_Attachments volume) [] = before ++ a :: after ->
     att_InstanceId a = id ->
     Forall (fun b => att_InstanceId b <> id) before ->
     Discovery.item "device" (Discovery.volume_info id volume) = att_Device a /\
     Discovery.item "delete_on_termination" (Discovery.volume_info id volume)
       = att_DeleteOnTermination a) /\
  (Forall (fun b => att_InstanceId b <> id) (Discovery.get_or (vol_Attachments volume) []) ->
     Discovery.item "device" (Discovery.volume_info id volume) = VNone /\
     Discovery.item "delete_on_termination" (Discovery.volume_info id volume) = VBool false).
Proof.
  split; [| split].
  - unfold Discovery.volume_info. destruct (find _ _); reflexivity.
  - intros before a after Hatt Ha Hbefore. unfold Discovery.volume_info.
    rewrite Hatt, find_first.
    + split; reflexivity.
    + now apply String.eqb_eq.
    + eapply Forall_impl; [| exact Hbefore]. intros b Hb. now apply String.eqb_neq.
  - intros Hnone. unfold Discovery.volume_info. rewrite find_none.
    + split; reflexivity.
    + eapply Forall_impl; [| exact Hnone]. intros b Hb. now apply String.eqb_neq.
Qed.

Section Skips.
Variable aws : Provider.
Variable id : string.

(** With volumes attached, the snapshot collector asks for the snapshots of
    exactly the volumes the lookup returned, in the order returned. *)
Theorem snapshot_query_filters_by_volume_ids w volumes :
  describe_volumes aws (trace w) id = inr volumes -> volumes <> [] ->
  exists ev,
    trace (snd (Discovery.get_associated_snapshots aws id w))
      = trace w ++ [ok (DescribeVolumes id); ev] /\
    ev_call ev = DescribeSnapshots (map (fun v => VStr (vol_VolumeId v)) volumes).
Proof.
  intros Hv Hne.
  assert (Hids : map (Discovery.item "resource_id") (map (Discovery.volume_info id) volumes)
                 = map (fun v => VStr (vol_VolumeId v)) volumes).
  { rewrite map_map. apply map_ext. intros v. apply volume_info_id. }
  unfold_run. cbn. rewrite Hv. cbn. rewrite Hids.
  destruct volumes as [| v volumes]; [contradiction |].
  cbn [map]. cbn. answers; rewrite <- !app_assoc; eexists; split; reflexivity.
Qed.

(** An instance without an image identifier ([None] or the empty string):
    the image collector loads the instance, makes no image query, prints
    nothing and returns the empty list. *)
Theorem no_image_id_no_image_query w inst :
  instance_load aws (trace w) id = inr inst -> truthy (inst_image_id inst) = false ->
  Discovery.get_associated_ami aws id w = (inr [], after_calls w [ok (LoadInstance id)]).
Proof.
  intros Hload Himg. unfold_run. cbn. rewrite Hload. cbn. rewrite Himg. reflexivity.
Qed.


End Skips.

(* ================================================================== *)
(** ** Grouping by resource type *)

Lemma key_eqb_sym a b : Formatter.key_eqb a b = Formatter.key_eqb b a.
Proof.
  destruct a, b; cbn; try reflexivity.
  - destruct b, b0; reflexivity.
  - apply Z.eqb_sym.
  - apply String.eqb_sym.
Qed.

Lemma key_eqb_trans a b c :
  Formatter.key_eqb a b = true -> Formatter.key_eqb b c = true ->
  Formatter.key_eqb a c = true.
Proof.
  destruct a, b, c; cbn; try discriminate; try reflexivity;
    rewrite ?Z.eqb_eq, ?String.eqb_eq, ?Bool.eqb_true_iff; intros; subst;
    try reflexivity;
    repeat match goal with b : bool |- _ => destruct b end;
    cbn in *; try reflexivity; try discriminate; try (exfalso; lia);
    try (apply Z.eqb_eq; lia).
Qed.

Lemma key_eqb_refl a : is_container a = false -> Formatter.key_eqb a a = true.
Proof.
  destruct a; cbn; try discriminate; intros _.
  - reflexivity.
  - apply Bool.eqb_reflx.
  - apply Z.eqb_refl.
  - apply String.eqb_refl.
Qed.

Lemma key_eqb_false_left a b c :
  Formatter.key_eqb a b = true -> Formatter.key_eqb b c = false ->
  Formatter.key_eqb a c = false.
Proof.
  intros Hab Hbc. destruct (Formatter.key_eqb a c) eqn:Hac; [| reflexivity].
  rewrite key_eqb_sym in Hab. rewrite (key_eqb_trans _ _ _ Hab Hac) in Hbc. discriminate.
Qed.

Lemma group_append_cases t r gs :
  (exists before t' l after,
     gs = before ++ (t', l) :: after /\
     Formatter.key_eqb t t' = true /\
     Formatter.group_append t r gs = before ++ (t', l ++ [r]) :: after)
  \/ (Forall (fun g => Formatter.key_eqb t (fst g) = false) gs /\
      Formatter.group_append t r gs = gs ++ [(t, [r])]).
Proof.
  induction gs as [| [t0 l0] gs IH]; cbn.
  - right. split; [constructor | reflexivity].
  - destruct (Formatter.key_eqb t t0) eqn:E.
    + left. exists [], t0, l0, gs. repeat split. exact E.
    + destruct IH as [(before & t' & l & after & -> & Ht & ->) | [Hall ->]].
      * left. exists ((t0, l0) :: before), t', l, after. repeat split. exact Ht.
      * right. split; [constructor; [exact E | exact Hall] | reflexivity].
Qed.

Lemma distinct_middle before (k : value) after k' :
  distinct (before ++ k :: after) -> In k' (before ++ after) ->
  Formatter.key_eqb k' k = false.
Proof.
  induction before as [| b before IH]; cbn.
  - intros [Hall _] Hin. rewrite Forall_forall in Hall. now apply Hall.
  - intros [Hall Hd] [<- | Hin].
    + rewrite Forall_forall in Hall. rewrite key_eqb_sym. apply Hall.
      apply in_or_app. right. now left.
    + now apply IH.
Qed.

Lemma distinct_snoc ks k :
  distinct ks -> Forall (fun k' => Formatter.key_eqb k k' = false) ks -> distinct (ks ++ [k]).
Proof.
  induction ks as [| k0 ks IH]; cbn.
  - intros _ _. split; constructor.
  - intros [Hall Hd] Hk. inversion Hk as [| ? ? Hk0 Hks]; subst. split.
    + apply Forall_app. split; [exact Hall | constructor; [exact Hk0 | constructor]].
    + now apply IH.
Qed.

Lemma of_key_snoc t seen r :
  of_key t (seen ++ [r])
    = of_key t seen ++ (if Formatter.key_eqb (type_of r) t then [r] else []).
Proof. unfold of_key. rewrite filter_app. cbn. now destruct (Formatter.key_eqb _ _). Qed.

Lemma grouped_step seen gs r :
  is_container (type_of r) = false -> grouped seen gs ->
  grouped (seen ++ [r]) (Formatter.group_append (type_of r) r gs).
Proof.
  intros Hhash (Hd & Hcontent & Hcover).
  destruct (group_append_cases (type_of r) r gs)
    as [(before & t' & l & after & -> & Ht & ->) | [Hnone ->]].
  - assert (Hother : forall t0 l0, In (t0, l0) (before ++ after) ->
                                   Formatter.key_eqb (type_of r) t0 = false).
    { intros t0 l0 Hin. apply key_eqb_false_left with t'; [exact Ht |].
      rewrite key_eqb_sym. rewrite map_app in Hd. cbn in Hd.
      apply (distinct_middle _ _ _ t0 Hd).
      rewrite <- map_app. change t0 with (fst (t0, l0)). now apply in_map. }
    split; [| split].
    + rewrite map_app in *. exact Hd.
    + intros t0 l0 Hin. rewrite of_key_snoc.
      apply in_app_or in Hin. destruct Hin as [Hin | [Heq | Hin]].
      * rewrite (Hother t0 l0) by (apply in_or_app; now left). rewrite app_nil_r.
        apply Hcontent. apply in_or_app. now left.
      * injection Heq as <- <-. rewrite Ht. split.
        -- intros Hnil. now apply app_eq_nil in Hnil as [_ Hnil].
        -- f_equal. apply Hcontent. apply in_or_app. right. now left.
      * rewrite (Hother t0 l0) by (apply in_or_app; now right). rewrite app_nil_r.
        apply Hcontent. apply in_or_app. right. now right.
    + intros r0 Hin. apply in_app_or in Hin. destruct Hin as [Hin | [<- | []]].
      * destruct (Hcover r0 Hin) as (t0 & l0 & Hg & Hk).
        apply in_app_or in Hg. destruct Hg as [Hg | [Heq | Hg]].
        -- exists t0, l0. split; [apply in_or_app; now left | exact Hk].
        -- injection Heq as <- <-. exists t', (l ++ [r]).
           split; [apply in_or_app; right; now left | exact Hk].
        -- exists t0, l0. split; [apply in_or_app; right; now right | exact Hk].
      * exists t', (l ++ [r]). split; [apply in_or_app; right; now left | exact Ht].
  - split; [| split].
    + rewrite map_app. cbn. apply distinct_snoc; [exact Hd |].
      rewrite Forall_map. exact Hnone.
    + intros t0 l0 Hin. rewrite of_key_snoc.
      apply in_app_or in Hin. destruct Hin as [Hin | [Heq | []]].
      * rewrite Forall_forall in Hnone. pose proof (Hnone (t0, l0) Hin) as Hk.
        cbn in Hk. rewrite Hk, app_nil_r. now apply Hcontent.
      * injection Heq as <- <-. rewrite key_eqb_refl by exact Hhash.
        split; [discriminate |].
        replace (of_key (type_of r) seen) with (@nil resource); [reflexivity |].
        symmetry. unfold of_key.
        destruct (filter _ seen) as [| r0 rest] eqn:E; [reflexivity |].
        exfalso.
        assert (Hr0 : In r0 (filter (fun r1 => Formatter.key_eqb (type_of r1) (type_of r)) seen))
          by (rewrite E; now left).
        apply filter_In in Hr0 as [Hin0 Hk0].
        destruct (Hcover r0 Hin0) as (t1 & l1 & Hg & Hk1).
        rewrite Forall_forall in Hnone. specialize (Hnone (t1, l1) Hg). cbn in Hnone.
        rewrite key_eqb_sym in Hk0.
        rewrite (key_eqb_trans _ _ _ Hk0 Hk1) in Hnone. discriminate.
    + intros r0 Hin. apply in_app_or in Hin. destruct Hin as [Hin | [<- | []]].
      * destruct (Hcover r0 Hin) as (t0 & l0 & Hg & Hk).
        exists t0, l0. split; [apply in_or_app; now left | exact Hk].
      * exists (type_of r), [r]. split; [apply in_or_app; right; now left |].
        now apply key_eqb_refl.
Qed.

Lemma group_by_type_grouped rs :
  forall seen gs gs',
    grouped seen gs -> Formatter.group_by_type rs gs = inr gs' -> grouped (seen ++ rs) gs'.
Proof.
  induction rs as [| r rs IH]; intros seen gs gs' Hg; cbn.
  - intros H. injection H as <-. now rewrite app_nil_r.
  - fold (type_of r). destruct (is_container (type_of r)) eqn:Hc; [discriminate |].
    intros H. replace (seen ++ r :: rs) with ((seen ++ [r]) ++ rs)
      by (now rewrite <- app_assoc).
    apply IH with (Formatter.group_append (type_of r) r gs); [| exact H].
    now apply grouped_step.
Qed.

Lemma grouping_partition rs gs :
  Formatter.group_by_type rs [] = inr gs ->
  distinct (map fst gs) /\
  (forall t l, In (t, l) gs -> l <> [] /\ l = of_key t rs) /\
  (forall r, In r rs -> exists t l, In (t, l) gs /\ In r l).
Proof.
  intros H.
  assert (Hg : grouped [] []).
  { split; [exact I | split]; [intros t l [] | intros r []]. }
  destruct (group_by_type_grouped rs [] [] gs Hg H) as (Hd & Hcontent & Hcover).
  cbn [app] in *.
  split; [exact Hd | split; [exact Hcontent |]].
  intros r Hin. destruct (Hcover r Hin) as (t & l & Hgl & Hk).
  exists t, l. split; [exact Hgl |].
  destruct (Hcontent t l Hgl) as [_ ->]. unfold of_key. apply filter_In. now split.
Qed.

(** Grouping is a stable partition: the groups have distinct keys, none is
    empty, each holds exactly the resources of its type in their original
    order, and every resource is in a group. *)
Theorem grouping_is_stable_partition rs gs :
  Formatter.group_by_type rs [] = inr gs ->
  distinct (map fst gs) /\
  (forall t l, In (t, l) gs -> l <> [] /\ l = of_key t rs) /\
  (forall r, In r rs -> exists t l, In (t, l) gs /\ In r l).
Proof. apply grouping_partition. Qed.

Lemma group_by_type_raises rs :
  forall gs r, In r rs -> is_container (type_of r) = true ->
               Formatter.group_by_type rs gs = inl (TypeError "unhashable type").
Proof.
  induction rs as [| r0 rs IH]; intros gs r Hin Hc; cbn.
  - contradiction.
  - fold (type_of r0). destruct (is_container (type_of r0)) eqn:Hc0; [reflexivity |].
    destruct Hin as [-> | Hin]; [congruence |]. now apply IH with r.
Qed.

Lemma group_by_type_returns rs :
  forall gs, Forall (fun r => is_container (type_of r) = false) rs ->
             exists gs', Formatter.group_by_type rs gs = inr gs'.
Proof.
  induction rs as [| r0 rs IH]; intros gs Hall; cbn.
  - now exists gs.
  - inversion Hall as [| ? ? Hc Hrest]; subst. fold (type_of r0). rewrite Hc. now apply IH.
Qed.

(** The grouped renderer raises [TypeError] as soon as one record has a
    list or a dict as its [resource_type], whatever the other records and
    the table format are. *)
Theorem detailed_table_rejects_unhashable_type tabulate py_repr rs r table_format :
  In r rs -> is_container (type_of r) = true ->
  Formatter.format_detailed_resources_table tabulate py_repr rs table_format
    = inl (TypeError "unhashable type").
Proof.
  intros Hin Hc. unfold Formatter.format_detailed_resources_table.
  destruct rs as [| r0 rs]; [contradiction |].
  now rewrite (group_by_type_raises (r0 :: rs) [] r Hin Hc).
Qed.

Lemma has_type_type_of t r : Discovery.has_type t r = true -> type_of r = VStr t.
Proof.
  unfold Discovery.has_type, type_of, dict_get_default.
  destruct (dict_get "resource_type" r) as [[] |]; try discriminate.
  intros H. apply String.eqb_eq in H. now subst.
Qed.

Lemma of_key_other t t' l : t <> t' -> all_of_type t' l -> of_key (VStr t) l = [].
Proof.
  intros Hne H. unfold of_key. induction H as [| r l Hr _ IH]; cbn; [reflexivity |].
  rewrite (has_type_type_of _ _ Hr). cbn.
  destruct (String.eqb_spec t' t) as [-> | _]; [contradiction | exact IH].
Qed.

Lemma group_by_type_head rs :
  forall t0 l0 gs gs',
    Formatter.group_by_type rs ((t0, l0) :: gs) = inr gs' ->
    exists l rest, gs' = (t0, l) :: rest.
Proof.
  induction rs as [| r rs IH]; intros t0 l0 gs gs'; cbn.
  - intros H. injection H as <-. now exists l0, gs.
  - destruct (is_container _); [discriminate |].
    destruct (Formatter.key_eqb _ t0); apply IH.
Qed.

Lemma distinct_NoDup ks :
  Forall (fun k => is_container k = false) ks -> distinct ks -> NoDup ks.
Proof.
  induction ks as [| k ks IH]; cbn; intros Hh Hd.
  - constructor.
  - inversion Hh as [| ? ? Hk Hks]; subst. destruct Hd as [Hall Hd]. constructor.
    + intros Hin. rewrite Forall_forall in Hall. specialize (Hall k Hin).
      rewrite key_eqb_refl in Hall by exact Hk. discriminate.
    + now apply IH.
Qed.

(** Grouping the resources of a discovery result never raises; the first
    group is the instance's, with the instance's record alone, and it is
    followed by at most six groups whose keys are collector type names. *)
Theorem discovery_result_groups aws id w r :
  fst (Discovery.discover_all_resources aws id w) = inr (Some r) ->
  exists inst rest,
    Formatter.group_by_type (resources r) [] = inr ((VStr "EC2 Instance", [inst]) :: rest) /\
    Discovery.item "resource_id" inst = VStr id /\
    incl (map fst rest) collector_types /\
    length rest <= 6.
Proof.
  intros H. apply discover_segments in H.
  destruct H as (details & vols & enis & snaps & amis & sgs & eips
                 & Hres & _ & Ov & On & Os & Oa & Og & Oe).
  assert (Tv : all_of_type "EBS Volume" vols) by typed_by Ov.
  assert (Tn : all_of_type "Network Interface" enis) by typed_by On.
  assert (Ts : all_of_type "EBS Snapshot" snaps) by typed_by Os.
  assert (Ta : all_of_type "AMI" amis) by typed_by Oa.
  assert (Tg : all_of_type "Security Group" sgs) by typed_by Og.
  assert (Te : all_of_type "Elastic IP" eips) by typed_by Oe.
  set (inst := Discovery.instance_resource id details) in *.
  set (others := vols ++ enis ++ snaps ++ amis ++ sgs ++ eips) in *.
  assert (Hothers : Forall (fun r0 => In (type_of r0) collector_types) others).
  { unfold others. repeat rewrite Forall_app. unfold all_of_type in *.
    repeat split;
      (eapply Forall_impl; [| eassumption]); intros r0 Hr0;
      rewrite (has_type_type_of _ _ Hr0); cbn; tauto. }
  assert (Hhash : Forall (fun r0 => is_container (type_of r0) = false) (inst :: others)).
  { constructor; [reflexivity |]. eapply Forall_impl; [| exact Hothers].
    intros r0 Hin. cbn in Hin.
    repeat (destruct Hin as [<- | Hin]; [reflexivity |]). contradiction. }
  destruct (group_by_type_returns (inst :: others) [] Hhash) as [gs Hgs].
  pose proof Hgs as Hhead. cbn in Hhead.
  apply group_by_type_head in Hhead. destruct Hhead as (l & rest & ->).
  destruct (grouping_partition _ _ Hgs) as (Hd & Hcontent & _).
  assert (Hl : l = [inst]).
  { destruct (Hcontent (VStr "EC2 Instance") l (or_introl eq_refl)) as [_ ->].
    unfold of_key. cbn [filter]. change (type_of inst) with (VStr "EC2 Instance").
    cbn [Formatter.key_eqb]. rewrite String.eqb_refl. f_equal.
    change (filter _ others) with (of_key (VStr "EC2 Instance") others).
    unfold others. unfold of_key. rewrite !filter_app.
    fold (of_key (VStr "EC2 Instance") vols) (of_key (VStr "EC2 Instance") enis)
         (of_key (VStr "EC2 Instance") snaps) (of_key (VStr "EC2 Instance") amis)
         (of_key (VStr "EC2 Instance") sgs) (of_key (VStr "EC2 Instance") eips).
    rewrite (of_key_other "EC2 Instance" "EBS Volume" vols ltac:(discriminate) Tv),
            (of_key_other "EC2 Instance" "Network Interface" enis ltac:(discriminate) Tn),
            (of_key_other "EC2 Instance" "EBS Snapshot" snaps ltac:(discriminate) Ts),
            (of_key_other "EC2 Instance" "AMI" amis ltac:(discriminate) Ta),
            (of_key_other "EC2 Instance" "Security Group" sgs ltac:(discriminate) Tg),
            (of_key_other "EC2 Instance" "Elastic IP" eips ltac:(discriminate) Te).
    reflexivity. }
  subst l.
  assert (Hkeys : incl (map fst rest) collector_types).
  { intros t Ht. apply in_map_iff in Ht as ([t' l'] & <- & Hin). cbn.
    destruct (Hcontent t' l' (or_intror Hin)) as [Hne Hl'].
    destruct l' as [| r0 l'']; [contradiction |].
    assert (Hr0 : In r0 (of_key t' (inst :: others))) by (rewrite <- Hl'; now left).
    unfold of_key in Hr0. apply filter_In in Hr0 as [Hin0 Hk].
    cbn in Hd. destruct Hd as [Hfirst _]. rewrite Forall_forall in Hfirst.
    assert (Hnot : Formatter.key_eqb t' (VStr "EC2 Instance") = false).
    { apply Hfirst. change t' with (fst (t', r0 :: l'')). now apply in_map. }
    destruct Hin0 as [<- | Hin0].
    - change (type_of inst) with (VStr "EC2 Instance") in Hk.
      rewrite key_eqb_sym in Hk. congruence.
    - rewrite Forall_forall in Hothers. specialize (Hothers r0 Hin0).
      destruct (type_of r0) eqn:Et; destruct t'; cbn in Hk; try discriminate;
        try (exfalso; cbn in Hothers; intuition discriminate).
      apply String.eqb_eq in Hk. now subst. }
  exists inst, rest. rewrite Hres. split; [exact Hgs |]. split; [reflexivity |].
  split; [exact Hkeys |].
  change 6 with (length collector_types). rewrite <- (length_map fst rest).
  apply NoDup_incl_length; [| exact Hkeys].
  apply distinct_NoDup.
  - rewrite Forall_forall. intros t Ht. specialize (Hkeys t Ht). cbn in Hkeys.
    repeat (destruct Hkeys as [<- | Hkeys]; [reflexivity |]). contradiction.
  - cbn in Hd. apply Hd.
Qed.

(* ================================================================== *)
(** ** Flattening and the CSV header, in general *)

Section CsvInGeneral.
Variable py_repr : value -> string.

Lemma flatten_assignments r :
  NoDup (keys (Formatter.flatten py_repr r)) /\
  (forall c, In c (keys (Formatter.flatten py_repr r)) <-> In c (flat_names r)) /\
  (forall c, dict_get c (Formatter.flatten py_repr r)
             = dict_get c (List.rev (flat_items py_repr r))).
Proof.
  unfold Formatter.flatten, items. rewrite flatten_assign. unfold assign_all.
  split; [| split].
  - apply (assignments_NoDup (fun kv : string * value => kv)). constructor.
  - intros c. rewrite (assignments_In (fun kv : string * value => kv)).
    rewrite map_id. rewrite <- (flat_items_keys py_repr). unfold keys. cbn [map In]. tauto.
  - intros c. rewrite (assignments_last_wins (fun kv : string * value => kv)).
    rewrite map_id. cbn. now destruct (dict_get c _).
Qed.

(** Whatever the names are, each column of a flattened row holds the value
    of the last assignment made to it, and the keys of the row are unique
    and are the names assigned. *)
Theorem flatten_last_assignment_wins r :
  NoDup (keys (Formatter.flatten py_repr r)) /\
  (forall c, In c (keys (Formatter.flatten py_repr r)) <-> In c (flat_names r)) /\
  (forall c, dict_get c (Formatter.flatten py_repr r)
             = dict_get c (List.rev (flat_items py_repr r))).
Proof. apply flatten_assignments. Qed.

Lemma add_column_NoDup columns k : NoDup columns -> NoDup (Formatter.add_column columns k).
Proof.
  intros Hnd. unfold Formatter.add_column.
  destruct (existsb (String.eqb k) columns) eqn:E; [exact Hnd |].
  apply NoDup_app; [exact Hnd | repeat constructor; tauto |].
  intros x Hx [-> | []].
  assert (Hex : existsb (String.eqb x) columns = true)
    by (apply existsb_exists; exists x; split; [exact Hx | apply String.eqb_refl]).
  congruence.
Qed.

Lemma add_columns_NoDup ks columns :
  NoDup columns -> NoDup (fold_left Formatter.add_column ks columns).
Proof.
  revert columns. induction ks as [| k ks IH]; intros columns Hnd; cbn.
  - exact Hnd.
  - apply IH. now apply add_column_NoDup.
Qed.

Lemma add_columns_extend ks columns :
  exists more, fold_left Formatter.add_column ks columns = columns ++ more.
Proof.
  revert columns. induction ks as [| k ks IH]; intros columns; cbn.
  - exists []. now rewrite app_nil_r.
  - destruct (IH (Formatter.add_column columns k)) as [more ->].
    unfold Formatter.add_column. destruct (existsb _ columns).
    + now exists more.
    + exists ([k] ++ more). now rewrite app_assoc.
Qed.

Lemma add_columns_fresh ks columns :
  NoDup (columns ++ ks) -> fold_left Formatter.add_column ks columns = columns ++ ks.
Proof.
  revert columns. induction ks as [| k ks IH]; intros columns Hnd; cbn.
  - now rewrite app_nil_r.
  - assert (Hfresh : existsb (String.eqb k) columns = false).
    { destruct (existsb (String.eqb k) columns) eqn:E; [| reflexivity].
      apply existsb_exists in E as (x & Hx & Heq). apply String.eqb_eq in Heq. subst x.
      apply NoDup_remove_2 in Hnd. exfalso. apply Hnd. apply in_or_app. now left. }
    unfold Formatter.add_column at 2. rewrite Hfresh.
    rewrite IH; rewrite <- app_assoc; [reflexivity | exact Hnd].
Qed.

Lemma frame_columns_fold rows :
  forall columns,
    NoDup columns ->
    NoDup (fold_left (fun columns (row : pydict value) =>
                        fold_left Formatter.add_column (keys row) columns) rows columns) /\
    exists more,
      fold_left (fun columns (row : pydict value) =>
                   fold_left Formatter.add_column (keys row) columns) rows columns
      = columns ++ more.
Proof.
  induction rows as [| row rows IH]; intros columns Hnd; cbn.
  - split; [exact Hnd | exists []; now rewrite app_nil_r].
  - destruct (IH _ (add_columns_NoDup (keys row) columns Hnd)) as [Hnd' [more Hmore]].
    split; [exact Hnd' |].
    destruct (add_columns_extend (keys row) columns) as [more0 Hmore0].
    rewrite Hmore, Hmore0. exists (more0 ++ more). now rewrite app_assoc.
Qed.

(** The header of the CSV file has no column twice, and it starts with the
    columns of the first record in that record's order; the columns that
    only later records have follow. *)
Theorem csv_header_unique_first_record_first r rs :
  NoDup (Formatter.frame_columns (map (Formatter.flatten py_repr) (r :: rs))) /\
  exists later,
    Formatter.frame_columns (map (Formatter.flatten py_repr) (r :: rs))
      = keys (Formatter.flatten py_repr r) ++ later.
Proof.
  unfold Formatter.frame_columns. cbn [map fold_left].
  destruct (flatten_assignments r) as [Hnd _].
  rewrite (add_columns_fresh (keys (Formatter.flatten py_repr r)) []) by exact Hnd.
  cbn [app]. now apply frame_columns_fold.
Qed.

End CsvInGeneral.

(* ================================================================== *)
(** ** Cells and tables *)

Lemma length_append (a b : string) :
  String.length (a ++ b) = String.length a + String.length b.
Proof. induction a as [| c a IH]; cbn; [reflexivity | now rewrite IH]. Qed.

Lemma str_prefix_split n s :
  exists rest,
    s = (str_prefix n s ++ rest)%string /\
    String.length (str_prefix n s) = Nat.min n (String.length s).
Proof.
  unfold str_prefix. revert n. induction s as [| c s IH]; intros n.
  - exists "". destruct n; split; reflexivity.
  - destruct n as [| n]; cbn.
    + exists (String c s). split; reflexivity.
    + destruct (IH n) as (rest & Hs & Hlen). exists rest. split.
      * now rewrite <- Hs.
      * now rewrite Hlen.
Qed.

(** Truncating a text field: a text of at most [width] characters is shown
    as it is; a longer one is cut to its first [width] characters followed
    by three dots, [width + 3] characters in all; a missing field shows
    [N/A]; a field holding [None] makes the table raise [TypeError]. *)
Theorem text_truncation k width r :
  (forall s, dict_get k r = Some (VStr s) ->
     exists out,
       Formatter.truncated k width r = inr (VStr out) /\
       String.length out <= width + 3 /\
       (String.length s <= width -> out = s) /\
       (width < String.length s ->
          out = (str_prefix width s ++ "...")%string /\
          String.length out = width + 3 /\
          exists rest, s = (str_prefix width s ++ rest)%string)) /\
  (dict_get k r = None -> Formatter.truncated k width r = inr (VStr "N/A")) /\
  (dict_get k r = Some VNone ->
     Formatter.truncated k width r = inl (TypeError "object has no len()")).
Proof.
  unfold Formatter.truncated, Formatter.field, Formatter.NA, dict_get_default.
  split; [| split].
  - intros s ->. cbn [Formatter.py_len Formatter.rbind].
    destruct (str_prefix_split width s) as (rest & Hs & Hlen).
    destruct (Nat.ltb_spec width (String.length s)) as [Hlt | Hge].
    + cbn. eexists. split; [reflexivity |].
      rewrite length_append, Hlen. cbn [String.length].
      repeat split; try lia. now exists rest.
    + exists s. repeat split; try lia.
  - intros ->. cbn. now destruct width.
  - intros ->. reflexivity.
Qed.

Section Details.
Variable py_repr : value -> string.

Lemma detail_hidden kv : shown kv = false -> Formatter.detail py_repr kv = [].
Proof.
  destruct kv as [key v]. unfold shown, Formatter.detail. cbn [fst snd].
  destruct (existsb (String.eqb key) Formatter.skip_fields); [reflexivity |].
  cbn [negb andb]. destruct v as [| b | z | s | [| x l] | [| x d]]; cbn;
    try discriminate; try reflexivity.
  unfold Formatter.is_str. intros H. apply negb_false_iff in H. now rewrite H.
Qed.

Lemma details_filter r :
  flat_map (Formatter.detail py_repr) r = flat_map (Formatter.detail py_repr) (filter shown r).
Proof.
  induction r as [| kv r IH]; cbn; [reflexivity |].
  destruct (shown kv) eqn:E; cbn.
  - now rewrite IH.
  - now rewrite (detail_hidden kv E).
Qed.

(** The details string ignores the fields [resource_type], [resource_id]
    and [tags], the fields holding [None] or the string [N/A], and the
    fields holding an empty list or dict: dropping them from the record
    changes nothing, and a record with no other field has empty details. *)
Theorem details_ignore_hidden_fields r :
  Formatter._format_resource_details py_repr r
    = Formatter._format_resource_details py_repr (filter shown r) /\
  (Forall (fun kv => shown kv = false) r ->
   Formatter._format_resource_details py_repr r = "").
Proof.
  unfold Formatter._format_resource_details, items. split.
  - now rewrite details_filter.
  - intros Hall. replace (flat_map (Formatter.detail py_repr) r) with (@nil string).
    + reflexivity.
    + symmetry. induction Hall as [| kv r Hkv _ IH]; cbn; [reflexivity |].
      now rewrite (detail_hidden kv Hkv), IH.
Qed.

End Details.

(** The summary table of a discovery result has seven rows: the six kinds
    in collector order under the labels Volumes, Network Interfaces,
    Snapshots, Amis, Security Groups and Elastic Ips, then TOTAL, whose count
    is one more than the sum of the six. *)
Theorem summary_table_of_discovery aws id w r tabulate table_format :
  fst (Discovery.discover_all_resources aws id w) = inr (Some r) ->
  exists volumes network_interfaces snapshots amis security_groups elastic_ips : nat,
    Formatter.format_summary_table tabulate (summary r) table_format
    = tabulate
        [ summary_row "Volumes" (Z.of_nat volumes);
          summary_row "Network Interfaces" (Z.of_nat network_interfaces);
          summary_row "Snapshots" (Z.of_nat snapshots);
          summary_row "Amis" (Z.of_nat amis);
          summary_row "Security Groups" (Z.of_nat security_groups);
          summary_row "Elastic Ips" (Z.of_nat elastic_ips);
          summary_row "TOTAL"
            (Z.of_nat (1 + volumes + network_interfaces + snapshots + amis
                       + security_groups + elastic_ips)) ]
        table_format.
Proof.
  intros H. apply summary_shape in H.
  destruct H as (_ & v & n & s & a & g & e & ->).
  exists v, n, s, a, g, e. reflexivity.
Qed.

Section Exports.
Variable py_repr : value -> string.
Variable open_error : string -> option exn.


End Exports.

(* ================================================================== *)
(** ** The command line *)

Lemma bind_print {B} line (k : unit -> M B) w : bind (print line) k w = k tt (printed w line).
Proof. reflexivity. Qed.

Lemma try_except_cases {A} (body : M A) handler w :
  (exists a w', body w = (inr a, w') /\ try_except body handler w = (inr a, w'))
  \/ (exists e w', body w = (inl e, w') /\
                   try_except body handler w
                     = match handler e with Some h => h w' | None => (inl e, w') end).
Proof.
  unfold try_except. destruct (body w) as [[e | a] w'].
  - right. now exists e, w'.
  - left. now exists a, w'.
Qed.

Section CommandLine.
Variable aws : Provider.
Variable tabulate : list (pydict value) -> string -> string.
Variable py_repr : value -> string.
Variable open_error : string -> option exn.
Variable now : string.

Lemma try_except_raise {A} (body : M A) handler w e w' :
  body w = (inl e, w') -> handler e = None -> try_except body handler w = (inl e, w').
Proof. unfold try_except. now intros -> ->. Qed.

Lemma bind_raise {A B} (c : M A) (k : A -> M B) w e w' :
  c w = (inl e, w') -> bind c k w = (inl e, w').
Proof. unfold bind. now intros ->. Qed.

Lemma init_ok region profile w :
  session_init aws profile region = None -> Discovery.init aws region profile w = (inr tt, w).
Proof. unfold Discovery.init. now intros ->. Qed.

Lemma discover_failed_load id w e :
  instance_load aws (trace w) id = inl e -> is_Exception e = true ->
  exists line ev,
    Discovery.discover_all_resources aws id w
      = (inr None, {| stdout := stdout w ++ [banner id; line];
                      trace := trace w ++ [ev];
                      files := files w |}) /\
    ev_call ev = LoadInstance id.
Proof.
  intros Hload He.
  unfold Discovery.discover_all_resources, Discovery.get_instance_details,
         try_except, bind, request, print, ret, raise, banner.
  cbn. rewrite Hload.
  destruct e; cbn in *; try discriminate;
    try destruct (String.eqb code "InvalidInstanceID.NotFound"); cbn;
    rewrite <- app_assoc; eexists; eexists; split; reflexivity.
Qed.

(** [main] ends by returning or by [SystemExit]: no other exception leaves
    it, whatever the provider, the libraries and the file system do. *)
Theorem main_returns_or_exits args w :
  fst (Cli.main aws tabulate py_repr open_error now args w) = inr tt
  \/ exists status,
       fst (Cli.main aws tabulate py_repr open_error now args w) = inl (SystemExit status).
Proof.
  unfold Cli.main. destruct (Cli.invalid_instance_id (Cli.arg_instance_id args)).
  - right. exists 1. reflexivity.
  - rewrite !bind_print.
    match goal with
    | |- context [try_except ?body ?handler ?w0] =>
        destruct (try_except_cases body handler w0)
          as [(a & w' & _ & ->) | (e & w' & _ & ->)]
    end.
    + left. now destruct a.
    + right. destruct e; cbn; eauto.
Qed.

(** When the session cannot be created, be it for missing credentials or
    for any other [Exception], [main] prints the reason and exits with
    status 1 without a provider call and without writing a file. *)
Theorem session_failure_exits_before_discovery args w e :
  Cli.invalid_instance_id (Cli.arg_instance_id args) = false ->
  session_init aws (Cli.arg_profile args) (Cli.arg_region args) = Some e ->
  is_Exception e = true ->
  Cli.main aws tabulate py_repr open_error now args w
    = (inl (SystemExit 1), printed (after_header now args w) (session_failure_line e)).
Proof.
  intros Hvalid Hsession He. unfold Cli.main. rewrite Hvalid, !bind_print.
  apply try_except_raise; [| reflexivity].
  apply bind_raise. unfold Discovery.init. rewrite Hsession.
  destruct e; cbn in He; try discriminate; reflexivity.
Qed.

(** When loading the instance raises an [Exception], [main] exits with
    status 1 after that single provider call; its last line is
    [Resource discovery failed.] and no file is written. *)
Theorem failed_load_exits_after_one_call args w e :
  Cli.invalid_instance_id (Cli.arg_instance_id args) = false ->
  session_init aws (Cli.arg_profile args) (Cli.arg_region args) = None ->
  instance_load aws (trace w) (Cli.arg_instance_id args) = inl e ->
  is_Exception e = true ->
  exists lines ev,
    Cli.main aws tabulate py_repr open_error now args w
      = (inl (SystemExit 1),
         {| stdout := stdout w ++ lines ++ ["Resource discovery failed."];
            trace := trace w ++ [ev];
            files := files w |}) /\
    ev_call ev = LoadInstance (Cli.arg_instance_id args).
Proof.
  intros Hvalid Hsession Hload He. unfold Cli.main. rewrite Hvalid, !bind_print.
  match goal with
  | |- context [try_except _ _ ?w0] => set (w7 := w0)
  end.
  destruct (discover_failed_load (Cli.arg_instance_id args) w7 e Hload He)
    as (line & ev & Hd & Hcall).
  exists ([ "AWS EC2 Resource Discovery Tool";
            Cli.repeat_str "=" 50;
            ("Instance ID: " ++ Cli.arg_instance_id args)%string;
            ("Region: " ++ Cli.or_default (Cli.arg_region args) "default")%string;
            ("Profile: " ++ Cli.or_default (Cli.arg_profile args) "default")%string;
            ("Timestamp: " ++ now)%string;
            Cli.repeat_str "=" 50;
            banner (Cli.arg_instance_id args); line ]), ev.
  split; [| exact Hcall].
  apply try_except_raise; [| reflexivity].
  erewrite bind_run by (apply init_ok; exact Hsession).
  erewrite bind_run by exact Hd.
  cbv beta iota. rewrite bind_print. subst w7. unfold raise, printed. cbn [stdout trace files].
  repeat rewrite <- app_assoc. reflexivity.
Qed.

Lemma init_inr region profile w w' :
  Discovery.init aws region profile w = (inr tt, w') ->
  session_init aws profile region = None /\ w' = w.
Proof.
  unfold Discovery.init. destruct (session_init aws profile region) as [e |].
  - destruct e; cbn; try rewrite bind_print; unfold raise; discriminate.
  - unfold ret. intros H. injection H as <-. split; reflexivity.
Qed.

Lemma tables_keep_files args r w w' :
  (if negb (Cli.arg_summary_only args)
   then
     print "\nDetailed Resource Information:" ;;;
     print (Cli.repeat_str "-" 50) ;;;
     if Cli.arg_detailed args
     then
       detailed_table <- Formatter.lift
         (Formatter.format_detailed_resources_table
            tabulate py_repr (resources r) (Cli.arg_format args)) ;;
       print detailed_table
     else
       print (Formatter.format_resources_table
                tabulate py_repr (resources r) (Cli.arg_format args))
   else ret tt) w = (inr tt, w') ->
  files w' = files w /\ trace w' = trace w.
Proof.
  destruct (negb (Cli.arg_summary_only args)).
  - rewrite !bind_print. destruct (Cli.arg_detailed args).
    + intros H. apply bind_inr in H as (table & w1 & Hlift & H).
      unfold Formatter.lift in Hlift. injection Hlift as _ <-.
      unfold print in H. injection H as <-. split; reflexivity.
    + unfold print. intros H. injection H as <-. split; reflexivity.
  - unfold ret. intros H. injection H as <-. split; reflexivity.
Qed.

Lemma csv_export_files o rs w w' :
  Cli.when_given o (fun filename =>
    csv_message <- Formatter.export_to_csv py_repr open_error rs filename ;;
    print ("\n" ++ csv_message)) w = (inr tt, w') ->
  files w' = files w
             ++ map (fun filename =>
                       (filename,
                        CsvFrame (Formatter.frame_columns (map (Formatter.flatten py_repr) rs))
                                 (map (Formatter.flatten py_repr) rs)))
                    (given o) /\
  trace w' = trace w /\
  Forall (fun filename => open_error filename = None) (given o).
Proof.
  unfold Cli.when_given, given. destruct o as [s |].
  - destruct (String.eqb s "").
    + unfold ret. intros H. injection H as <-. cbn. rewrite app_nil_r. repeat split. constructor.
    + intros H. apply bind_inr in H as (msg & w1 & Hexport & H).
      unfold Formatter.export_to_csv, Formatter.write_file, bind, ret in Hexport.
      destruct (open_error s) eqn:Hopen; [discriminate |].
      injection Hexport as _ <-. unfold print in H. injection H as <-.
      cbn. repeat split. constructor; [exact Hopen | constructor].
  - unfold ret. intros H. injection H as <-. cbn. rewrite app_nil_r. repeat split. constructor.
Qed.

Lemma json_export_files o r w w' :
  Cli.when_given o (fun filename =>
    json_message <- Formatter.export_to_json open_error r filename ;;
    print ("\n" ++ json_message)) w = (inr tt, w') ->
  files w' = files w ++ map (fun filename => (filename, JsonDocument r)) (given o) /\
  trace w' = trace w /\
  Forall (fun filename => open_error filename = None) (given o).
Proof.
  unfold Cli.when_given, given. destruct o as [s |].
  - destruct (String.eqb s "").
    + unfold ret. intros H. injection H as <-. cbn. rewrite app_nil_r. repeat split. constructor.
    + intros H. apply bind_inr in H as (msg & w1 & Hexport & H).
      unfold Formatter.export_to_json, Formatter.write_file, bind, ret in Hexport.
      destruct (open_error s) eqn:Hopen; [discriminate |].
      injection Hexport as _ <-. unfold print in H. injection H as <-.
      cbn. repeat split. constructor; [exact Hopen | constructor].
  - unfold ret. intros H. injection H as <-. cbn. rewrite app_nil_r. repeat split. constructor.
Qed.

(** When [main] returns, that is on exit status 0, the identifier passed
    the check, the session was created, discovery returned a result, and
    the files written are exactly the requested ones, the CSV frame of the
    resources before the JSON document of the result, each at a path that
    could be opened; the provider calls are those of the discovery. *)
Theorem exit_zero_means_discovered_and_exported args w w' :
  Cli.main aws tabulate py_repr open_error now args w = (inr tt, w') ->
  Cli.invalid_instance_id (Cli.arg_instance_id args) = false /\
  session_init aws (Cli.arg_profile args) (Cli.arg_region args) = None /\
  exists r w1,
    Discovery.discover_all_resources aws (Cli.arg_instance_id args) (after_header now args w)
      = (inr (Some r), w1) /\
    trace w' = trace w1 /\
    files w'
      = files w
        ++ map (fun filename =>
                  (filename,
                   CsvFrame (Formatter.frame_columns
                               (map (Formatter.flatten py_repr) (resources r)))
                            (map (Formatter.flatten py_repr) (resources r))))
               (given (Cli.arg_export_csv args))
        ++ map (fun filename => (filename, JsonDocument r)) (given (Cli.arg_export_json args)) /\
    Forall (fun filename => open_error filename = None)
           (given (Cli.arg_export_csv args) ++ given (Cli.arg_export_json args)).
Proof.
  intros H. unfold Cli.main in H.
  destruct (Cli.invalid_instance_id (Cli.arg_instance_id args)).
  { rewrite !bind_print in H. unfold raise in H. discriminate. }
  rewrite !bind_print in H.
  apply try_except_inr in H as [H | (e & wh & h & _ & Hh & H)].
  2: { exfalso. destruct e; cbn in Hh; try discriminate; injection Hh as <-;
         rewrite bind_print in H; unfold raise in H; discriminate. }
  apply bind_inr in H as ([] & w0 & Hinit & H).
  apply init_inr in Hinit as [Hsession ->].
  apply bind_inr in H as (result & w1 & Hd & H).
  destruct result as [r |].
  2: { rewrite bind_print in H. unfold raise in H. discriminate. }
  rewrite !bind_print in H.
  apply bind_inr in H as ([] & w2 & Htables & H).
  apply tables_keep_files in Htables as [Hf2 Ht2].
  apply bind_inr in H as ([] & w3 & Hcsv & H).
  apply csv_export_files in Hcsv as (Hf3 & Ht3 & Ho3).
  apply bind_inr in H as ([] & w4 & Hjson & H).
  apply json_export_files in Hjson as (Hf4 & Ht4 & Ho4).
  rewrite !bind_print in H. unfold print in H. injection H as <-.
  destruct (discovery_run_facts aws _ _ _ _ Hd) as (evs & msgs & (_ & _ & Hf1) & _).
  split; [reflexivity |]. split; [exact Hsession |].
  exists r, w1. split; [exact Hd |].
  cbn [trace files printed] in *.
  split; [congruence |].
  split.
  - rewrite Hf4, Hf3, Hf2, Hf1. unfold after_header. cbn. now rewrite <- app_assoc.
  - apply Forall_app. now split.
Qed.

End CommandLine.

(* ================================================================== *)
(** ** The script entry point *)

Lemma print_all_run lines w :
  Standalone.print_all lines w = (inr tt, fold_left printed lines w).
Proof.
  revert w. induction lines as [| line lines IH]; intros w; cbn [Standalone.print_all fold_left].
  - reflexivity.
  - rewrite bind_print. apply IH.
Qed.

Lemma fold_printed lines w :
  stdout (fold_left printed lines w) = stdout w ++ lines /\
  trace (fold_left printed lines w) = trace w /\
  files (fold_left printed lines w) = files w.
Proof.
  revert w. induction lines as [| line lines IH]; intros w; cbn [fold_left].
  - now rewrite app_nil_r.
  - destruct (IH (printed w line)) as (-> & -> & ->). cbn.
    now rewrite <- app_assoc.
Qed.


(* ================================================================== *)
(** ** Rendering the detailed tables *)

Section Rendering.
Variable tabulate : list (pydict value) -> string -> string.
Variable py_repr : value -> string.

Lemma displayable_parts r :
  displayable r = true ->
  is_container (type_of r) = false /\
  field_ok (fun v => negb (truthy v) || is_dict v) "tags" r = true /\
  field_ok is_text "description" r = true /\
  field_ok is_text "name" r = true /\
  field_ok (fun v => negb (truthy v) || is_text v) "start_time" r = true /\
  field_ok (fun v => negb (truthy v) || is_text v) "creation_date" r = true /\
  field_ok (fun v => match v with VList l => forallb is_text l | _ => false end)
           "security_groups" r = true.
Proof.
  unfold displayable. rewrite !andb_true_iff, negb_true_iff. tauto.
Qed.

Lemma tags_cell_ok r :
  displayable r = true -> exists v, Formatter.tags_cell py_repr r = inr v.
Proof.
  intros H. apply displayable_parts in H as (_ & H & _).
  unfold field_ok in H. unfold Formatter.tags_cell, Formatter._format_tags, dict_get_default.
  destruct (dict_get "tags" r) as [v |].
  - destruct (truthy v) eqn:Ht; cbn [negb].
    + destruct v; cbn in H; try discriminate. cbn.
      match goal with |- context [if ?b then _ else _] => destruct b end; cbn; eauto.
    + cbn. eauto.
  - cbn. eauto.
Qed.

Lemma truncated_ok k width r :
  field_ok is_text k r = true -> exists v, Formatter.truncated k width r = inr v.
Proof.
  unfold field_ok, Formatter.truncated, Formatter.field, dict_get_default.
  destruct (dict_get k r) as [v |].
  - destruct v; try discriminate. intros _. cbn.
    match goal with |- context [if ?b then _ else _] => destruct b end; eauto.
  - intros _. cbn. destruct width; cbn; eauto.
Qed.

Lemma clipped_ok k width r :
  field_ok (fun v => negb (truthy v) || is_text v) k r = true ->
  exists v, Formatter.clipped k width r = inr v.
Proof.
  unfold field_ok, Formatter.clipped, Formatter.field, dict_get_default.
  destruct (dict_get k r) as [v |].
  - destruct (truthy v) eqn:Ht; cbn [negb orb]; [| eauto].
    destruct v; try discriminate. intros _. cbn. eauto.
  - intros _. cbn. eauto.
Qed.

Lemma rmap_as_str l :
  forallb is_text l = true -> exists ss, Formatter.rmap Formatter.as_str l = inr ss.
Proof.
  induction l as [| v l IH]; cbn.
  - eauto.
  - destruct v; try discriminate. cbn. intros H. destruct (IH H) as [ss ->]. cbn. eauto.
Qed.

Lemma join_groups_ok r :
  field_ok (fun v => match v with VList l => forallb is_text l | _ => false end)
           "security_groups" r = true ->
  exists s, Formatter.py_join ", " (dict_get_default "security_groups" (VList []) r) = inr s.
Proof.
  unfold field_ok, dict_get_default. destruct (dict_get "security_groups" r) as [v |].
  - destruct v; try discriminate. intros H. cbn.
    destruct (rmap_as_str l H) as [ss ->]. cbn. eauto.
  - intros _. cbn. eauto.
Qed.

Lemma rmap_ok {A B} (f : A -> Formatter.R B) l :
  Forall (fun a => exists b, f a = inr b) l ->
  exists bs, Formatter.rmap f l = inr bs /\ length bs = length l.
Proof.
  induction 1 as [| a l [b Hb] _ [bs [IH Hlen]]]; cbn.
  - now exists [].
  - rewrite Hb. cbn. rewrite IH. cbn. exists (b :: bs). cbn. now rewrite Hlen.
Qed.

Lemma table_of_ok row l table_format :
  Forall (fun r => exists cells, row r = inr cells) l ->
  exists out, Formatter.table_of tabulate row l table_format = inr out.
Proof.
  intros H. unfold Formatter.table_of. destruct (rmap_ok row l H) as (rows & -> & _).
  cbn. eauto.
Qed.

(** Every cell that may raise is fine on a displayable record. *)
Ltac cells H :=
  pose proof (displayable_parts _ H) as (_ & _ & Hdesc & Hname & Hstart & Hdate & Hgroups);
  repeat match goal with
         | |- context [Formatter.tags_cell py_repr ?r] =>
             let E := fresh in destruct (tags_cell_ok r H) as [? E]; rewrite E; clear E
         | |- context [Formatter.truncated "description" ?n ?r] =>
             let E := fresh in destruct (truncated_ok "description" n r Hdesc) as [? E];
                               rewrite E; clear E
         | |- context [Formatter.truncated "name" ?n ?r] =>
             let E := fresh in destruct (truncated_ok "name" n r Hname) as [? E];
                               rewrite E; clear E
         | |- context [Formatter.clipped "start_time" ?n ?r] =>
             let E := fresh in destruct (clipped_ok "start_time" n r Hstart) as [? E];
                               rewrite E; clear E
         | |- context [Formatter.clipped "creation_date" ?n ?r] =>
             let E := fresh in destruct (clipped_ok "creation_date" n r Hdate) as [? E];
                               rewrite E; clear E
         | |- context [Formatter.py_join ", " _] =>
             let E := fresh in destruct (join_groups_ok _ Hgroups) as [? E];
                               rewrite E; clear E
         end;
  cbn [Formatter.rbind]; eauto.

Ltac table :=
  apply table_of_ok;
  match goal with
  | Hl : Forall (fun r => displayable r = true) ?l |- Forall _ ?l =>
      eapply Forall_impl; [| exact Hl]
  end;
  let r := fresh "r" in let H := fresh "H" in
  intros r H; cbv beta; cells H.

Lemma format_group_ok table_format t l :
  Forall (fun r => displayable r = true) l ->
  exists lines, Formatter.format_group tabulate py_repr table_format (t, l) = inr lines.
Proof.
  intros Hl. unfold Formatter.format_group.
  assert (Htable : exists out,
    (if Formatter.is_str "EC2 Instance" t
     then Formatter._format_ec2_instances_table tabulate py_repr l table_format
     else if Formatter.is_str "EBS Volume" t
     then Formatter._format_volumes_table tabulate py_repr l table_format
     else if Formatter.is_str "Network Interface" t
     then Formatter._format_network_interfaces_table tabulate py_repr l table_format
     else if Formatter.is_str "EBS Snapshot" t
     then Formatter._format_snapshots_table tabulate py_repr l table_format
     else if Formatter.is_str "AMI" t
     then Formatter._format_amis_table tabulate py_repr l table_format
     else if Formatter.is_str "Security Group" t
     then Formatter._format_security_groups_table tabulate py_repr l table_format
     else if Formatter.is_str "Elastic IP" t
     then Formatter._format_elastic_ips_table tabulate py_repr l table_format
     else Formatter._format_generic_table tabulate py_repr l table_format) = inr out).
  { repeat match goal with
           | |- context [if ?b then _ else _] => destruct b
           end;
      unfold Formatter._format_ec2_instances_table, Formatter._format_volumes_table,
             Formatter._format_network_interfaces_table, Formatter._format_snapshots_table,
             Formatter._format_amis_table, Formatter._format_security_groups_table,
             Formatter._format_elastic_ips_table, Formatter._format_generic_table;
      table. }
  destruct Htable as [out ->]. cbn. eauto.
Qed.

Lemma detailed_table_ok rs table_format :
  Forall (fun r => displayable r = true) rs ->
  exists out,
    Formatter.format_detailed_resources_table tabulate py_repr rs table_format = inr out.
Proof.
  intros Hall. unfold Formatter.format_detailed_resources_table.
  destruct rs as [| r0 rs]; [eauto |].
  assert (Hhash : Forall (fun r => is_container (type_of r) = false) (r0 :: rs)).
  { eapply Forall_impl; [| exact Hall]. intros r H. now apply displayable_parts in H. }
  destruct (group_by_type_returns (r0 :: rs) [] Hhash) as [gs Hgs]. rewrite Hgs.
  cbn [Formatter.rbind].
  destruct (grouping_partition _ _ Hgs) as (_ & Hcontent & _).
  assert (Hgroups : Forall (fun g => exists lines,
                              Formatter.format_group tabulate py_repr table_format g
                              = inr lines) gs).
  { apply Forall_forall. intros [t l] Hin. apply format_group_ok.
    destruct (Hcontent t l Hin) as [_ ->]. unfold of_key.
    apply Forall_forall. intros r Hr. apply filter_In in Hr as [Hr _].
    rewrite Forall_forall in Hall. now apply Hall. }
  destruct (rmap_ok _ _ Hgroups) as (tables & -> & _). cbn. eauto.
Qed.

(** The grouped renderer returns a string, it does not raise, for every
    list of displayable records: records with a hashable type, tags that
    are a dict, [description] and [name] that are strings when present,
    [start_time] and [creation_date] that are strings or falsy, and
    [security_groups] that is a list of strings. *)
Theorem detailed_table_renders_displayable_records rs table_format :
  Forall (fun r => displayable r = true) rs ->
  exists out,
    Formatter.format_detailed_resources_table tabulate py_repr rs table_format = inr out.
Proof. apply detailed_table_ok. Qed.

End Rendering.

(* ================================================================== *)
(** ** Rendering what discovery found *)

Ltac shown_record :=
  unfold displayable, field_ok; cbn; rewrite ?orb_true_r; reflexivity.

Lemma volume_info_displayable id v : displayable (Discovery.volume_info id v) = true.
Proof.
  unfold Discovery.volume_info.
  destruct (find _ _); shown_record.
Qed.

Lemma eni_info_displayable eni : displayable (Discovery.eni_info eni) = true.
Proof.
  unfold displayable, field_ok; cbn. rewrite ?orb_true_r. cbn.
  induction (Discovery.get_or (eni_Groups eni) []) as [| g gs IH]; [reflexivity | exact IH].
Qed.

Lemma eip_info_displayable eip : displayable (Discovery.eip_info eip) = true.
Proof. shown_record. Qed.

Lemma snapshot_info_displayable s :
  text_if_present (snap_Description s) = true ->
  displayable (Discovery.snapshot_info s) = true.
Proof.
  unfold displayable, field_ok. cbn.
  destruct (snap_Description s) as [[] |]; cbn; try discriminate;
    intros _; rewrite ?orb_true_r; reflexivity.
Qed.

Lemma ami_info_displayable i :
  text_if_present (img_Name i) = true /\
  text_if_present (img_Description i) = true /\
  text_if_present (img_CreationDate i) = true ->
  displayable (Discovery.ami_info i) = true.
Proof.
  unfold displayable, field_ok. cbn.
  destruct (img_Name i) as [[] |]; cbn; try (intros (? & _); discriminate);
    destruct (img_Description i) as [[] |]; cbn; try (intros (_ & ? & _); discriminate);
    destruct (img_CreationDate i) as [[] |]; cbn; try (intros (_ & _ & ?); discriminate);
    intros _; rewrite ?orb_true_r; reflexivity.
Qed.

Lemma sg_info_displayable g :
  is_text (sg_Description g) = true /\ is_text (sg_GroupName g) = true ->
  displayable (Discovery.sg_info g) = true.
Proof.
  unfold displayable, field_ok. cbn.
  destruct (sg_Description g); cbn; try (intros (? & _); discriminate);
    destruct (sg_GroupName g); cbn; try (intros (_ & ?); discriminate);
    intros _; rewrite ?orb_true_r; reflexivity.
Qed.

Lemma in_response_order_displayable {X Q} (f : X -> resource)
      (ask : list event -> Q -> exn + list X) (good : X -> Prop) out :
  (forall h q l, ask h q = inr l -> Forall good l) ->
  (forall x, good x -> displayable (f x) = true) ->
  in_response_order f ask out ->
  Forall (fun r => displayable r = true) out.
Proof.
  intros Hask Hf [-> | (h & q & resp & Hresp & ->)].
  - constructor.
  - rewrite Forall_map. eapply Forall_impl; [| exact (Hask h q resp Hresp)]. exact Hf.
Qed.

Lemma instance_resource_displayable aws id w details w' :
  Discovery.get_instance_details aws id w = (inr details, w') ->
  displayable (Discovery.instance_resource id details) = true.
Proof.
  unfold Discovery.get_instance_details, try_except, bind, request, ret, raise.
  cbn. destruct (instance_load aws (trace w) id) as [e | inst]; cbn.
  - destruct e; cbn; try discriminate.
    destruct (String.eqb code "InvalidInstanceID.NotFound"); discriminate.
  - intros H. injection H as <- _. shown_record.
Qed.

Lemma discovery_displayable aws id w r :
  text_attributes aws ->
  fst (Discovery.discover_all_resources aws id w) = inr (Some r) ->
  Forall (fun x => displayable x = true) (resources r).
Proof.
  intros [Hsnap Himg Hgrp] H.
  apply discover_inv in H.
  destruct H as (details & w0 & vols & w1 & enis & w2 & snaps & w3 & amis & w4 & sgs & w5
                 & eips & w6 & w7 & Hd & Hv & Hn & Hs & Ha & Hg & He & _ & Hres & _).
  pose proof (volumes_order aws id w1) as Ov. rewrite Hv in Ov.
  pose proof (interfaces_order aws id w2) as On. rewrite Hn in On.
  pose proof (snapshots_order aws id w3) as Os. rewrite Hs in Os.
  pose proof (ami_order aws id w4) as Oa. rewrite Ha in Oa.
  pose proof (security_groups_order aws id w5) as Og. rewrite Hg in Og.
  pose proof (elastic_ips_order aws id w6) as Oe. rewrite He in Oe.
  cbn [fst] in Ov, On, Os, Oa, Og, Oe.
  rewrite Hres. constructor; [eapply instance_resource_displayable; exact Hd |].
  repeat (apply Forall_app; split).
  - eapply in_response_order_displayable with (good := fun _ => True); [| | exact Ov].
    + intros. apply Forall_forall. trivial.
    + intros x _. apply volume_info_displayable.
  - eapply in_response_order_displayable with (good := fun _ => True); [| | exact On].
    + intros. apply Forall_forall. trivial.
    + intros x _. apply eni_info_displayable.
  - eapply in_response_order_displayable; [exact Hsnap | | exact Os].
    exact snapshot_info_displayable.
  - eapply in_response_order_displayable; [exact Himg | | exact Oa].
    exact ami_info_displayable.
  - eapply in_response_order_displayable; [exact Hgrp | | exact Og].
    exact sg_info_displayable.
  - eapply in_response_order_displayable with (good := fun _ => True); [| | exact Oe].
    + intros. apply Forall_forall. trivial.
    + intros x _. apply eip_info_displayable.
Qed.

(** When the provider's snapshot descriptions, image names, descriptions
    and creation dates, and security group names and descriptions are
    strings, the grouped renderer returns a string for the resources of
    every successful discovery: no cell of any of its tables raises. *)
Theorem discovery_result_renders aws id w r tabulate py_repr table_format :
  text_attributes aws ->
  fst (Discovery.discover_all_resources aws id w) = inr (Some r) ->
  exists out,
    Formatter.format_detailed_resources_table tabulate py_repr (resources r) table_format
    = inr out.
Proof.
  intros Htext H. apply detailed_table_ok. now apply discovery_displayable with aws id w.
Qed.

(* ================================================================== *)
(** ** When the command succeeds *)

Section CommandSuccess.
Variable aws : Provider.
Variable tabulate : list (pydict value) -> string -> string.
Variable py_repr : value -> string.
Variable open_error : string -> option exn.
Variable now : string.

Lemma tables_run args r w :
  Cli.arg_summary_only args = true \/ Cli.arg_detailed args = false \/
  Forall (fun x => displayable x = true) (resources r) ->
  exists w',
    (if negb (Cli.arg_summary_only args)
     then
       print "\nDetailed Resource Information:" ;;;
       print (Cli.repeat_str "-" 50) ;;;
       if Cli.arg_detailed args
       then
         detailed_table <- Formatter.lift
           (Formatter.format_detailed_resources_table
              tabulate py_repr (resources r) (Cli.arg_format args)) ;;
         print detailed_table
       else
         print (Formatter.format_resources_table
                  tabulate py_repr (resources r) (Cli.arg_format args))
     else ret tt) w = (inr tt, w').
Proof.
  intros H. destruct (Cli.arg_summary_only args); cbn [negb].
  - unfold ret. eauto.
  - rewrite !bind_print. destruct (Cli.arg_detailed args).
    + destruct H as [H | [H | H]]; try discriminate.
      destruct (detailed_table_ok tabulate py_repr _ (Cli.arg_format args) H) as [out Hout].
      unfold bind, Formatter.lift. rewrite Hout. unfold print. eauto.
    + unfold print. eauto.
Qed.

Lemma csv_export_run o rs w :
  Forall (fun filename => open_error filename = None) (given o) ->
  exists w',
    Cli.when_given o (fun filename =>
      csv_message <- Formatter.export_to_csv py_repr open_error rs filename ;;
      print ("\n" ++ csv_message)) w = (inr tt, w').
Proof.
  unfold Cli.when_given, given. destruct o as [s |]; [destruct (String.eqb s "") |]; intros H.
  - unfold ret. eauto.
  - inversion H as [| ? ? Hopen _]; subst.
    unfold bind, Formatter.export_to_csv, Formatter.write_file, ret, print. cbn.
    rewrite Hopen. cbn. eauto.
  - unfold ret. eauto.
Qed.

Lemma json_export_run o r w :
  Forall (fun filename => open_error filename = None) (given o) ->
  exists w',
    Cli.when_given o (fun filename =>
      json_message <- Formatter.export_to_json open_error r filename ;;
      print ("\n" ++ json_message)) w = (inr tt, w').
Proof.
  unfold Cli.when_given, given. destruct o as [s |]; [destruct (String.eqb s "") |]; intros H.
  - unfold ret. eauto.
  - inversion H as [| ? ? Hopen _]; subst.
    unfold bind, Formatter.export_to_json, Formatter.write_file, ret, print. cbn.
    rewrite Hopen. cbn. eauto.
  - unfold ret. eauto.
Qed.

(** [main] returns, that is exits on status 0, whenever the identifier
    passes the check, the session is created, discovery returns a result,
    every requested export path can be opened, and the tables asked for
    can be drawn: [--summary-only] is given, or [--detailed] is not, or
    every resource found is displayable. *)
Theorem discovered_and_exportable_exits_zero args w r w1 :
  Cli.invalid_instance_id (Cli.arg_instance_id args) = false ->
  session_init aws (Cli.arg_profile args) (Cli.arg_region args) = None ->
  Discovery.discover_all_resources aws (Cli.arg_instance_id args) (after_header now args w)
    = (inr (Some r), w1) ->
  Cli.arg_summary_only args = true \/ Cli.arg_detailed args = false \/
  Forall (fun x => displayable x = true) (resources r) ->
  Forall (fun filename => open_error filename = None)
         (given (Cli.arg_export_csv args) ++ given (Cli.arg_export_json args)) ->
  fst (Cli.main aws tabulate py_repr open_error now args w) = inr tt.
Proof.
  intros Hvalid Hsession Hd Htables Hopen.
  apply Forall_app in Hopen as [Hcsv Hjson].
  unfold Cli.main. rewrite Hvalid. rewrite !bind_print.
  unfold after_header in Hd. cbn [fold_left] in Hd.
  match goal with
  | |- fst (try_except ?body ?h ?w0) = _ =>
      assert (Hbody : exists w', body w0 = (inr tt, w'))
  end.
  { rewrite (bind_run _ _ _ _ _ (init_ok aws _ _ _ Hsession)).
    rewrite (bind_run _ _ _ _ _ Hd). cbv beta iota. rewrite !bind_print.
    match goal with
    | |- exists w', bind ?c ?k ?wx = _ =>
        destruct (tables_run args r wx Htables) as [w2 H2];
        rewrite (bind_run c k wx tt w2 H2)
    end.
    match goal with
    | |- exists w', bind ?c ?k ?wx = _ =>
        destruct (csv_export_run (Cli.arg_export_csv args) (resources r) wx Hcsv) as [w3 H3];
        rewrite (bind_run c k wx tt w3 H3)
    end.
    match goal with
    | |- exists w', bind ?c ?k ?wx = _ =>
        destruct (json_export_run (Cli.arg_export_json args) r wx Hjson) as [w4 H4];
        rewrite (bind_run c k wx tt w4 H4)
    end.
    rewrite !bind_print. unfold print. eauto. }
  destruct Hbody as [w' Hbody]. rewrite (try_except_ok _ _ _ _ _ Hbody). reflexivity.
Qed.

End CommandSuccess.

(* ================================================================== *)
(** ** The further properties at sample inputs *)


Lemma collector_reports_what_it_absorbs_witness :
  exists evs msgs,
    extends world0 (snd (Discovery.get_associated_ami throttled_aws sample_id world0)) evs msgs /\
    length msgs <= 1.
Proof.
  destruct (collector_reports_what_it_absorbs throttled_aws
              (Discovery.get_associated_ami throttled_aws) sample_id world0 [])
    as (evs & msgs & He & _ & _ & Hlen & _).
  - cbn. do 3 right. left. reflexivity.
  - reflexivity.
  - exists evs, msgs. split; assumption.
Defined.

Lemma discovery_calls_and_reports_witness :
  exists evs msgs,
    extends world0 (snd (Discovery.discover_all_resources sample_aws sample_id world0))
            evs (banner sample_id :: msgs) /\
    7 <= length evs <= 10.
Proof.
  destruct (discovery_calls_and_reports sample_aws sample_id world0 sample_result
              (snd (Discovery.discover_all_resources sample_aws sample_id world0)))
    as (evs & msgs & He & _ & Hlen & _).
  - vm_compute. reflexivity.
  - exists evs, msgs. split; assumption.
Defined.

Lemma discovery_raises_no_Exception_witness : is_Exception KeyboardInterrupt = false.
Proof.
  apply (discovery_raises_no_Exception interrupted_aws sample_id world0).
  vm_compute. reflexivity.
Defined.


Lemma summary_total_is_one_plus_counts_witness : keys (summary sample_result) = summary_keys.
Proof.
  apply (summary_total_is_one_plus_counts sample_aws sample_id world0 sample_result).
  vm_compute. reflexivity.
Defined.

Lemma tags_dict_last_value_wins_witness :
  exists d, Discovery.tags_dict repeated_tags = VDict d /\ dict_get "Name" d = Some (VStr "new").
Proof.
  destruct (tags_dict_last_value_wins repeated_tags) as (d & Hd & _ & _ & Hlast).
  exists d. split; [exact Hd |].
  apply (Hlast [("Name", "old"); ("Owner", "DevTeam")] "Name" "new" []).
  - reflexivity.
  - cbn. tauto.
Defined.

Lemma volume_device_from_first_attachment_witness :
  Discovery.item "device" (Discovery.volume_info sample_id (sample_volume "vol-1" "/dev/sda1"))
    = VStr "/dev/sda1".
Proof.
  apply (proj1 (proj2 (volume_device_from_first_attachment
                         sample_id (sample_volume "vol-1" "/dev/sda1")))
           [] {| att_InstanceId := sample_id; att_Device := VStr "/dev/sda1";
                 att_DeleteOnTermination := VBool true |} []).
  - reflexivity.
  - reflexivity.
  - constructor.
Defined.

Lemma snapshot_query_filters_by_volume_ids_witness :
  exists ev,
    trace (snd (Discovery.get_associated_snapshots sample_aws sample_id world0))
      = trace world0 ++ [ok (DescribeVolumes sample_id); ev] /\
    ev_call ev = DescribeSnapshots [VStr "vol-1"; VStr "vol-2"].
Proof.
  apply (snapshot_query_filters_by_volume_ids sample_aws sample_id world0
           [sample_volume "vol-1" "/dev/sda1"; sample_volume "vol-2" "/dev/sdf"]).
  - reflexivity.
  - discriminate.
Defined.

Lemma no_image_id_no_image_query_witness :
  Discovery.get_associated_ami plain_aws sample_id world0
    = (inr [], after_calls world0 [ok (LoadInstance sample_id)]).
Proof.
  apply (no_image_id_no_image_query plain_aws sample_id world0 plain_instance).
  - reflexivity.
  - reflexivity.
Defined.


Lemma grouping_is_stable_partition_witness :
  exists gs,
    Formatter.group_by_type (resources sample_result) [] = inr gs /\ distinct (map fst gs).
Proof.
  eexists. split.
  - vm_compute. reflexivity.
  - eapply (grouping_is_stable_partition (resources sample_result)).
    vm_compute. reflexivity.
Defined.

Lemma detailed_table_rejects_unhashable_type_witness :
  Formatter.format_detailed_resources_table blank_tabulate blank_repr
    [sample_record; untyped_record] "grid"
  = inl (TypeError "unhashable type").
Proof.
  apply (detailed_table_rejects_unhashable_type blank_tabulate blank_repr
           [sample_record; untyped_record] untyped_record "grid").
  - cbn. right. left. reflexivity.
  - reflexivity.
Defined.

Lemma discovery_result_groups_witness :
  exists inst rest,
    Formatter.group_by_type (resources sample_result) []
      = inr ((VStr "EC2 Instance", [inst]) :: rest) /\
    length rest <= 6.
Proof.
  destruct (discovery_result_groups sample_aws sample_id world0 sample_result)
    as (inst & rest & Hg & _ & _ & Hlen).
  - vm_compute. reflexivity.
  - exists inst, rest. split; assumption.
Defined.

Lemma flatten_last_assignment_wins_witness :
  dict_get "tags_Name" (Formatter.flatten blank_repr colliding_record) = Some (VStr "scratch").
Proof.
  rewrite (proj2 (proj2 (flatten_last_assignment_wins blank_repr colliding_record))).
  reflexivity.
Defined.

Lemma text_truncation_witness :
  Formatter.truncated "description" 40 wordy_group
    = inr (VStr "Security group allowing SSH access from ...").
Proof.
  destruct (proj1 (text_truncation "description" 40 wordy_group)
              "Security group allowing SSH access from office IP range")
    as (out & Hout & _ & _ & Hlong).
  - reflexivity.
  - rewrite Hout. destruct Hlong as (-> & _).
    + cbn. lia.
    + reflexivity.
Defined.

Lemma details_ignore_hidden_fields_witness :
  Formatter._format_resource_details blank_repr
    [("resource_type", VStr "AMI"); ("resource_id", VStr "ami-1"); ("name", VStr "N/A");
     ("architecture", VNone); ("tags", VDict [])] = "".
Proof.
  apply (proj2 (details_ignore_hidden_fields blank_repr _)).
  repeat constructor.
Defined.

Lemma summary_table_of_discovery_witness :
  exists volumes network_interfaces snapshots amis security_groups elastic_ips : nat,
    Formatter.format_summary_table blank_tabulate (summary sample_result) "grid"
    = blank_tabulate
        [ summary_row "Volumes" (Z.of_nat volumes);
          summary_row "Network Interfaces" (Z.of_nat network_interfaces);
          summary_row "Snapshots" (Z.of_nat snapshots);
          summary_row "Amis" (Z.of_nat amis);
          summary_row "Security Groups" (Z.of_nat security_groups);
          summary_row "Elastic Ips" (Z.of_nat elastic_ips);
          summary_row "TOTAL"
            (Z.of_nat (1 + volumes + network_interfaces + snapshots + amis
                       + security_groups + elastic_ips)) ]
        "grid".
Proof.
  apply (summary_table_of_discovery sample_aws sample_id world0 sample_result).
  vm_compute. reflexivity.
Defined.

Lemma session_failure_exits_before_discovery_witness :
  Cli.exit_status
    (fst (Cli.main no_credentials_aws blank_tabulate blank_repr writable
            "2024-06-20 10:30:00" export_args world0)) = 1.
Proof.
  rewrite (session_failure_exits_before_discovery no_credentials_aws blank_tabulate
             blank_repr writable "2024-06-20 10:30:00" export_args world0
             (NoCredentialsError "Unable to locate credentials")).
  - reflexivity.
  - reflexivity.
  - reflexivity.
  - reflexivity.
Defined.

Lemma failed_load_exits_after_one_call_witness :
  Cli.exit_status
    (fst (Cli.main missing_aws blank_tabulate blank_repr writable
            "2024-06-20 10:30:00" export_args world0)) = 1.
Proof.
  destruct (failed_load_exits_after_one_call missing_aws blank_tabulate blank_repr writable
              "2024-06-20 10:30:00" export_args world0
              (ClientError "InvalidInstanceID.NotFound" "The instance ID does not exist"))
    as (lines & ev & Hmain & _).
  - reflexivity.
  - reflexivity.
  - reflexivity.
  - reflexivity.
  - rewrite Hmain. reflexivity.
Defined.

Lemma exit_zero_means_discovered_and_exported_witness :
  map fst (files (snd (Cli.main sample_aws blank_tabulate blank_repr writable
                         "2024-06-20 10:30:00" export_args world0)))
    = ["resources.csv"; "discovery_result.json"].
Proof.
  destruct (exit_zero_means_discovered_and_exported sample_aws blank_tabulate blank_repr
              writable "2024-06-20 10:30:00" export_args world0
              (snd (Cli.main sample_aws blank_tabulate blank_repr writable
                      "2024-06-20 10:30:00" export_args world0)))
    as (_ & _ & r & w1 & _ & _ & Hfiles & _).
  - vm_compute. reflexivity.
  - rewrite Hfiles. cbn. reflexivity.
Defined.


Lemma detailed_table_renders_displayable_records_witness :
  exists out,
    Formatter.format_detailed_resources_table blank_tabulate blank_repr
      [sample_record; wordy_group] "grid" = inr out.
Proof.
  apply (detailed_table_renders_displayable_records blank_tabulate blank_repr
           [sample_record; wordy_group] "grid").
  repeat constructor.
Defined.

Lemma discovery_result_renders_witness :
  exists out,
    Formatter.format_detailed_resources_table blank_tabulate blank_repr
      (resources sample_result) "github" = inr out.
Proof.
  apply (discovery_result_renders sample_aws sample_id world0 sample_result
           blank_tabulate blank_repr "github").
  - constructor; intros h q l H; cbn in H; injection H as <-; repeat constructor.
  - vm_compute. reflexivity.
Defined.

Lemma discovered_and_exportable_exits_zero_witness :
  fst (Cli.main sample_aws blank_tabulate blank_repr writable
         "2024-06-20 10:30:00" export_args world0) = inr tt.
Proof.
  apply (discovered_and_exportable_exits_zero sample_aws blank_tabulate blank_repr
           writable "2024-06-20 10:30:00" export_args world0 sample_result
           (snd (Discovery.discover_all_resources sample_aws sample_id
                   (after_header "2024-06-20 10:30:00" export_args world0)))).
  - reflexivity.
  - reflexivity.
  - vm_compute. reflexivity.
  - right. right. repeat constructor.
  - repeat constructor.
Defined.
